(** * The racing lobby gateway: a shallow embedding of [racing.gateway.ts]

    The gateway keeps three pieces of process state: the connection
    registry [clients], the reverse lookup [clientPlayerMap] and the room
    directory [rooms].  Every handler of the TypeScript class is rendered
    here as a function from the gateway state to the new state together
    with the list of effects it performed (messages put on sockets and
    calls made to the persistence services), in the order the source
    performs them.

    Conventions of the embedding:
    - a handler function runs to completion: the points where the source
      awaits the persistence services are calls whose outcome (resolved
      or rejected) is read from the [Store.t] argument of the handler.
      The source does not await its handlers, so another event can be
      handled while a handler is suspended at such a point; [run] takes
      the events one at a time, and the suspension of [startGame] is
      written out separately ([startGame_until_await],
      [startGame_after_await], [schedule]);
    - a JavaScript [number] is rendered as [Z]: the gateway only copies
      numbers, compares them with [===] and resets them to [0];
    - the payload of an inbound message is the typed DTO of the source
      (the fields the interface declares, with their declared types);
      for [syncPosition] and [syncCarPosition], which read their payload
      before they validate it, the payload may also be absent;
    - [o[k]] on a plain object is rendered as the lookup of an own
      property ([JsObj.get]).  The source finds a value under the names
      every object inherits from [Object.prototype]
      ([JsObj.inherited]) as well; a statement that rests on a lookup
      with a key chosen by the client coming back empty says that the
      key is not one of those names. *)

From Stdlib Require Import String Ascii List ZArith NArith Bool Lia.
From Stdlib Require Import DecimalString DecimalPos.
Import ListNotations.
Local Open Scope string_scope.
Local Open Scope list_scope.

(** ** JavaScript objects and Maps used as dictionaries *)

Module JsObj.

(** An array index in the sense of ECMAScript: the canonical decimal
    rendering of an integer below 2^32 - 1.  Such keys are enumerated
    first, in ascending numeric order, by [Object.keys]. *)
Definition digit (c : ascii) : option N :=
  let n := N_of_ascii c in
  if ((48 <=? n) && (n <=? 57))%N then Some (n - 48)%N else None.

Fixpoint digits (s : string) (acc : N) : option N :=
  match s with
  | EmptyString => Some acc
  | String c s' =>
      match digit c with
      | Some d => digits s' (10 * acc + d)%N
      | None => None
      end
  end.

Definition array_index (s : string) : option N :=
  match s with
  | EmptyString => None
  | String c rest =>
      match digits s 0%N with
      | Some n =>
          if (negb (Ascii.eqb c "0") || String.eqb rest "")
             && (n <=? 4294967294)%N
          then Some n else None
      | None => None
      end
  end.

(** The names a plain object inherits from [Object.prototype]: [o[k]]
    yields a value (a function, or the prototype itself) under each of
    them, whether or not [o] has an own property of that name. *)
Definition inherited (k : string) : bool :=
  existsb (String.eqb k)
    ["constructor"; "__defineGetter__"; "__defineSetter__";
     "hasOwnProperty"; "__lookupGetter__"; "__lookupSetter__";
     "isPrototypeOf"; "propertyIsEnumerable"; "toString"; "valueOf";
     "__proto__"; "toLocaleString"].

Section Dict.
Context {V : Type}.

(** Own properties in enumeration order. *)
Definition t := list (string * V).

(** [o[k]] for an own property [k], and [m.get(k)] of a [Map]. *)
Fixpoint get (o : t) (k : string) : option V :=
  match o with
  | [] => None
  | (k', v) :: o' => if String.eqb k' k then Some v else get o' k
  end.

Definition has (o : t) (k : string) : bool :=
  match get o k with Some _ => true | None => false end.

Fixpoint replace (o : t) (k : string) (v : V) : t :=
  match o with
  | [] => []
  | (k', v') :: o' =>
      if String.eqb k' k then (k', v) :: o' else (k', v') :: replace o' k v
  end.

Fixpoint insert_index (n : N) (k : string) (v : V) (o : t) : t :=
  match o with
  | [] => [(k, v)]
  | (k', v') :: o' =>
      match array_index k' with
      | Some m =>
          if (m <? n)%N then (k', v') :: insert_index n k v o'
          else (k, v) :: o
      | None => (k, v) :: o
      end
  end.

(** [o[k] = v]: an existing property keeps its place; a new array
    index goes to its numeric position, any other new key to the end. *)
Definition set (o : t) (k : string) (v : V) : t :=
  if has o k then replace o k v
  else match array_index k with
       | Some n => insert_index n k v o
       | None => (o ++ [(k, v)])%list
       end.

(** [m.set(k, v)] of a [Map]: insertion order, whatever the key. *)
Definition map_set (o : t) (k : string) (v : V) : t :=
  if has o k then replace o k v else (o ++ [(k, v)])%list.

(** [delete o[k]] and [m.delete(k)]. *)
Definition delete (o : t) (k : string) : t :=
  filter (fun e => negb (String.eqb (fst e) k)) o.

Definition keys (o : t) : list string := map fst o.
Definition values (o : t) : list V := map snd o.
Definition size (o : t) : nat := length o.

(** In-place mutation of the value stored under [k]
    ([o[k].field = ...]); nothing happens when [k] is absent. *)
Definition update (o : t) (k : string) (f : V -> V) : t :=
  map (fun e => if String.eqb (fst e) k then (fst e, f (snd e)) else e) o.

(** [Object.values(o).forEach(v => mutate v)]. *)
Definition map_values (f : V -> V) (o : t) : t :=
  map (fun e => (fst e, f (snd e))) o.

End Dict.
Arguments t : clear implicits.

End JsObj.

(** ** Schemas *)

(** [RoomStatus] of [room.schema.ts]: 'Waiting', 'Playing', 'Finished'. *)
Inductive RoomStatus := WAITING | RUNNING | FINISHED.

(** [PlayerStatus] of [player.schema.ts]: Waiting = 0, Ready = 1. *)
Inductive PlayerStatus := Waiting | Ready.

Definition RoomStatus_eqb (a b : RoomStatus) : bool :=
  match a, b with
  | WAITING, WAITING | RUNNING, RUNNING | FINISHED, FINISHED => true
  | _, _ => false
  end.

Definition PlayerStatus_eqb (a b : PlayerStatus) : bool :=
  match a, b with
  | Waiting, Waiting | Ready, Ready => true
  | _, _ => false
  end.

Module Vec3.
Record t := mk { x : Z; y : Z; z : Z }.
Definition zero : t := mk 0 0 0.
End Vec3.

(** [PlayerCarEntry]: the gateway reads [id] only; the descriptive
    columns travel with the entry. *)
Module PlayerCarEntry.
Record t := mk { id : Z; model : string; brand : string; name : string }.
End PlayerCarEntry.

(** The [Player] document.  [columns] are the stored fields the gateway
    copies into a session; [doc] is the document found under a given
    [_id]. *)
Module Player.
Record columns := mkColumns {
  c_telegramId : string;
  c_playerName : string;
  c_mainCar : Z;
  c_ownerCars : list PlayerCarEntry.t
}.

Record t := mk {
  _id : string;
  telegramId : string;
  playerName : string;
  mainCar : Z;
  ownerCars : list PlayerCarEntry.t
}.

Definition doc (id : string) (c : columns) : t :=
  mk id (c_telegramId c) (c_playerName c) (c_mainCar c) (c_ownerCars c).
End Player.

(** [interface PlayerData]. *)
Module PlayerData.
Record t := mk {
  socketId : string;
  playerName : string;
  mainCar : Z;
  ownerCars : list PlayerCarEntry.t;
  _id : string;
  telegramId : string;
  isHost : bool;
  position : Vec3.t;
  rotation : Vec3.t;
  speed : Z;
  status : PlayerStatus;
  distance : Z;
  isLoaded : bool
}.

Definition set_status (s : PlayerStatus) (p : t) : t :=
  mk (socketId p) (playerName p) (mainCar p) (ownerCars p) (_id p)
     (telegramId p) (isHost p) (position p) (rotation p) (speed p)
     s (distance p) (isLoaded p).

Definition set_mainCar (c : Z) (p : t) : t :=
  mk (socketId p) (playerName p) c (ownerCars p) (_id p)
     (telegramId p) (isHost p) (position p) (rotation p) (speed p)
     (status p) (distance p) (isLoaded p).

Definition set_isLoaded (b : bool) (p : t) : t :=
  mk (socketId p) (playerName p) (mainCar p) (ownerCars p) (_id p)
     (telegramId p) (isHost p) (position p) (rotation p) (speed p)
     (status p) (distance p) b.

Definition set_transform (pos rot : Vec3.t) (sp : Z) (dist : Z) (p : t) : t :=
  mk (socketId p) (playerName p) (mainCar p) (ownerCars p) (_id p)
     (telegramId p) (isHost p) pos rot sp
     (status p) dist (isLoaded p).
End PlayerData.

(** [interface RoomData]; [password] is [None] for [null]. *)
Module RoomData.
Record t := mk {
  id : string;
  value : Z;
  password : option string;
  status : RoomStatus;
  players : JsObj.t PlayerData.t
}.

Definition set_status (s : RoomStatus) (r : t) : t :=
  mk (id r) (value r) (password r) s (players r).

Definition set_players (ps : JsObj.t PlayerData.t) (r : t) : t :=
  mk (id r) (value r) (password r) (status r) ps.

Definition map_players
    (f : JsObj.t PlayerData.t -> JsObj.t PlayerData.t) (r : t) : t :=
  set_players (f (players r)) r.
End RoomData.

(** The [Room] document of the durable store.  [password] is the one
    optional column; a document without an id has the empty one. *)
Module Room.
Record t := mk {
  id : string;
  value : Z;
  password : option string;
  status : RoomStatus;
  players : list string
}.
End Room.

(** ** Data transfer objects *)

Module CreateRoomDto.
Record t := mk { value : Z; password : option string; playerId : string }.
End CreateRoomDto.

Module JoinRoomDto.
Record t := mk { roomID : string; playerId : string; password : option string }.
End JoinRoomDto.

Module KickPlayerDto.
Record t := mk { roomID : string; targetSocketID : string }.
End KickPlayerDto.

Module StartGameDto.
Record t := mk { roomID : string; map : Z }.
End StartGameDto.

Module WaitingRoomDto.
Record t := mk { roomID : string }.
End WaitingRoomDto.

Module LoadingGameDto.
Record t := mk { roomID : string; playerID : string }.
End LoadingGameDto.

Module PlayerReadyDto.
Record t := mk { roomID : string; playerID : string }.
End PlayerReadyDto.

Module PlayerChangeCarDto.
Record t := mk { roomID : string; playerID : string; mainCar : Z }.
End PlayerChangeCarDto.

Module PositionSyncDto.
Record t := mk {
  roomID : string;
  position : Vec3.t;
  rotation : Vec3.t;
  speed : Z;
  distance : option Z
}.
End PositionSyncDto.

(** ** Outbound messages *)

(** An entry of [getPublicRoomList]. *)
Module PublicRoom.
Record t := mk {
  id : string;
  status : RoomStatus;
  value : Z;
  isPassword : bool;
  playerCount : nat
}.
End PublicRoom.

(** An entry of the [players] array of [gameStarted]. *)
Module StartedPlayer.
Record t := mk {
  socketId : string;
  playerId : string;
  playerName : string;
  mainCar : Z;
  isHost : bool;
  position : Vec3.t;
  rotation : Vec3.t
}.
End StartedPlayer.

(** The envelopes [{event, data}] the gateway emits, one constructor per
    event tag. *)
Inductive OutMsg :=
| roomListUpdated (rooms : list PublicRoom.t)
| yourSocketId (socketID : string)
| roomDetails (id : string) (status : RoomStatus) (value : Z)
              (playerCount : nat) (players : list PlayerData.t)
| updatePlayers (players : list PlayerData.t)
| playerJoined (player : PlayerData.t)
| playerLeft (socketID : string) (playerId : string)
| playerLeft_ (socketId : string) (playerId : string)
    (** the payload of [leaveRoom], whose field is spelled [socketId] *)
| leftRoom (roomID : string)
| roomClosed (reason : string)
| kicked (roomID : string) (reason : string)
| playerKicked (socketID : string) (playerId : string)
| gameStarted (roomID : string) (map : Z) (status : RoomStatus)
              (players : list StartedPlayer.t)
| gameStartFailed
| playersNotReady (players : list string)
| updateWaitingRoom (roomID : string) (status : RoomStatus)
| playerIsReady (socketID : string) (playerId : string)
| allPlayersLoaded (roomID : string)
| playerPositionUpdate (socketID : string) (position rotation : Vec3.t)
                       (speed distance : Z)
| carPositionUpdate (socketID : string) (position rotation : Vec3.t)
                    (speed : Z)
| error (message : string) (details : option string)
| ping_response.

(** ** The persistence services *)

(** The settlement of an awaited promise. *)
Inductive Outcome (A : Type) :=
| Resolved (a : A)
| Rejected (message : string).
Arguments Resolved {A} a.
Arguments Rejected {A} message.

(** What the durable store answers while one handler runs.  The fields
    are the queries and updates [RoomService] and [PlayerService] send to
    their collections. *)
Module Store.
Record t := mk {
  (** [playerModel.findById(id)]: the stored columns, if any. *)
  findPlayerById : string -> Outcome (option Player.columns);
  (** [getNextSequenceValue] followed by [newRoom.save()]: the sequence
      value the new room document is stored under. *)
  insertRoom : Outcome positive;
  updatePlayerSocket : string -> string -> bool -> Outcome unit;
  updatePlayerStatus : string -> PlayerStatus -> Outcome unit;
  updateMainCar : string -> Z -> Outcome unit;
  addPlayerToRoom : string -> string -> Outcome unit;
  leaveRoom : string -> string -> Outcome unit;
  deleteRoom : string -> Outcome bool;
  updateRoomStatus : string -> RoomStatus -> Outcome unit;
  getRoomWithId : string -> Outcome (option Room.t)
}.
End Store.

(** A call of a service method, as recorded among the effects. *)
Module Call.
Inductive t :=
| getPlayerWithId (id : string)
| createRoom (value : Z) (password : string) (players : list string)
| updatePlayerSocket (id socketId : string) (isHost : bool)
| updatePlayerStatus (id : string) (status : PlayerStatus)
| updateMainCar (id : string) (mainCar : Z)
| addPlayerToRoom (roomId playerId : string)
| leaveRoom (roomId playerId : string)
| deleteRoom (roomId : string)
| updateRoomStatus (roomId : string) (status : RoomStatus)
| getRoomWithId (id : string).
End Call.

(** [PlayerService.getPlayerWithId]. *)
Definition getPlayerWithId (db : Store.t) (id : string)
  : Outcome (option Player.t) :=
  match Store.findPlayerById db id with
  | Resolved (Some c) => Resolved (Some (Player.doc id c))
  | Resolved None => Resolved None
  | Rejected m => Rejected m
  end.

(** The id of a room document: the sequence value cast to the schema's
    string type. *)
Definition roomIdOfSeq (n : positive) : string :=
  NilEmpty.string_of_uint (Pos.to_uint n).

(** [RoomService.createRoom]: the document is the given data with the
    next sequence value as [id]. *)
Definition RoomService_createRoom (db : Store.t)
    (value : Z) (password : string) (players : list string)
    (status : RoomStatus) : Outcome Room.t :=
  match Store.insertRoom db with
  | Resolved n =>
      Resolved (Room.mk (roomIdOfSeq n) value (Some password) status players)
  | Rejected m => Rejected m
  end.

(** ** Gateway state and effects *)

Inductive ReadyState := CONNECTING | OPEN | CLOSING | CLOSED.

(** The transport handle; only its [readyState] is read. *)
Record WebSocket := { readyState : ReadyState }.

Definition isOPEN (ws : WebSocket) : bool :=
  match readyState ws with OPEN => true | _ => false end.

Inductive Effect :=
| Send (socketId : string) (m : OutMsg)
    (** [client.send] from [sendToClient] *)
| RoomCast (roomID : string) (m : OutMsg) (recipients : list string)
    (** the send loop of [broadcastToRoom] and the sockets it wrote to *)
| AllCast (m : OutMsg) (recipients : list string)
    (** the send loop of [broadcastToAll] and the sockets it wrote to *)
| Persist (c : Call.t)
    (** a call of a persistence service *).

Module Gateway.
Record t := mk {
  clients : JsObj.t WebSocket;
  clientPlayerMap : JsObj.t string;
  rooms : JsObj.t RoomData.t;
  (** [process.env.NODE_ENV === 'production'] *)
  production : bool
}.

Definition set_clients (c : JsObj.t WebSocket) (g : t) : t :=
  mk c (clientPlayerMap g) (rooms g) (production g).
Definition set_clientPlayerMap (m : JsObj.t string) (g : t) : t :=
  mk (clients g) m (rooms g) (production g).
Definition set_rooms (r : JsObj.t RoomData.t) (g : t) : t :=
  mk (clients g) (clientPlayerMap g) r (production g).
End Gateway.

(** A handler returns the new state and the effects performed. *)
Definition Result : Type := Gateway.t * list Effect.

(** How a synchronous call ends: it returns, or it throws and the
    exception travels up to the nearest [catch]. *)
Inductive Completion (A : Type) :=
| Normal (a : A)
| Throw.
Arguments Normal {A} a.
Arguments Throw {A}.

(** Truthiness of a string. *)
Definition truthy (s : string) : bool := negb (String.eqb s "").

(** ** Broadcasting and sending helpers *)

Section Helpers.
Import Gateway.
Variable g : Gateway.t.

(** The socket registered under [socketId] exists and is writable. *)
Definition isOpen (socketId : string) : bool :=
  match JsObj.get (clients g) socketId with
  | Some ws => isOPEN ws
  | None => false
  end.

(** [sendToClient].  The handlers pass the socket object of the
    sending connection, which the registry holds under [socketId] from
    the connection to its cleanup; looking the object up is looking up
    that key. *)
Definition sendToClient (socketId : string) (m : OutMsg) : list Effect :=
  if isOpen socketId then [Send socketId m] else [].

(** [sendError]: [details] travel only outside production, and only
    when truthy. *)
Definition sendError (socketId : string) (message : string)
    (details : option string) : list Effect :=
  sendToClient socketId
    (error message
       (if production g then None
        else match details with
             | Some d => if truthy d then Some d else None
             | None => None
             end)).

Definition isExcluded (excludeSocketId : option string) (socketId : string)
  : bool :=
  match excludeSocketId with
  | Some e => String.eqb socketId e
  | None => false
  end.

(** [broadcastToAll]. *)
Definition broadcastToAll (m : OutMsg) (excludeSocketId : option string)
  : list Effect :=
  match clients g with
  | [] => []
  | cs =>
      [AllCast m
         (map fst
            (filter (fun c => negb (isExcluded excludeSocketId (fst c))
                              && isOPEN (snd c)) cs))]
  end.

(** [broadcastToRoom]. *)
Definition broadcastToRoom (roomID : string) (m : OutMsg)
    (excludeSocketId : option string) : list Effect :=
  match JsObj.get (rooms g) roomID with
  | None => []
  | Some room =>
      match JsObj.keys (RoomData.players room) with
      | [] => []
      | ks =>
          [RoomCast roomID m
             (filter (fun k => negb (isExcluded excludeSocketId k)
                               && isOpen k) ks)]
      end
  end.

Definition publicRoom (room : RoomData.t) : PublicRoom.t :=
  PublicRoom.mk (RoomData.id room) (RoomData.status room)
    (RoomData.value room)
    (match RoomData.password room with
     | Some p => truthy p
     | None => false
     end)
    (JsObj.size (RoomData.players room)).

(** [getPublicRoomList]; a status is a non-empty string, so the
    validity filter reduces to the id being truthy. *)
Definition getPublicRoomList : list PublicRoom.t :=
  map publicRoom
    (filter (fun room => truthy (RoomData.id room))
       (JsObj.values (rooms g))).

(** [broadcastRoomList]. *)
Definition broadcastRoomList : list Effect :=
  broadcastToAll (roomListUpdated getPublicRoomList) None.

(** The first room, in key order, holding a session of the player. *)
Definition roomOfPlayer (playerId : string) : option string :=
  find (fun roomId =>
          match JsObj.get (rooms g) roomId with
          | Some room =>
              existsb (fun pl => String.eqb (PlayerData._id pl) playerId)
                (JsObj.values (RoomData.players room))
          | None => false
          end)
    (JsObj.keys (rooms g)).

(** The first room, in key order, holding a session of the socket. *)
Definition roomOfSocket (socketId : string) : option string :=
  find (fun roomID =>
          match JsObj.get (rooms g) roomID with
          | Some room => JsObj.has (RoomData.players room) socketId
          | None => false
          end)
    (JsObj.keys (rooms g)).

(** [this.rooms[roomID].players[socketId]]. *)
Definition session (roomID socketId : string) : option PlayerData.t :=
  match JsObj.get (rooms g) roomID with
  | Some room => JsObj.get (RoomData.players room) socketId
  | None => None
  end.

End Helpers.

(** In-place mutation of a room of the directory, and of a session. *)
Definition updateRoom (roomID : string) (f : RoomData.t -> RoomData.t)
    (g : Gateway.t) : Gateway.t :=
  Gateway.set_rooms (JsObj.update (Gateway.rooms g) roomID f) g.

Definition updatePlayer (roomID socketId : string)
    (f : PlayerData.t -> PlayerData.t) (g : Gateway.t) : Gateway.t :=
  updateRoom roomID
    (RoomData.map_players (fun ps => JsObj.update ps socketId f)) g.

Definition deletePlayer (roomID socketId : string) (g : Gateway.t)
  : Gateway.t :=
  updateRoom roomID
    (RoomData.map_players (fun ps => JsObj.delete ps socketId)) g.

Definition deleteRoom (roomID : string) (g : Gateway.t) : Gateway.t :=
  Gateway.set_rooms (JsObj.delete (Gateway.rooms g) roomID) g.

Definition forgetPlayer (socketId : string) (g : Gateway.t) : Gateway.t :=
  Gateway.set_clientPlayerMap
    (JsObj.delete (Gateway.clientPlayerMap g) socketId) g.

Definition bindPlayer (socketId playerId : string) (g : Gateway.t)
  : Gateway.t :=
  Gateway.set_clientPlayerMap
    (JsObj.map_set (Gateway.clientPlayerMap g) socketId playerId) g.

(** [Object.values(room.players)] of a room of the directory. *)
Definition playersOf (g : Gateway.t) (roomID : string) : list PlayerData.t :=
  match JsObj.get (Gateway.rooms g) roomID with
  | Some room => JsObj.values (RoomData.players room)
  | None => []
  end.

(** ** Startup and connections *)

(** [loadRoomsFromDb]: structure only, never membership; documents
    without an id are skipped; a failing query leaves the directory
    empty.  [value] and [status] are required columns, so their
    defaults ([|| 0], [|| WAITING]) never apply. *)
Definition loadRoomsFromDb (snapshot : Outcome (list Room.t))
  : JsObj.t RoomData.t :=
  match snapshot with
  | Resolved roomListFromDb =>
      fold_left
        (fun newRoomsData room =>
           if truthy (Room.id room) then
             JsObj.set newRoomsData (Room.id room)
               (RoomData.mk (Room.id room) (Room.value room)
                  (match Room.password room with
                   | Some p => if truthy p then Some p else None
                   | None => None
                   end)
                  (Room.status room) [])
           else newRoomsData)
        roomListFromDb []
  | Rejected _ => []
  end.

(** The gateway once [onModuleInit] has loaded the rooms. *)
Definition init (production : bool) (snapshot : Outcome (list Room.t))
  : Gateway.t :=
  Gateway.mk [] [] (loadRoomsFromDb snapshot) production.

(** The ['connection'] listener: the socket is registered under a new
    id, then told the room list and its id. *)
Definition onConnection (g : Gateway.t) (socketId : string) : Result :=
  let g1 :=
    Gateway.set_clients
      (JsObj.map_set (Gateway.clients g) socketId {| readyState := OPEN |}) g in
  (g1,
   sendToClient g1 socketId (roomListUpdated (getPublicRoomList g1))
   ++ sendToClient g1 socketId (yourSocketId socketId))%list.

(** ** Disconnection *)

(** [handleDisconnect].  Its two store calls sit in their own
    try/catch: a rejection is logged and the cleanup goes on, so the
    answers of the store are not read. *)
Definition handleDisconnect (g : Gateway.t) (socketId : string)
    (db : Store.t) : Result :=
  if negb (JsObj.has (Gateway.clients g) socketId) then (g, [])
  else
    let cleanup (r : Result) : Result :=
      (Gateway.set_clientPlayerMap
         (JsObj.delete (Gateway.clientPlayerMap (fst r)) socketId)
         (Gateway.set_clients
            (JsObj.delete (Gateway.clients (fst r)) socketId) (fst r)),
       snd r) in
    match roomOfSocket g socketId with
    | None => cleanup (g, [])
    | Some roomID =>
        match session g roomID socketId with
        | None => cleanup (g, [])
        | Some player =>
            let wasHost := PlayerData.isHost player in
            let disconnectedPlayerId := PlayerData._id player in
            let g1 := deletePlayer roomID socketId g in
            let e1 :=
              if truthy disconnectedPlayerId
              then [Persist (Call.leaveRoom roomID disconnectedPlayerId)]
              else [] in
            if truthy roomID then
              if wasHost then
                match JsObj.get (Gateway.rooms g1) roomID with
                | Some _ =>
                    let e2 :=
                      broadcastToRoom g1 roomID
                        (roomClosed "Host disconnected") None in
                    let g2 := deleteRoom roomID g1 in
                    cleanup
                      (g2,
                       e1 ++ e2 ++ [Persist (Call.deleteRoom roomID)]
                       ++ broadcastRoomList g2)%list
                | None => cleanup (g1, e1 ++ broadcastRoomList g1)%list
                end
              else
                match JsObj.get (Gateway.rooms g1) roomID with
                | Some currentRoomState =>
                    cleanup
                      (g1,
                       e1
                       ++ broadcastToRoom g1 roomID
                            (updatePlayers
                               (JsObj.values
                                  (RoomData.players currentRoomState)))
                            None
                       ++ broadcastToRoom g1 roomID
                            (playerLeft socketId disconnectedPlayerId) None
                       ++ broadcastRoomList g1)%list
                | None => cleanup (g1, e1 ++ broadcastRoomList g1)%list
                end
            else cleanup (g1, e1)
        end
    end.

(** ** Event handlers *)

(** The session literal of [createRoom]. *)
Definition hostPlayerData (socketId : string) (p : Player.t) : PlayerData.t :=
  PlayerData.mk socketId (Player.playerName p) (Player.mainCar p)
    (Player.ownerCars p) (Player._id p) (Player.telegramId p)
    true Vec3.zero Vec3.zero 0 Ready 0 false.

(** The session literal of [joinRoom]. *)
Definition newPlayerData (socketId : string) (p : Player.t) : PlayerData.t :=
  PlayerData.mk socketId (Player.playerName p) (Player.mainCar p)
    (Player.ownerCars p) (Player._id p) (Player.telegramId p)
    false Vec3.zero Vec3.zero 0 Waiting 0 false.

(** [data.password || '']. *)
Definition passwordOrEmpty (password : option string) : string :=
  match password with Some p => p | None => "" end.

(** [if (existingRoomId)]: the result of [find] counts as found when it
    is a truthy key. *)
Definition found (roomId : option string) : option string :=
  match roomId with
  | Some r => if truthy r then Some r else None
  | None => None
  end.

(** [createRoom]. *)
Definition createRoom (g : Gateway.t) (socketId : string)
    (data : CreateRoomDto.t) (db : Store.t) : Result :=
  let playerId := CreateRoomDto.playerId data in
  let failed (calls : list Effect) (m : string) : Result :=
    (g, calls ++ sendError g socketId "Failed to create room." (Some m))%list in
  let c1 := Persist (Call.getPlayerWithId playerId) in
  match getPlayerWithId db playerId with
  | Rejected m => failed [c1] m
  | Resolved None => (g, c1 :: sendError g socketId "Player not found." None)
  | Resolved (Some p) =>
      match found (roomOfPlayer g playerId) with
      | Some existingRoomId =>
          (g, c1 :: sendError g socketId
                      ("Player is already in room " ++ existingRoomId ++ ".")%string
                      None)
      | None =>
          let value := CreateRoomDto.value data in
          let password := passwordOrEmpty (CreateRoomDto.password data) in
          let c2 := Persist (Call.createRoom value password [Player._id p]) in
          match RoomService_createRoom db value password [Player._id p]
                  WAITING with
          | Rejected m => failed [c1; c2] m
          | Resolved createdRoom =>
              let c3 :=
                Persist (Call.updatePlayerSocket (Player._id p) socketId true) in
              match Store.updatePlayerSocket db (Player._id p) socketId true with
              | Rejected m => failed [c1; c2; c3] m
              | Resolved _ =>
                  let id := Room.id createdRoom in
                  let hostPlayerData := hostPlayerData socketId p in
                  let g1 :=
                    Gateway.set_rooms
                      (JsObj.set (Gateway.rooms g) id
                         (RoomData.mk id (Room.value createdRoom)
                            (Room.password createdRoom)
                            (Room.status createdRoom) []))
                      g in
                  let g2 :=
                    updateRoom id
                      (RoomData.map_players
                         (fun ps => JsObj.set ps socketId hostPlayerData))
                      g1 in
                  let g3 := bindPlayer socketId (Player._id p) g2 in
                  (g3,
                   [c1; c2; c3]
                   ++ sendToClient g3 socketId
                        (roomDetails id (Room.status createdRoom)
                           (Room.value createdRoom) 1 [hostPlayerData])
                   ++ broadcastRoomList g3)%list
              end
          end
      end
  end.

Definition MAX_PLAYERS : nat := 5.

(** [room.password && room.password !== password]. *)
Definition passwordRefused (roomPassword password : option string) : bool :=
  match roomPassword with
  | Some p =>
      truthy p
      && negb match password with
              | Some q => String.eqb p q
              | None => false
              end
  | None => false
  end.

(** [joinRoom]. *)
Definition joinRoom (g : Gateway.t) (socketId : string)
    (data : JoinRoomDto.t) (db : Store.t) : Result :=
  let roomID := JoinRoomDto.roomID data in
  let playerId := JoinRoomDto.playerId data in
  let password := JoinRoomDto.password data in
  (* the catch block: the error reply, then the cleanup of the durable
     membership *)
  let failed (calls : list Effect) (m : string) : Result :=
    (g,
     calls ++ sendError g socketId "Failed to join room." (Some m)
     ++ Persist (Call.getRoomWithId roomID)
        :: match Store.getRoomWithId db roomID with
           | Resolved (Some roomInDb) =>
               if existsb (String.eqb playerId) (Room.players roomInDb)
               then [Persist (Call.leaveRoom roomID playerId)]
               else []
           | _ => []
           end)%list in
  match JsObj.get (Gateway.rooms g) roomID with
  | None => (g, sendError g socketId "Room not found or is not active." None)
  | Some room =>
      if negb (RoomStatus_eqb (RoomData.status room) WAITING) then
        (g, sendError g socketId
              "Room is not waiting for players (already running or finished)."
              None)
      else if passwordRefused (RoomData.password room) password then
        (g, sendError g socketId "Incorrect password." None)
      else
        let c1 := Persist (Call.getPlayerWithId playerId) in
        match getPlayerWithId db playerId with
        | Rejected m => failed [c1] m
        | Resolved None =>
            (g, c1 :: sendError g socketId "Player not found." None)
        | Resolved (Some player) =>
            if (MAX_PLAYERS <=? JsObj.size (RoomData.players room))%nat then
              (g, c1 :: sendError g socketId "Room is full." None)
            else
              match found (roomOfPlayer g playerId) with
              | Some existingRoomId =>
                  if String.eqb existingRoomId roomID then
                    (g, c1 :: sendError g socketId
                                "You are already in this room." None)
                  else
                    (g, c1 :: sendError g socketId
                                ("Player is already in another room ("
                                 ++ existingRoomId ++ ").")%string None)
              | None =>
                  let c2 :=
                    Persist (Call.addPlayerToRoom roomID (Player._id player)) in
                  match Store.addPlayerToRoom db roomID (Player._id player) with
                  | Rejected m => failed [c1; c2] m
                  | Resolved _ =>
                      let c3 :=
                        Persist (Call.updatePlayerSocket (Player._id player)
                                   socketId false) in
                      match Store.updatePlayerSocket db (Player._id player)
                              socketId false with
                      | Rejected m => failed [c1; c2; c3] m
                      | Resolved _ =>
                          let newPlayerData := newPlayerData socketId player in
                          let g1 :=
                            updateRoom roomID
                              (RoomData.map_players
                                 (fun ps =>
                                    JsObj.set ps socketId newPlayerData))
                              g in
                          let g2 :=
                            bindPlayer socketId (Player._id player) g1 in
                          (g2,
                           [c1; c2; c3]
                           ++ sendToClient g2 socketId
                                (roomDetails roomID (RoomData.status room)
                                   (RoomData.value room)
                                   (length (playersOf g2 roomID))
                                   (playersOf g2 roomID))
                           ++ broadcastToRoom g2 roomID
                                (updatePlayers (playersOf g2 roomID))
                                (Some socketId)
                           ++ broadcastToRoom g2 roomID
                                (playerJoined newPlayerData) (Some socketId)
                           ++ broadcastRoomList g2)%list
                      end
                  end
              end
        end
  end.

(** [leaveRoom].  A rejected store call leaves through the catch
    block, which only logs. *)
Definition leaveRoom (g : Gateway.t) (socketId : string) (db : Store.t)
  : Result :=
  let playerId := JsObj.get (Gateway.clientPlayerMap g) socketId in
  match found (roomOfSocket g socketId) with
  | None => (g, [])
  | Some roomIDToLeave =>
      let wasHost :=
        match session g roomIDToLeave socketId with
        | Some pl => PlayerData.isHost pl
        | None => false
        end in
      match found playerId with
      | None =>
          let g1 := forgetPlayer socketId (deletePlayer roomIDToLeave socketId g) in
          (g1, broadcastRoomList g1)
      | Some playerId =>
          match JsObj.get (Gateway.rooms g) roomIDToLeave with
          | None => (forgetPlayer socketId g, [])
          | Some _ =>
              let e1 := sendToClient g socketId (leftRoom roomIDToLeave) in
              let g1 :=
                forgetPlayer socketId (deletePlayer roomIDToLeave socketId g) in
              let c1 := Persist (Call.leaveRoom roomIDToLeave playerId) in
              match Store.leaveRoom db roomIDToLeave playerId with
              | Rejected _ => (g1, e1 ++ [c1])%list
              | Resolved _ =>
                  if wasHost then
                    let e2 :=
                      broadcastToRoom g1 roomIDToLeave (roomClosed "Host left")
                        None in
                    let g2 := deleteRoom roomIDToLeave g1 in
                    let c2 := Persist (Call.deleteRoom roomIDToLeave) in
                    match Store.deleteRoom db roomIDToLeave with
                    | Rejected _ => (g2, e1 ++ [c1] ++ e2 ++ [c2])%list
                    | Resolved _ =>
                        (g2, e1 ++ [c1] ++ e2 ++ [c2]
                             ++ broadcastRoomList g2)%list
                    end
                  else
                    let e2 :=
                      match JsObj.get (Gateway.rooms g1) roomIDToLeave with
                      | Some _ =>
                          (broadcastToRoom g1 roomIDToLeave
                             (updatePlayers (playersOf g1 roomIDToLeave)) None
                           ++ broadcastToRoom g1 roomIDToLeave
                                (playerLeft_ socketId playerId) None)%list
                      | None => []
                      end in
                    (g1, e1 ++ [c1] ++ e2 ++ broadcastRoomList g1)%list
              end
          end
      end
  end.

(** [kickPlayer]. *)
Definition kickPlayer (g : Gateway.t) (socketId : string)
    (data : KickPlayerDto.t) (db : Store.t) : Result :=
  let roomID := KickPlayerDto.roomID data in
  let targetSocketID := KickPlayerDto.targetSocketID data in
  if String.eqb socketId targetSocketID then
    (g, sendError g socketId "You cannot kick yourself." None)
  else
    match JsObj.get (Gateway.rooms g) roomID with
    | None => (g, sendError g socketId "Room not found." None)
    | Some room =>
        if negb match JsObj.get (RoomData.players room) socketId with
                | Some kickerPlayer => PlayerData.isHost kickerPlayer
                | None => false
                end then
          (g, sendError g socketId "Only the host can kick players." None)
        else
          match JsObj.get (RoomData.players room) targetSocketID with
          | None =>
              (g, sendError g socketId "Target player not found in this room."
                    None)
          | Some targetPlayer =>
              let targetPlayerId := PlayerData._id targetPlayer in
              let e1 :=
                sendToClient g targetSocketID
                  (kicked roomID "Kicked by host") in
              let g1 :=
                forgetPlayer targetSocketID
                  (deletePlayer roomID targetSocketID g) in
              let c1 := Persist (Call.leaveRoom roomID targetPlayerId) in
              match Store.leaveRoom db roomID targetPlayerId with
              | Rejected m =>
                  (g1, e1 ++ [c1]
                       ++ sendError g1 socketId "Failed to kick player."
                            (Some m))%list
              | Resolved _ =>
                  (g1, e1 ++ [c1]
                       ++ broadcastToRoom g1 roomID
                            (updatePlayers (playersOf g1 roomID)) None
                       ++ broadcastToRoom g1 roomID
                            (playerKicked targetSocketID targetPlayerId) None
                       ++ broadcastRoomList g1)%list
              end
          end
    end.

(** The guard shared by [playerReady], [playerChangeCar] and
    [loadingGame]: the sender holds a session of the room whose [_id] is
    the claimed player and which the reverse lookup confirms. *)
Definition claimedSession (g : Gateway.t) (room : RoomData.t)
    (socketId playerID : string) : option PlayerData.t :=
  match JsObj.get (RoomData.players room) socketId with
  | Some player =>
      if String.eqb (PlayerData._id player) playerID
         && match JsObj.get (Gateway.clientPlayerMap g) socketId with
            | Some bound => String.eqb bound playerID
            | None => false
            end
      then Some player else None
  | None => None
  end.

(** [playerReady]. *)
Definition playerReady (g : Gateway.t) (socketId : string)
    (data : PlayerReadyDto.t) (db : Store.t) : Result :=
  let roomID := PlayerReadyDto.roomID data in
  let playerID := PlayerReadyDto.playerID data in
  match JsObj.get (Gateway.rooms g) roomID with
  | None => (g, [])
  | Some room =>
      if negb (RoomStatus_eqb (RoomData.status room) WAITING) then
        (g, sendError g socketId "Cannot change ready status now." None)
      else
        match claimedSession g room socketId playerID with
        | None =>
            (g, sendError g socketId "Player mismatch or not found in room."
                  None)
        | Some player =>
            if PlayerStatus_eqb (PlayerData.status player) Ready then (g, [])
            else
              let g1 :=
                updatePlayer roomID socketId (PlayerData.set_status Ready) g in
              let c1 :=
                Persist (Call.updatePlayerStatus (PlayerData._id player) Ready) in
              match Store.updatePlayerStatus db (PlayerData._id player) Ready with
              | Resolved _ =>
                  (g1, [c1]
                       ++ broadcastToRoom g1 roomID
                            (updatePlayers (playersOf g1 roomID)) None
                       ++ broadcastToRoom g1 roomID
                            (playerIsReady socketId (PlayerData._id player))
                            None)%list
              | Rejected m =>
                  (* the catch block writes Ready again and re-sends the
                     roster *)
                  let e := sendError g1 socketId "Failed to set ready status."
                             (Some m) in
                  match session g1 roomID socketId with
                  | Some _ =>
                      let g2 :=
                        updatePlayer roomID socketId
                          (PlayerData.set_status Ready) g1 in
                      (g2, [c1] ++ e
                           ++ broadcastToRoom g2 roomID
                                (updatePlayers (playersOf g2 roomID)) None)%list
                  | None => (g1, [c1] ++ e)%list
                  end
              end
        end
  end.

(** [playerChangeCar]. *)
Definition playerChangeCar (g : Gateway.t) (socketId : string)
    (data : PlayerChangeCarDto.t) (db : Store.t) : Result :=
  let roomID := PlayerChangeCarDto.roomID data in
  let playerID := PlayerChangeCarDto.playerID data in
  let mainCar := PlayerChangeCarDto.mainCar data in
  match JsObj.get (Gateway.rooms g) roomID with
  | None => (g, [])
  | Some room =>
      if negb (RoomStatus_eqb (RoomData.status room) WAITING) then
        (g, sendError g socketId "Cannot change car now." None)
      else
        match claimedSession g room socketId playerID with
        | None =>
            (g, sendError g socketId "Player mismatch or not found in room."
                  None)
        | Some player =>
            if (PlayerData.mainCar player =? mainCar)%Z then (g, [])
            else if negb (existsb
                            (fun carEntry =>
                               (PlayerCarEntry.id carEntry =? mainCar)%Z)
                            (PlayerData.ownerCars player)) then
              (g, sendError g socketId "You do not own this car." None)
            else
              let g1 :=
                updatePlayer roomID socketId (PlayerData.set_mainCar mainCar) g in
              let c1 :=
                Persist (Call.updateMainCar (PlayerData._id player) mainCar) in
              match Store.updateMainCar db (PlayerData._id player) mainCar with
              | Resolved _ =>
                  (g1, [c1]
                       ++ broadcastToRoom g1 roomID
                            (updatePlayers (playersOf g1 roomID)) None)%list
              | Rejected m =>
                  (g1, [c1]
                       ++ sendError g1 socketId "Failed to change car."
                            (Some m))%list
              end
        end
  end.

(** The loop of [updateStatusWaitingRoom] over [Object.values(room.players)]:
    every non-host session is set to Waiting and mirrored to the store;
    a rejected call leaves the loop (the result is [false]) with the
    sessions after it untouched. *)
Fixpoint resetNonHosts (db : Store.t) (ps : JsObj.t PlayerData.t)
  : JsObj.t PlayerData.t * list Effect * bool :=
  match ps with
  | [] => ([], [], true)
  | (k, p) :: rest =>
      if PlayerData.isHost p then
        let '(rest', calls, ok) := resetNonHosts db rest in
        ((k, p) :: rest', calls, ok)
      else
        let p' := PlayerData.set_status Waiting p in
        let c := Persist (Call.updatePlayerStatus (PlayerData._id p) Waiting) in
        match Store.updatePlayerStatus db (PlayerData._id p) Waiting with
        | Rejected _ => ((k, p') :: rest, [c], false)
        | Resolved _ =>
            let '(rest', calls, ok) := resetNonHosts db rest in
            ((k, p') :: rest', c :: calls, ok)
        end
  end.

(** [updateStatusWaitingRoom]. *)
Definition updateStatusWaitingRoom (g : Gateway.t) (socketId : string)
    (data : WaitingRoomDto.t) (db : Store.t) : Result :=
  let roomID := WaitingRoomDto.roomID data in
  match JsObj.get (Gateway.rooms g) roomID with
  | None => (g, sendError g socketId "Room not found." None)
  | Some room =>
      if negb match JsObj.get (RoomData.players room) socketId with
              | Some player => PlayerData.isHost player
              | None => false
              end then
        (g, sendError g socketId
              "Only the host can change status in the game." None)
      else
        let g1 := updateRoom roomID (RoomData.set_status WAITING) g in
        let c1 := Persist (Call.updateRoomStatus roomID WAITING) in
        match Store.updateRoomStatus db roomID WAITING with
        | Rejected _ => (g1, [c1])
        | Resolved _ =>
            let '(players', calls, ok) :=
              resetNonHosts db (RoomData.players room) in
            let g2 := updateRoom roomID (RoomData.set_players players') g1 in
            if ok then
              (g2, c1 :: calls
                   ++ broadcastToRoom g2 roomID
                        (updateWaitingRoom roomID WAITING) None
                   ++ broadcastToRoom g2 roomID
                        (updatePlayers (playersOf g2 roomID)) None
                   ++ broadcastRoomList g2)%list
            else (g2, c1 :: calls)
        end
  end.

Definition MIN_PLAYERS : nat := 1.

(** [forceStart] of [startGame]. *)
Definition forceStart : bool := false.

(** The reset of [startGame], step 2. *)
Definition resetForGame (p : PlayerData.t) : PlayerData.t :=
  PlayerData.set_transform Vec3.zero Vec3.zero 0 0
    (PlayerData.set_isLoaded false p).

Definition startedPlayer (p : PlayerData.t) : StartedPlayer.t :=
  StartedPlayer.mk (PlayerData.socketId p) (PlayerData._id p)
    (PlayerData.playerName p) (PlayerData.mainCar p) (PlayerData.isHost p)
    (PlayerData.position p) (PlayerData.rotation p).

Definition isReady (p : PlayerData.t) : bool :=
  PlayerStatus_eqb (PlayerData.status p) Ready.

(** [startGame]. *)
Definition startGame (g : Gateway.t) (socketId : string)
    (data : StartGameDto.t) (db : Store.t) : Result :=
  let roomID := StartGameDto.roomID data in
  let map := StartGameDto.map data in
  match JsObj.get (Gateway.rooms g) roomID with
  | None => (g, sendError g socketId "Room not found." None)
  | Some room =>
      if negb match JsObj.get (RoomData.players room) socketId with
              | Some player => PlayerData.isHost player
              | None => false
              end then
        (g, sendError g socketId "Only the host can start the game." None)
      else if negb (RoomStatus_eqb (RoomData.status room) WAITING) then
        (g, sendError g socketId
              "Game cannot be started (not in WAITING state)." None)
      else if (JsObj.size (RoomData.players room) <? MIN_PLAYERS)%nat then
        (g, sendError g socketId "Need at least 1 player(s) to start." None)
      else
        let allReady :=
          forallb isReady (JsObj.values (RoomData.players room)) in
        if negb allReady && negb forceStart then
          (g,
           sendError g socketId "Not all players are ready." None
           ++ sendToClient g socketId
                (playersNotReady
                   (List.map PlayerData.playerName
                      (filter (fun p => negb (isReady p))
                         (JsObj.values (RoomData.players room))))))%list
        else
          let g1 := updateRoom roomID (RoomData.set_status RUNNING) g in
          let c1 := Persist (Call.updateRoomStatus roomID RUNNING) in
          match Store.updateRoomStatus db roomID RUNNING with
          | Resolved _ =>
              let g2 :=
                updateRoom roomID
                  (RoomData.map_players (JsObj.map_values resetForGame)) g1 in
              (g2,
               [c1]
               ++ broadcastToRoom g2 roomID
                    (gameStarted roomID map RUNNING
                       (List.map startedPlayer (playersOf g2 roomID)))
                    None
               ++ broadcastRoomList g2)%list
          | Rejected m =>
              (* the catch block *)
              let e := sendError g1 socketId "Failed to start game." (Some m) in
              match JsObj.get (Gateway.rooms g1) roomID with
              | Some room1 =>
                  if RoomStatus_eqb (RoomData.status room1) RUNNING then
                    let g2 :=
                      updateRoom roomID
                        (fun r =>
                           RoomData.map_players
                             (JsObj.map_values (PlayerData.set_status Ready))
                             (RoomData.set_status WAITING r))
                        g1 in
                    let c2 := Persist (Call.updateRoomStatus roomID WAITING) in
                    match Store.updateRoomStatus db roomID WAITING with
                    | Resolved _ =>
                        (g2, [c1] ++ e ++ [c2] ++ broadcastRoomList g2
                             ++ broadcastToRoom g2 roomID gameStartFailed None)%list
                    | Rejected _ => (g2, [c1] ++ e ++ [c2])%list
                    end
                  else (g1, [c1] ++ e)%list
              | None => (g1, [c1] ++ e)%list
              end
          end
  end.

(** [loadingGame]. *)
Definition loadingGame (g : Gateway.t) (socketId : string)
    (data : LoadingGameDto.t) : Result :=
  let roomID := LoadingGameDto.roomID data in
  let playerID := LoadingGameDto.playerID data in
  match JsObj.get (Gateway.rooms g) roomID with
  | None => (g, [])
  | Some room =>
      if negb (RoomStatus_eqb (RoomData.status room) RUNNING) then (g, [])
      else
        match claimedSession g room socketId playerID with
        | None => (g, [])
        | Some player =>
            if PlayerData.isLoaded player then (g, [])
            else
              let g1 :=
                updatePlayer roomID socketId
                  (fun p => PlayerData.set_status Ready
                              (PlayerData.set_isLoaded true p)) g in
              let allPlayersInRoom := playersOf g1 roomID in
              let allLoaded :=
                (0 <? length allPlayersInRoom)%nat
                && forallb PlayerData.isLoaded allPlayersInRoom in
              (g1,
               broadcastToRoom g1 roomID (updatePlayers allPlayersInRoom) None
               ++ (if allLoaded
                   then broadcastToRoom g1 roomID (allPlayersLoaded roomID)
                          None
                   else []))%list
        end
  end.

(** [syncPosition].  The handler is synchronous and starts by
    destructuring [data], outside any [try]: with [data] absent
    ([undefined] or [null]) that statement throws. *)
Definition syncPosition (g : Gateway.t) (socketId : string)
    (data : option PositionSyncDto.t) : Completion Result :=
  match data with
  | None => Throw
  | Some data =>
      Normal
        (let roomID := PositionSyncDto.roomID data in
         if negb (truthy roomID) then (g, [])
         else
           match JsObj.get (Gateway.rooms g) roomID with
           | None => (g, [])
           | Some room =>
               if negb (RoomStatus_eqb (RoomData.status room) RUNNING)
               then (g, [])
               else
                 match JsObj.get (RoomData.players room) socketId with
                 | None => (g, [])
                 | Some player =>
                     let distance :=
                       match PositionSyncDto.distance data with
                       | Some d => d
                       | None => PlayerData.distance player
                       end in
                     let g1 :=
                       updatePlayer roomID socketId
                         (fun p =>
                            PlayerData.set_transform
                              (PositionSyncDto.position data)
                              (PositionSyncDto.rotation data)
                              (PositionSyncDto.speed data)
                              (match PositionSyncDto.distance data with
                               | Some d => d
                               | None => PlayerData.distance p
                               end) p) g in
                     (g1,
                      broadcastToRoom g1 roomID
                        (playerPositionUpdate socketId
                           (PositionSyncDto.position data)
                           (PositionSyncDto.rotation data)
                           (PositionSyncDto.speed data) distance)
                        (Some socketId))
                 end
           end)
  end.

(** [syncCarPosition].  Like [syncPosition], it destructures [data]
    before any check and outside any [try]. *)
Definition syncCarPosition (g : Gateway.t) (socketId : string)
    (data : option PositionSyncDto.t) : Completion Result :=
  match data with
  | None => Throw
  | Some data =>
      Normal
        (let roomID := PositionSyncDto.roomID data in
         if negb (truthy roomID) then (g, [])
         else
           match JsObj.get (Gateway.rooms g) roomID with
           | None => (g, [])
           | Some room =>
               if negb (RoomStatus_eqb (RoomData.status room) RUNNING)
               then (g, [])
               else
                 match JsObj.get (RoomData.players room) socketId with
                 | None => (g, [])
                 | Some _ =>
                     (g,
                      broadcastToRoom g roomID
                        (carPositionUpdate socketId
                           (PositionSyncDto.position data)
                           (PositionSyncDto.rotation data)
                           (PositionSyncDto.speed data))
                        (Some socketId))
                 end
           end)
  end.

(** ** Message routing *)

(** A decoded envelope: one constructor per event tag of [handleMessage],
    [unknownEvent] for the default case and [malformed] for an envelope
    without a string [event].  The payload of the two position reports
    is [None] when the envelope has no [data] or a [null] one. *)
Inductive Message :=
| createRoom_ (data : CreateRoomDto.t)
| joinRoom_ (data : JoinRoomDto.t)
| leaveRoom_
| kickPlayer_ (data : KickPlayerDto.t)
| startGame_ (data : StartGameDto.t)
| loadingGame_ (data : LoadingGameDto.t)
| playerReady_ (data : PlayerReadyDto.t)
| playerChangeCar_ (data : PlayerChangeCarDto.t)
| syncPosition_ (data : option PositionSyncDto.t)
| syncCarPosition_ (data : option PositionSyncDto.t)
| ping_check
| waitingRoom_ (data : WaitingRoomDto.t)
| unknownEvent (event : string)
| malformed.

(** [handleMessage].  The [async] handlers answer for their own
    failures (each has its [try]/[catch]); what the two synchronous
    position handlers throw leaves [handleMessage] with them. *)
Definition handleMessage (g : Gateway.t) (socketId : string)
    (message : Message) (db : Store.t) : Completion Result :=
  match message with
  | malformed =>
      Normal
        (g, sendError g socketId
              "Malformed message structure. Expecting { event: string, data: any }"
              None)
  | createRoom_ data => Normal (createRoom g socketId data db)
  | joinRoom_ data => Normal (joinRoom g socketId data db)
  | leaveRoom_ => Normal (leaveRoom g socketId db)
  | kickPlayer_ data => Normal (kickPlayer g socketId data db)
  | startGame_ data => Normal (startGame g socketId data db)
  | loadingGame_ data => Normal (loadingGame g socketId data)
  | playerReady_ data => Normal (playerReady g socketId data db)
  | playerChangeCar_ data => Normal (playerChangeCar g socketId data db)
  | syncPosition_ data => syncPosition g socketId data
  | syncCarPosition_ data => syncCarPosition g socketId data
  | ping_check => Normal (g, sendToClient g socketId ping_response)
  | waitingRoom_ data => Normal (updateStatusWaitingRoom g socketId data db)
  | unknownEvent event =>
      Normal
        (g, sendError g socketId ("Unknown event type: " ++ event)%string None)
  end.

(** The ['message'] listener of a connection, for a text that parses:
    [handleMessage] is called inside the listener's [try], and whatever
    it throws is answered by the [catch] of the listener. *)
Definition onMessage (g : Gateway.t) (socketId : string) (m : Message)
    (db : Store.t) : Result :=
  match handleMessage g socketId m db with
  | Normal result => result
  | Throw => (g, sendError g socketId "Invalid message format" None)
  end.

(** What the transport delivers to the gateway. *)
Inductive Event :=
| connection (socketId : string)
    (** a socket was accepted and given the id [socketId] *)
| message (socketId : string) (m : Message)
    (** the socket delivered a well-formed JSON text *)
| unparseable (socketId : string)
    (** the socket delivered a text that is empty or not JSON: the
        listener throws before it reaches [handleMessage] *)
| transport (socketId : string) (state : ReadyState)
    (** the socket moved to another ready state *)
| close (socketId : string)
    (** the socket reported ['close'] or ['error'] *).

(** One turn of the gateway; [db] is what the store answers during it. *)
Definition step (g : Gateway.t) (ev : Event) (db : Store.t) : Result :=
  match ev with
  | connection socketId => onConnection g socketId
  | message socketId m => onMessage g socketId m db
  | unparseable socketId =>
      (g, sendError g socketId "Invalid message format" None)
  | transport socketId state =>
      (Gateway.set_clients
         (JsObj.update (Gateway.clients g) socketId
            (fun _ => {| readyState := state |})) g, [])
  | close socketId => handleDisconnect g socketId db
  end.

(** A run: the state after the events and, per event, its effects. *)
Fixpoint run (g : Gateway.t) (evs : list (Event * Store.t))
  : Gateway.t * list (list Effect) :=
  match evs with
  | [] => (g, [])
  | (ev, db) :: rest =>
      let '(g1, out) := step g ev db in
      let '(g2, outs) := run g1 rest in
      (g2, out :: outs)
  end.

(** ** Handlers that overlap

    [handleMessage] does not await the handlers it calls, and nothing in
    the gateway serialises them: a handler that awaits the store gives
    the event loop back, and the next event is handled before the
    awaited call settles.  [startGame] marks the room Running, awaits
    the store and only then resets the sessions; it is written out here
    in the two parts its first [await] separates. *)

(** [startGame] up to
    [await this.roomService.updateRoomStatus(roomID, RoomStatus.RUNNING)]:
    either a guard refuses and the handler is over ([false]), or the
    room is marked Running, the call is issued and the handler is
    suspended ([true]). *)
Definition startGame_until_await (g : Gateway.t) (socketId : string)
    (data : StartGameDto.t) : Result * bool :=
  let roomID := StartGameDto.roomID data in
  match JsObj.get (Gateway.rooms g) roomID with
  | None => ((g, sendError g socketId "Room not found." None), false)
  | Some room =>
      if negb match JsObj.get (RoomData.players room) socketId with
              | Some player => PlayerData.isHost player
              | None => false
              end then
        ((g, sendError g socketId "Only the host can start the game." None),
         false)
      else if negb (RoomStatus_eqb (RoomData.status room) WAITING) then
        ((g, sendError g socketId
               "Game cannot be started (not in WAITING state)." None),
         false)
      else if (JsObj.size (RoomData.players room) <? MIN_PLAYERS)%nat then
        ((g, sendError g socketId "Need at least 1 player(s) to start." None),
         false)
      else
        let allReady :=
          forallb isReady (JsObj.values (RoomData.players room)) in
        if negb allReady && negb forceStart then
          ((g,
            sendError g socketId "Not all players are ready." None
            ++ sendToClient g socketId
                 (playersNotReady
                    (List.map PlayerData.playerName
                       (filter (fun p => negb (isReady p))
                          (JsObj.values (RoomData.players room))))))%list,
           false)
        else
          ((updateRoom roomID (RoomData.set_status RUNNING) g,
            [Persist (Call.updateRoomStatus roomID RUNNING)]),
           true)
  end.

(** [startGame] from the moment the awaited call settles, in the state
    [g] the gateway has by then; [db] holds the answer of the store.
    The room object the handler holds is the one the directory has under
    [roomID] (a room id is not given twice); when the room was closed in
    the meantime nobody is written to. *)
Definition startGame_after_await (g : Gateway.t) (socketId : string)
    (data : StartGameDto.t) (db : Store.t) : Result :=
  let roomID := StartGameDto.roomID data in
  let map := StartGameDto.map data in
  match Store.updateRoomStatus db roomID RUNNING with
  | Resolved _ =>
      let g2 :=
        updateRoom roomID
          (RoomData.map_players (JsObj.map_values resetForGame)) g in
      match JsObj.get (Gateway.rooms g2) roomID with
      | Some room =>
          (g2,
           broadcastToRoom g2 roomID
             (gameStarted roomID map (RoomData.status room)
                (List.map startedPlayer (playersOf g2 roomID)))
             None
           ++ broadcastRoomList g2)%list
      | None => (g2, broadcastRoomList g2)
      end
  | Rejected m =>
      (* the catch block *)
      let e := sendError g socketId "Failed to start game." (Some m) in
      match JsObj.get (Gateway.rooms g) roomID with
      | Some room1 =>
          if RoomStatus_eqb (RoomData.status room1) RUNNING then
            let g2 :=
              updateRoom roomID
                (fun r =>
                   RoomData.map_players
                     (JsObj.map_values (PlayerData.set_status Ready))
                     (RoomData.set_status WAITING r))
                g in
            let c2 := Persist (Call.updateRoomStatus roomID WAITING) in
            match Store.updateRoomStatus db roomID WAITING with
            | Resolved _ =>
                (g2, e ++ [c2] ++ broadcastRoomList g2
                     ++ broadcastToRoom g2 roomID gameStartFailed None)%list
            | Rejected _ => (g2, e ++ [c2])%list
            end
          else (g, e)
      | None => (g, e)
      end
  end.

(** A turn of the event loop: an event handled from its first to its
    last statement, or one of the two parts of a [startGame]. *)
Inductive Turn :=
| handles (ev : Event) (db : Store.t)
| startGame_suspends (socketId : string) (data : StartGameDto.t)
| startGame_resumes (socketId : string) (data : StartGameDto.t)
    (db : Store.t).

Definition turn (g : Gateway.t) (t : Turn) : Result :=
  match t with
  | handles ev db => step g ev db
  | startGame_suspends socketId data =>
      fst (startGame_until_await g socketId data)
  | startGame_resumes socketId data db =>
      startGame_after_await g socketId data db
  end.

(** The turns taken one after the other: per turn, the state it leaves
    and its effects. *)
Fixpoint schedule (g : Gateway.t) (ts : list Turn)
  : list (Gateway.t * list Effect) :=
  match ts with
  | [] => []
  | t :: rest =>
      let '(g1, out) := turn g t in
      (g1, out) :: schedule g1 rest
  end.

(** * Vocabulary of the properties

    The predicates and measures the theorems are stated with, and the
    sample states they are instantiated on. *)

(** ** A sample lobby

    The states below are produced by the handlers themselves, from an
    empty directory; the theorems are instantiated on them. *)

Module Sample.

Definition columns (car : Z) (cars : list Z) : Player.columns :=
  Player.mkColumns "tg" "racer" car
    (List.map (fun c => PlayerCarEntry.mk c "m" "b" "n") cars).

(** A store that resolves every call; every player owns cars 1 and 2
    and drives car 1; the next room is stored under [seq]. *)
Definition store (seq : positive) : Store.t :=
  Store.mk (fun _ => Resolved (Some (columns 1 [1; 2]%Z))) (Resolved seq)
    (fun _ _ _ => Resolved tt) (fun _ _ => Resolved tt)
    (fun _ _ => Resolved tt) (fun _ _ => Resolved tt)
    (fun _ _ => Resolved tt) (fun _ => Resolved true)
    (fun _ _ => Resolved tt) (fun _ => Resolved None).

(** A store that rejects every update. *)
Definition down : Store.t :=
  Store.mk (fun _ => Resolved (Some (columns 1 [1; 2]%Z)))
    (Rejected "down")
    (fun _ _ _ => Rejected "down") (fun _ _ => Rejected "down")
    (fun _ _ => Rejected "down") (fun _ _ => Rejected "down")
    (fun _ _ => Rejected "down") (fun _ => Rejected "down")
    (fun _ _ => Rejected "down") (fun _ => Rejected "down").

(** A store whose first status update is rejected and whose
    compensating update resolves. *)
Definition flaky : Store.t :=
  Store.mk (fun _ => Resolved (Some (columns 1 [1; 2]%Z))) (Resolved 1%positive)
    (fun _ _ _ => Resolved tt) (fun _ _ => Resolved tt)
    (fun _ _ => Resolved tt) (fun _ _ => Resolved tt)
    (fun _ _ => Resolved tt) (fun _ => Resolved true)
    (fun _ s => match s with
                | RUNNING => Rejected "write failed"
                | _ => Resolved tt
                end)
    (fun _ => Resolved None).

Definition after (g : Gateway.t) (evs : list (Event * Store.t)) : Gateway.t :=
  fst (run g evs).

Definition empty : Gateway.t := init false (Resolved []).

(** Two connections; "h" has created room "1" with password "pw". *)
Definition hosted : Gateway.t :=
  after empty
    [(connection "h", store 1);
     (connection "j", store 1);
     (message "h" (createRoom_ (CreateRoomDto.mk 100 (Some "pw") "H")),
      store 1)].

(** "j" has joined room "1". *)
Definition joined : Gateway.t :=
  after hosted
    [(message "j" (joinRoom_ (JoinRoomDto.mk "1" "J" (Some "pw"))), store 1)].

(** "j" is ready. *)
Definition ready : Gateway.t :=
  after joined
    [(message "j" (playerReady_ (PlayerReadyDto.mk "1" "J")), store 1)].

(** The host has started the game. *)
Definition running : Gateway.t :=
  after ready
    [(message "h" (startGame_ (StartGameDto.mk "1" 3)), store 1)].

End Sample.

(** The guards of [syncCarPosition]: a room id was given, the room is in
    the directory and Running, and the sender holds a session in it. *)
Definition syncCarGuards (g : Gateway.t) (socketId : string)
    (data : PositionSyncDto.t) : bool :=
  truthy (PositionSyncDto.roomID data)
  && match JsObj.get (Gateway.rooms g) (PositionSyncDto.roomID data) with
     | Some room =>
         RoomStatus_eqb (RoomData.status room) RUNNING
         && JsObj.has (RoomData.players room) socketId
     | None => false
     end.

(** The connection holds the host session of the room. *)
Definition holdsHost (room : RoomData.t) (socketId : string) : bool :=
  match JsObj.get (RoomData.players room) socketId with
  | Some player => PlayerData.isHost player
  | None => false
  end.

(** The guards of [startGame] on a room of the directory: the sender
    holds the host session, the room is Waiting, it has at least one
    session, and every session is Ready. *)
Definition startGuards (room : RoomData.t) (socketId : string) : bool :=
  holdsHost room socketId
  && RoomStatus_eqb (RoomData.status room) WAITING
  && (1 <=? JsObj.size (RoomData.players room))%nat
  && forallb isReady (JsObj.values (RoomData.players room)).

(** The room after a successful start. *)
Definition startedRoom (room : RoomData.t) : RoomData.t :=
  RoomData.map_players (JsObj.map_values resetForGame)
    (RoomData.set_status RUNNING room).

(** The room's status moves to Running. *)
Definition transitionsToRunning (before after : Gateway.t) (roomID : string)
  : Prop :=
  exists room room',
    JsObj.get (Gateway.rooms before) roomID = Some room
    /\ JsObj.get (Gateway.rooms after) roomID = Some room'
    /\ RoomData.status room <> RUNNING
    /\ RoomData.status room' = RUNNING.

(** The state a session is reset to when a game starts. *)
Definition atStartLine (p : PlayerData.t) : Prop :=
  PlayerData.position p = Vec3.zero
  /\ PlayerData.rotation p = Vec3.zero
  /\ PlayerData.speed p = 0%Z
  /\ PlayerData.distance p = 0%Z
  /\ PlayerData.isLoaded p = false.

(** The sample lobby while the game runs, with a third connection "k". *)
Definition lobbyRunning : Gateway.t :=
  Sample.after Sample.running [(connection "k", Sample.store 1)].

(** The sample lobby before the game, with a third connection "k". *)
Definition lobbyWaiting : Gateway.t :=
  Sample.after Sample.joined [(connection "k", Sample.store 1)].



(** The undone state of [startGame]. *)
Definition undoneStart (roomID : string) (g : Gateway.t) : Gateway.t :=
  updateRoom roomID
    (fun r =>
       RoomData.map_players (JsObj.map_values (PlayerData.set_status Ready))
         (RoomData.set_status WAITING r))
    (updateRoom roomID (RoomData.set_status RUNNING) g).

(** The connection "s" creates a room as player "A", then another as
    player "B". *)
Definition twoRooms : Gateway.t :=
  Sample.after Sample.empty
    [(connection "s", Sample.store 1);
     (message "s" (createRoom_ (CreateRoomDto.mk 100 None "A")), Sample.store 1);
     (message "s" (createRoom_ (CreateRoomDto.mk 100 None "B")), Sample.store 2)].

(** Every session of the room has reported its loading. *)
Definition loadedRoom (room : RoomData.t) : Prop :=
  Forall (fun p => PlayerData.isLoaded p = true)
    (JsObj.values (RoomData.players room)).

(** What one turn of the gateway may do to the directory, as far as the
    load flags of Running rooms go: nothing; mutate a room in a way that
    keeps a Running room Running and fully loaded; close a room; open a
    room that is not Running. *)
Inductive Change (R : JsObj.t RoomData.t) : JsObj.t RoomData.t -> Prop :=
| Change_same : Change R R
| Change_update (r : string) (f : RoomData.t -> RoomData.t) :
    (forall room,
        JsObj.get R r = Some room ->
        RoomData.status (f room) = RUNNING ->
        RoomData.status room = RUNNING ->
        loadedRoom room -> loadedRoom (f room)) ->
    Change R (JsObj.update R r f)
| Change_close (r : string) (f : RoomData.t -> RoomData.t) :
    Change R (JsObj.delete (JsObj.update R r f) r)
| Change_open (r : string) (room : RoomData.t) (f : RoomData.t -> RoomData.t) :
    RoomData.status (f room) <> RUNNING ->
    Change R (JsObj.update (JsObj.set R r room) r f).

(** A room that is Running after the turn was there before, and if it
    was Running and fully loaded it still is. *)
Definition keepsLoaded (before after : option RoomData.t) : Prop :=
  forall room',
    after = Some room' ->
    RoomData.status room' = RUNNING ->
    exists room,
      before = Some room
      /\ (RoomData.status room = RUNNING -> loadedRoom room -> loadedRoom room').

(** The effect that announces the barrier of a room. *)
Definition announcesAllLoaded (roomID : string) (e : Effect) : bool :=
  match e with
  | RoomCast _ (allPlayersLoaded r) _ => String.eqb r roomID
  | _ => false
  end.

(** How many times the effects announce the barrier of the room. *)
Definition firings (roomID : string) (out : list Effect) : nat :=
  length (filter (announcesAllLoaded roomID) out).

(** The barrier as [loadingGame] computes it. *)
Definition barrier (g : Gateway.t) (roomID : string) : bool :=
  (0 <? length (playersOf g roomID))%nat
  && forallb PlayerData.isLoaded (playersOf g roomID).

(** The room is in the directory and Running. *)
Definition roomRunning (g : Gateway.t) (roomID : string) : Prop :=
  exists room,
    JsObj.get (Gateway.rooms g) roomID = Some room
    /\ RoomData.status room = RUNNING.

(** Every session of the room, if it is in the directory, is loaded. *)
Definition allLoaded (g : Gateway.t) (roomID : string) : Prop :=
  forall room,
    JsObj.get (Gateway.rooms g) roomID = Some room -> loadedRoom room.

(** A Running episode of a room: the room is in the directory and
    Running before the events and after each of them. *)
Fixpoint episode (roomID : string) (g : Gateway.t)
    (evs : list (Event * Store.t)) : Prop :=
  roomRunning g roomID
  /\ match evs with
     | [] => True
     | (ev, db) :: rest => episode roomID (fst (step g ev db)) rest
     end.

(** The number of announcements of the barrier over a run. *)
Definition totalFirings (roomID : string) (outs : list (list Effect)) : nat :=
  list_sum (List.map (firings roomID) outs).

(** No two sessions of the directory carry the same player id. *)
Definition playerOnce (g : Gateway.t) : Prop :=
  forall r1 r2 s1 s2 p1 p2,
    session g r1 s1 = Some p1 ->
    session g r2 s2 = Some p2 ->
    PlayerData._id p1 = PlayerData._id p2 ->
    r1 = r2 /\ s1 = s2.

(** The keys of the directory are truthy. *)
Definition keysTruthy (g : Gateway.t) : Prop :=
  forall r room, JsObj.get (Gateway.rooms g) r = Some room -> truthy r = true.

(** The sessions of the connection carry the player id [playerId]. *)
Definition knownAs (socketId playerId : string) (g : Gateway.t) : Prop :=
  forall r p, session g r socketId = Some p -> PlayerData._id p = playerId.

(** The changes of the directory that add no session and keep the
    player id of those that stay. *)
Inductive Narrow (R : JsObj.t RoomData.t) : JsObj.t RoomData.t -> Prop :=
| Narrow_same : Narrow R R
| Narrow_update (r : string) (f : RoomData.t -> RoomData.t) :
    (forall room s p',
        JsObj.get R r = Some room ->
        JsObj.get (RoomData.players (f room)) s = Some p' ->
        exists p,
          JsObj.get (RoomData.players room) s = Some p
          /\ PlayerData._id p' = PlayerData._id p) ->
    Narrow R (JsObj.update R r f)
| Narrow_close (r : string) (f : RoomData.t -> RoomData.t) :
    Narrow R (JsObj.delete (JsObj.update R r f) r).

(** If the event is a [createRoom] or a [joinRoom] of the connection,
    the player id it presents is [playerId]; the events of the other
    connections are free. *)
Definition presentsAs (socketId playerId : string) (ev : Event) : Prop :=
  match ev with
  | message s (createRoom_ data) =>
      s = socketId -> CreateRoomDto.playerId data = playerId
  | message s (joinRoom_ data) =>
      s = socketId -> JoinRoomDto.playerId data = playerId
  | _ => True
  end.

(** The gateway once the session of the host and then the room are
    removed. *)
Definition closed (g : Gateway.t) (socketId roomID : string) : Gateway.t :=
  deleteRoom roomID (deletePlayer roomID socketId g).

(** ** Vocabulary of the further properties

    The predicates of the properties that go beyond the state machine
    of a game: who is written to, what reaches the store, and the shape
    the directory keeps. *)

(** The guards of [kickPlayer]: the target is another connection, the
    room is in the directory, the sender holds its host session and the
    target holds a session in it. *)
Definition kickGuards (g : Gateway.t) (socketId : string)
    (data : KickPlayerDto.t) : bool :=
  negb (String.eqb socketId (KickPlayerDto.targetSocketID data))
  && match JsObj.get (Gateway.rooms g) (KickPlayerDto.roomID data) with
     | Some room =>
         holdsHost room socketId
         && JsObj.has (RoomData.players room)
              (KickPlayerDto.targetSocketID data)
     | None => false
     end.

(** The calls of the persistence services among the effects, in the
    order they were made. *)
Definition storeCalls (out : list Effect) : list Call.t :=
  flat_map (fun e => match e with Persist c => [c] | _ => [] end) out.

(** The session once [syncPosition] has written the received transform
    into it; the distance is kept when the message carries none. *)
Definition moved (data : PositionSyncDto.t) (p : PlayerData.t) : PlayerData.t :=
  PlayerData.set_transform (PositionSyncDto.position data)
    (PositionSyncDto.rotation data) (PositionSyncDto.speed data)
    (match PositionSyncDto.distance data with
     | Some d => d
     | None => PlayerData.distance p
     end) p.

(** The effect is a write to sessions of the room, and nothing else. *)
Definition roomCastOnly (roomID : string) (e : Effect) : Prop :=
  match e with
  | RoomCast r _ _ => r = roomID
  | _ => False
  end.

(** The session once [loadingGame] has recorded its report. *)
Definition loaded (p : PlayerData.t) : PlayerData.t :=
  PlayerData.set_status Ready (PlayerData.set_isLoaded true p).

(** What [updateStatusWaitingRoom] makes of a session: the host is left
    as it is, every other session is Waiting again. *)
Definition backToLobby (p : PlayerData.t) : PlayerData.t :=
  if PlayerData.isHost p then p else PlayerData.set_status Waiting p.

(** The status updates [updateStatusWaitingRoom] sends to the store for
    the sessions of a room, in the order of the sessions. *)
Definition lobbyCalls (ps : JsObj.t PlayerData.t) : list Call.t :=
  List.map (fun p => Call.updatePlayerStatus (PlayerData._id p) Waiting)
    (filter (fun p => negb (PlayerData.isHost p)) (JsObj.values ps)).

(** The effect is a call of a persistence service. *)
Definition isPersist (e : Effect) : bool :=
  match e with
  | Persist _ => true
  | _ => false
  end.

(** The store accepts the return of a room to the lobby: the status
    update of the room and that of every session that is not the
    host's. *)
Definition acceptsLobby (db : Store.t) (roomID : string) (room : RoomData.t)
  : Prop :=
  Store.updateRoomStatus db roomID WAITING = Resolved tt
  /\ forall p,
       In p (JsObj.values (RoomData.players room)) ->
       PlayerData.isHost p = false ->
       Store.updatePlayerStatus db (PlayerData._id p) Waiting = Resolved tt.

(** The registry holds the connection with a socket that is OPEN. *)
Definition openIn (clients : JsObj.t WebSocket) (s : string) : Prop :=
  exists ws, In (s, ws) clients /\ isOPEN ws = true.

(** Every connection the effect writes to is registered and OPEN. *)
Definition deliverable (clients : JsObj.t WebSocket) (e : Effect) : Prop :=
  match e with
  | Send s _ => openIn clients s
  | RoomCast _ _ recipients => Forall (openIn clients) recipients
  | AllCast _ recipients => Forall (openIn clients) recipients
  | Persist _ => True
  end.

(** The registry the writes of a turn go through: the one the turn
    starts with, extended by the new connection when the turn is its
    acceptance. *)
Definition registryOf (g : Gateway.t) (ev : Event) : JsObj.t WebSocket :=
  match ev with
  | connection socketId => Gateway.clients (fst (onConnection g socketId))
  | _ => Gateway.clients g
  end.

(** The message carries no error details. *)
Definition plain (m : OutMsg) : bool :=
  match m with
  | error _ (Some _) => false
  | _ => true
  end.

(** The effect writes no error details to any connection. *)
Definition detailFree (e : Effect) : bool :=
  match e with
  | Send _ m => plain m
  | RoomCast _ m _ => plain m
  | AllCast m _ => plain m
  | Persist _ => true
  end.

(** The host sessions among the sessions of a room. *)
Definition hosts (ps : JsObj.t PlayerData.t) : list PlayerData.t :=
  filter PlayerData.isHost (JsObj.values ps).

(** A host session is Ready. *)
Definition hostReady (p : PlayerData.t) : Prop :=
  PlayerData.isHost p = true -> PlayerData.status p = Ready.

(** The sessions of a room as the handlers keep them: at most
    [MAX_PLAYERS], one per connection, each filed under the connection
    it records, at most one of them the host's, and that one Ready. *)
Definition tidyPlayers (ps : JsObj.t PlayerData.t) : Prop :=
  JsObj.size ps <= MAX_PLAYERS
  /\ NoDup (JsObj.keys ps)
  /\ Forall (fun e => PlayerData.socketId (snd e) = fst e) ps
  /\ length (hosts ps) <= 1
  /\ Forall (fun e => hostReady (snd e)) ps.

(** An entry of the directory as the handlers keep it: filed under the
    id the room records, which is truthy, with tidy sessions. *)
Definition tidyEntry (e : string * RoomData.t) : Prop :=
  RoomData.id (snd e) = fst e
  /\ truthy (fst e) = true
  /\ tidyPlayers (RoomData.players (snd e)).

(** The directory as the handlers keep it. *)
Definition tidy (R : JsObj.t RoomData.t) : Prop :=
  NoDup (JsObj.keys R) /\ Forall tidyEntry R.

(** The room [loadRoomsFromDb] makes of a stored document: its
    structure, an empty password read as none, and no session. *)
Definition roomOfDoc (doc : Room.t) : RoomData.t :=
  RoomData.mk (Room.id doc) (Room.value doc)
    (match Room.password doc with
     | Some p => if truthy p then Some p else None
     | None => None
     end)
    (Room.status doc) [].

(** The room once the session of a connection is removed from it. *)
Definition without (socketId : string) (room : RoomData.t) : RoomData.t :=
  RoomData.map_players (fun ps => JsObj.delete ps socketId) room.

(** The directory [R'] holds no room that is new or restructured with
    respect to [R]: every room of [R'] is in [R] under the same id, with
    the same recorded id, stake and password, and it is Finished only if
    it was. *)
Definition sameStructure (R R' : JsObj.t RoomData.t) : Prop :=
  forall r room',
    JsObj.get R' r = Some room' ->
    exists room,
      JsObj.get R r = Some room
      /\ RoomData.id room' = RoomData.id room
      /\ RoomData.value room' = RoomData.value room
      /\ RoomData.password room' = RoomData.password room
      /\ (RoomData.status room' = FINISHED -> RoomData.status room = FINISHED).

(** The connection holds no session in any room of the directory. *)
Definition sessionless (g : Gateway.t) (socketId : string) : Prop :=
  forall r room,
    JsObj.get (Gateway.rooms g) r = Some room ->
    JsObj.has (RoomData.players room) socketId = false.

(** The room a message is about, for the messages that name one and act
    on a room that exists already. *)
Definition roomOf (m : Message) : option string :=
  match m with
  | kickPlayer_ data => Some (KickPlayerDto.roomID data)
  | startGame_ data => Some (StartGameDto.roomID data)
  | loadingGame_ data => Some (LoadingGameDto.roomID data)
  | playerReady_ data => Some (PlayerReadyDto.roomID data)
  | playerChangeCar_ data => Some (PlayerChangeCarDto.roomID data)
  | syncPosition_ (Some data) => Some (PositionSyncDto.roomID data)
  | syncCarPosition_ (Some data) => Some (PositionSyncDto.roomID data)
  | waitingRoom_ data => Some (WaitingRoomDto.roomID data)
  | _ => None
  end.

(** * Properties *)

(** ** Dictionaries *)

Module JsObjFacts.
Import JsObj.

Section Facts.
Context {V : Type}.
Implicit Types (o : JsObj.t V) (k : string) (v : V).

Lemma get_update o k f k' :
  get (update o k f) k' =
  if String.eqb k k' then option_map f (get o k') else get o k'.
Proof.
  induction o as [|[k0 v0] o IH]; simpl.
  - destruct (String.eqb k k'); reflexivity.
  - destruct (String.eqb_spec k0 k) as [->|Hk0]; simpl.
    + destruct (String.eqb_spec k k') as [->|Hk]; [reflexivity|exact IH].
    + destruct (String.eqb_spec k0 k') as [->|Hk0'].
      * destruct (String.eqb_spec k k') as [->|Hk]; [congruence|reflexivity].
      * exact IH.
Qed.

Lemma get_delete o k k' :
  get (delete o k) k' = if String.eqb k k' then None else get o k'.
Proof.
  induction o as [|[k0 v0] o IH]; simpl.
  - destruct (String.eqb k k'); reflexivity.
  - destruct (String.eqb_spec k0 k) as [->|Hk0]; simpl.
    + rewrite IH. destruct (String.eqb_spec k k'); reflexivity.
    + rewrite IH. destruct (String.eqb_spec k0 k') as [->|Hk0'].
      * destruct (String.eqb_spec k k'); [congruence|reflexivity].
      * reflexivity.
Qed.

Lemma get_map_values f o k :
  get (map_values f o) k = option_map f (get o k).
Proof.
  induction o as [|[k0 v0] o IH]; simpl; [reflexivity|].
  destruct (String.eqb k0 k); [reflexivity|exact IH].
Qed.

Lemma get_replace o k v k' :
  get (replace o k v) k' =
  if String.eqb k k' then (if has o k then Some v else None) else get o k'.
Proof.
  unfold has. induction o as [|[k0 v0] o IH]; simpl.
  - destruct (String.eqb k k'); reflexivity.
  - destruct (String.eqb_spec k0 k) as [->|Hk0]; simpl.
    + destruct (String.eqb k k'); reflexivity.
    + destruct (String.eqb_spec k0 k') as [->|Hk0'].
      * destruct (String.eqb_spec k k'); [congruence|reflexivity].
      * exact IH.
Qed.

Lemma get_insert_index n k v o k' :
  get o k = None ->
  get (insert_index n k v o) k' =
  if String.eqb k k' then Some v else get o k'.
Proof.
  induction o as [|[k0 v0] o IH]; simpl; intros Hk.
  - reflexivity.
  - destruct (String.eqb_spec k0 k) as [->|Hk0]; [discriminate|].
    destruct (array_index k0) as [m|]; [destruct (m <? n)%N|]; simpl;
      try reflexivity.
    rewrite (IH Hk).
    destruct (String.eqb_spec k0 k') as [->|Hk0'];
      [destruct (String.eqb_spec k k'); [congruence|reflexivity]|reflexivity].
Qed.

Lemma get_app o1 o2 k :
  get (o1 ++ o2) k =
  match get o1 k with Some v => Some v | None => get o2 k end.
Proof.
  induction o1 as [|[k0 v0] o1 IH]; simpl; [reflexivity|].
  destruct (String.eqb k0 k); [reflexivity|exact IH].
Qed.

Lemma get_set o k v k' :
  get (set o k v) k' = if String.eqb k k' then Some v else get o k'.
Proof.
  unfold set. destruct (has o k) eqn:Hh.
  - rewrite get_replace, Hh. reflexivity.
  - assert (Hn : get o k = None)
      by (unfold has in Hh; destruct (get o k); [discriminate|reflexivity]).
    destruct (array_index k).
    + apply get_insert_index; assumption.
    + rewrite get_app. simpl.
      destruct (String.eqb_spec k k') as [->|Hk].
      * rewrite Hn. reflexivity.
      * destruct (get o k'); reflexivity.
Qed.

Lemma get_map_set o k v k' :
  get (map_set o k v) k' = if String.eqb k k' then Some v else get o k'.
Proof.
  unfold map_set. destruct (has o k) eqn:Hh.
  - rewrite get_replace, Hh. reflexivity.
  - assert (Hn : get o k = None)
      by (unfold has in Hh; destruct (get o k); [discriminate|reflexivity]).
    rewrite get_app. simpl.
    destruct (String.eqb_spec k k') as [->|Hk].
    + rewrite Hn. reflexivity.
    + destruct (get o k'); reflexivity.
Qed.

Lemma set_nil k v : set (@nil (string * V)) k v = [(k, v)].
Proof. unfold set. simpl. destruct (array_index k); reflexivity. Qed.

Lemma get_In_values o k v : get o k = Some v -> In v (values o).
Proof.
  induction o as [|[k0 v0] o IH]; simpl; [discriminate|].
  destruct (String.eqb k0 k); intros H.
  - left. congruence.
  - right. exact (IH H).
Qed.

Lemma get_In_keys o k v : get o k = Some v -> In k (keys o).
Proof.
  induction o as [|[k0 v0] o IH]; simpl; [discriminate|].
  destruct (String.eqb_spec k0 k) as [->|Hk]; intros H.
  - left. reflexivity.
  - right. exact (IH H).
Qed.

Lemma In_keys_get o k : In k (keys o) -> exists v, get o k = Some v.
Proof.
  induction o as [|[k0 v0] o IH]; simpl; [contradiction|].
  intros [->|Hin].
  - rewrite String.eqb_refl. eauto.
  - destruct (String.eqb k0 k); eauto.
Qed.

Lemma keys_update o k f : keys (update o k f) = keys o.
Proof.
  unfold keys, update. rewrite map_map. apply map_ext.
  intros [k0 v0]. simpl. destruct (String.eqb k0 k); reflexivity.
Qed.

Lemma keys_map_values f o : keys (map_values f o) = keys o.
Proof. unfold keys, map_values. rewrite map_map. reflexivity. Qed.

Lemma keys_delete o k :
  keys (delete o k) = filter (fun k' => negb (String.eqb k' k)) (keys o).
Proof.
  induction o as [|[k0 v0] o IH]; simpl; [reflexivity|].
  destruct (String.eqb k0 k); simpl; rewrite IH; reflexivity.
Qed.

Lemma values_map_values f o : values (map_values f o) = map f (values o).
Proof. unfold values, map_values. rewrite !map_map. reflexivity. Qed.

Lemma has_get o k : has o k = true <-> exists v, get o k = Some v.
Proof.
  unfold has. destruct (get o k) as [v|]; split.
  - eauto.
  - reflexivity.
  - discriminate.
  - intros [v Hv]. discriminate.
Qed.

End Facts.
End JsObjFacts.

Import JsObjFacts.

(** ** Disconnection is idempotent *)

Lemma has_delete_same {V : Type} (o : JsObj.t V) (k : string) :
  JsObj.has (JsObj.delete o k) k = false.
Proof. unfold JsObj.has. rewrite get_delete, String.eqb_refl. reflexivity. Qed.

(** Once processed, a connection is no longer registered. *)
Lemma handleDisconnect_unregisters (g : Gateway.t) (socketId : string)
    (db : Store.t) :
  JsObj.has (Gateway.clients (fst (handleDisconnect g socketId db))) socketId
  = false.
Proof.
  unfold handleDisconnect.
  destruct (JsObj.has (Gateway.clients g) socketId) eqn:Hreg; simpl;
    [|exact Hreg].
  repeat match goal with
         | |- context [match ?x with _ => _ end] => destruct x
         end; simpl; apply has_delete_same.
Qed.

(** C5. Disconnect processing of a connection that is no longer in the
    registry leaves the whole gateway state as it is and performs no
    effect (no message, no store call); hence processing the same
    connection a second time changes nothing and sends nothing, whatever
    the store answers. *)
Theorem handleDisconnect_idempotent (g : Gateway.t) (socketId : string)
    (db db' : Store.t) :
  (JsObj.has (Gateway.clients g) socketId = false ->
   handleDisconnect g socketId db = (g, []))
  /\ handleDisconnect (fst (handleDisconnect g socketId db)) socketId db'
     = (fst (handleDisconnect g socketId db), []).
Proof.
  assert (Hnoop : forall g0 db0,
             JsObj.has (Gateway.clients g0) socketId = false ->
             handleDisconnect g0 socketId db0 = (g0, [])).
  { intros g0 db0 H. unfold handleDisconnect. rewrite H. reflexivity. }
  split.
  - apply Hnoop.
  - apply Hnoop, handleDisconnect_unregisters.
Qed.

(** The theorem at work: "j" leaves the sample lobby twice. *)
Lemma handleDisconnect_idempotent_witness :
  handleDisconnect (fst (handleDisconnect Sample.joined "j" (Sample.store 1)))
    "j" Sample.down
  = (fst (handleDisconnect Sample.joined "j" (Sample.store 1)), [])
  /\ handleDisconnect Sample.empty "j" Sample.down = (Sample.empty, []).
Proof.
  split.
  - exact (proj2 (handleDisconnect_idempotent Sample.joined "j"
                    (Sample.store 1) Sample.down)).
  - apply (proj1 (handleDisconnect_idempotent Sample.empty "j"
                    Sample.down Sample.down)).
    reflexivity.
Defined.

(** ** [syncCarPosition] relays and does not touch the state *)

Lemma has_keys_nonempty {V : Type} (o : JsObj.t V) (k : string) :
  JsObj.has o k = true -> JsObj.keys o <> [].
Proof. destruct o; [discriminate|discriminate]. Qed.

(** [syncCarPosition] on a payload object never changes the gateway
    state (directory, sessions, registry).  When its guards pass, its
    one effect is the relay of the received transform to the room: a
    [carPositionUpdate] carrying the sender and the received position,
    rotation and speed, written to the open connections of the other
    sessions of the room.  When a guard fails it does nothing at all:
    no reply, no relay. *)
Theorem syncCarPosition_frame (g : Gateway.t) (socketId : string)
    (data : PositionSyncDto.t) :
  (exists out, syncCarPosition g socketId (Some data) = Normal (g, out))
  /\ (forall room,
        truthy (PositionSyncDto.roomID data) = true ->
        JsObj.get (Gateway.rooms g) (PositionSyncDto.roomID data) = Some room ->
        RoomData.status room = RUNNING ->
        JsObj.has (RoomData.players room) socketId = true ->
        syncCarPosition g socketId (Some data)
        = Normal
            (g,
             [RoomCast (PositionSyncDto.roomID data)
                (carPositionUpdate socketId (PositionSyncDto.position data)
                   (PositionSyncDto.rotation data)
                   (PositionSyncDto.speed data))
                (filter (fun k => negb (String.eqb k socketId) && isOpen g k)
                   (JsObj.keys (RoomData.players room)))]))
  /\ (syncCarGuards g socketId data = false ->
      syncCarPosition g socketId (Some data) = Normal (g, [])).
Proof.
  unfold syncCarPosition, syncCarGuards. repeat split.
  - repeat match goal with
           | |- context [match ?x with _ => _ end] => destruct x
           end; eexists; reflexivity.
  - intros room Hid Hroom Hst Hhas.
    rewrite Hid, Hroom, Hst. simpl.
    apply has_get in Hhas. destruct Hhas as [p Hp]. rewrite Hp. simpl.
    unfold broadcastToRoom. rewrite Hroom.
    pose proof (get_In_keys _ _ _ Hp) as Hin.
    destruct (JsObj.keys (RoomData.players room)) eqn:Hk; [contradiction|].
    reflexivity.
  - intros Hg.
    destruct (truthy (PositionSyncDto.roomID data)); [|reflexivity].
    destruct (JsObj.get (Gateway.rooms g) (PositionSyncDto.roomID data))
      as [room|]; [|reflexivity].
    simpl in *.
    destruct (RoomStatus_eqb (RoomData.status room) RUNNING); [|reflexivity].
    unfold JsObj.has in Hg. simpl in *.
    destruct (JsObj.get (RoomData.players room) socketId);
      [discriminate|reflexivity].
Qed.

(** The theorem at work: "j" relays a transform in the running sample
    room; only the host is written to. *)
Lemma syncCarPosition_frame_witness :
  syncCarPosition Sample.running "j"
    (Some (PositionSyncDto.mk "1" (Vec3.mk 1 2 3) (Vec3.mk 4 5 6) 7 None))
  = Normal
      (Sample.running,
       [RoomCast "1"
          (carPositionUpdate "j" (Vec3.mk 1 2 3) (Vec3.mk 4 5 6) 7) ["h"]])
  /\ syncCarPosition Sample.ready "j"
       (Some (PositionSyncDto.mk "1" (Vec3.mk 1 2 3) (Vec3.mk 4 5 6) 7 None))
     = Normal (Sample.ready, []).
Proof.
  split.
  - destruct (JsObj.get (Gateway.rooms Sample.running) "1") as [room|] eqn:Hr;
      [|discriminate Hr].
    pose proof (proj1 (proj2 (syncCarPosition_frame Sample.running "j"
      (PositionSyncDto.mk "1" (Vec3.mk 1 2 3) (Vec3.mk 4 5 6) 7 None)))
      room eq_refl Hr) as H.
    injection Hr as <-. exact (H eq_refl eq_refl).
  - apply (proj2 (proj2 (syncCarPosition_frame Sample.ready "j"
      (PositionSyncDto.mk "1" (Vec3.mk 1 2 3) (Vec3.mk 4 5 6) 7 None)))).
    reflexivity.
Defined.

(** A position report without a payload: the handler throws before any
    of its checks, the state is the one it was given, and the listener
    answers the sender. *)
Lemma report_without_payload (g : Gateway.t) (socketId : string)
    (db : Store.t) :
  syncPosition g socketId None = Throw
  /\ syncCarPosition g socketId None = Throw
  /\ onMessage g socketId (syncPosition_ None) db
     = (g, sendError g socketId "Invalid message format" None)
  /\ onMessage g socketId (syncCarPosition_ None) db
     = (g, sendError g socketId "Invalid message format" None).
Proof. repeat split. Qed.

(** C9 at the failing input.  "j" holds a session in the running sample
    room and sends a [syncCarPosition] envelope without [data]: none of
    the guards of the handler is reached, the destructuring throws, and
    the listener answers "j" with the error 'Invalid message format',
    where the claim has a message that fails a guard dropped without
    any reply. *)
Theorem syncCarPosition_without_payload :
  option_map RoomData.status (JsObj.get (Gateway.rooms Sample.running) "1")
  = Some RUNNING
  /\ isOpen Sample.running "j" = true
  /\ syncCarPosition Sample.running "j" None = Throw
  /\ step Sample.running (message "j" (syncCarPosition_ None)) (Sample.store 1)
     = (Sample.running, [Send "j" (error "Invalid message format" None)]).
Proof. repeat split. Qed.

(** ** Starting a game *)

Lemma get_rooms_updateRoom (g : Gateway.t) (roomID : string)
    (f : RoomData.t -> RoomData.t) (k : string) :
  JsObj.get (Gateway.rooms (updateRoom roomID f g)) k =
  if String.eqb roomID k then option_map f (JsObj.get (Gateway.rooms g) k)
  else JsObj.get (Gateway.rooms g) k.
Proof. unfold updateRoom. simpl. apply get_update. Qed.

Lemma isOpen_updateRoom (g : Gateway.t) (roomID : string)
    (f : RoomData.t -> RoomData.t) (k : string) :
  isOpen (updateRoom roomID f g) k = isOpen g k.
Proof. reflexivity. Qed.

Lemma sendError_open (g : Gateway.t) (socketId message : string)
    (details : option string) :
  isOpen g socketId = true ->
  exists d, sendError g socketId message details
            = [Send socketId (error message d)].
Proof.
  intros Hopen. unfold sendError, sendToClient. rewrite Hopen. eauto.
Qed.

(** The successful path of [startGame]. *)
Lemma startGame_resolved (g : Gateway.t) (socketId : string)
    (data : StartGameDto.t) (db : Store.t) (room : RoomData.t) (u : unit) :
  JsObj.get (Gateway.rooms g) (StartGameDto.roomID data) = Some room ->
  startGuards room socketId = true ->
  Store.updateRoomStatus db (StartGameDto.roomID data) RUNNING = Resolved u ->
  let roomID := StartGameDto.roomID data in
  let g2 := updateRoom roomID (RoomData.map_players (JsObj.map_values resetForGame))
              (updateRoom roomID (RoomData.set_status RUNNING) g) in
  startGame g socketId data db
  = (g2,
     [Persist (Call.updateRoomStatus roomID RUNNING)]
     ++ broadcastToRoom g2 roomID
          (gameStarted roomID (StartGameDto.map data) RUNNING
             (List.map startedPlayer (playersOf g2 roomID))) None
     ++ broadcastRoomList g2).
Proof.
  intros Hroom Hguards Hdb. cbv zeta. unfold startGuards, holdsHost in Hguards.
  apply andb_prop in Hguards as [Hguards Hready].
  apply andb_prop in Hguards as [Hguards Hsize].
  apply andb_prop in Hguards as [Hhost Hwaiting].
  unfold startGame. cbv zeta. rewrite Hroom, Hhost, Hwaiting. simpl.
  replace (JsObj.size (RoomData.players room) <? MIN_PLAYERS)%nat with false.
  2:{ symmetry. apply Nat.ltb_ge. apply Nat.leb_le in Hsize. exact Hsize. }
  rewrite Hready. simpl. rewrite Hdb. reflexivity.
Qed.

(** The refusals of [startGame]: nothing changes and the sender is
    told. *)
Lemma startGame_refused (g : Gateway.t) (socketId : string)
    (data : StartGameDto.t) (db : Store.t) (room : RoomData.t) :
  JsObj.get (Gateway.rooms g) (StartGameDto.roomID data) = Some room ->
  startGuards room socketId = false ->
  fst (startGame g socketId data db) = g
  /\ exists message,
       snd (startGame g socketId data db)
       = sendError g socketId message None
         ++ (if holdsHost room socketId
                && RoomStatus_eqb (RoomData.status room) WAITING
                && (1 <=? JsObj.size (RoomData.players room))%nat
             then sendToClient g socketId
                    (playersNotReady
                       (List.map PlayerData.playerName
                          (filter (fun p => negb (isReady p))
                             (JsObj.values (RoomData.players room)))))
             else []).
Proof.
  intros Hroom Hguards. unfold startGuards in Hguards.
  unfold startGame. cbv zeta. rewrite Hroom. fold (holdsHost room socketId).
  destruct (holdsHost room socketId); simpl in *.
  2:{ split; [reflexivity|]. eexists. rewrite app_nil_r. reflexivity. }
  destruct (RoomStatus_eqb (RoomData.status room) WAITING); simpl in *.
  2:{ split; [reflexivity|]. eexists. rewrite app_nil_r. reflexivity. }
  destruct (RoomData.players room) as [|e ps] eqn:Hps; simpl in *.
  { split; [reflexivity|]. eexists. rewrite app_nil_r. reflexivity. }
  rewrite Hguards. simpl. split; [reflexivity|]. eexists. reflexivity.
Qed.

Lemma RoomStatus_eqb_eq (a b : RoomStatus) : RoomStatus_eqb a b = true <-> a = b.
Proof. destruct a, b; simpl; split; congruence. Qed.

(** The failing path of [startGame]. *)
Lemma startGame_rejected (g : Gateway.t) (socketId : string)
    (data : StartGameDto.t) (db : Store.t) (room : RoomData.t) (m : string) :
  let roomID := StartGameDto.roomID data in
  JsObj.get (Gateway.rooms g) roomID = Some room ->
  startGuards room socketId = true ->
  Store.updateRoomStatus db roomID RUNNING = Rejected m ->
  startGame g socketId data db
  = (undoneStart roomID g,
     [Persist (Call.updateRoomStatus roomID RUNNING)]
     ++ sendError g socketId "Failed to start game." (Some m)
     ++ [Persist (Call.updateRoomStatus roomID WAITING)]
     ++ match Store.updateRoomStatus db roomID WAITING with
        | Resolved _ =>
            broadcastRoomList (undoneStart roomID g)
            ++ broadcastToRoom (undoneStart roomID g) roomID gameStartFailed
                 None
        | Rejected _ => []
        end).
Proof.
  cbv zeta. intros Hroom Hguards Hdb. unfold startGuards, holdsHost in Hguards.
  apply andb_prop in Hguards as [Hguards Hready].
  apply andb_prop in Hguards as [Hguards Hsize].
  apply andb_prop in Hguards as [Hhost Hwaiting].
  unfold startGame. cbv zeta. rewrite Hroom, Hhost, Hwaiting. simpl.
  replace (JsObj.size (RoomData.players room) <? MIN_PLAYERS)%nat with false.
  2:{ symmetry. apply Nat.ltb_ge. apply Nat.leb_le in Hsize. exact Hsize. }
  rewrite Hready. simpl. rewrite Hdb.
  rewrite get_update, String.eqb_refl, Hroom. simpl.
  destruct (Store.updateRoomStatus db (StartGameDto.roomID data) WAITING);
    reflexivity.
Qed.

(** C1, as stated, fails: in the sample lobby every guard of
    [startGame] passes for the host "h" (it holds the host session, the
    room is Waiting and has two sessions, both Ready), and the store
    rejects the status update: the room is Waiting after the message,
    and its sessions were not reset. *)
Lemma startGame_guards_pass_store_rejects :
  option_map (fun room => startGuards room "h")
    (JsObj.get (Gateway.rooms Sample.ready) "1") = Some true
  /\ Store.updateRoomStatus Sample.down "1" RUNNING = Rejected "down"
  /\ option_map RoomData.status
       (JsObj.get
          (Gateway.rooms
             (fst (startGame Sample.ready "h" (StartGameDto.mk "1" 3)
                     Sample.down)))
          "1")
     = Some WAITING
  /\ ~ transitionsToRunning Sample.ready
        (fst (startGame Sample.ready "h" (StartGameDto.mk "1" 3) Sample.down))
        "1".
Proof.
  repeat split.
  intros (room & room' & _ & Hafter & _ & Hrunning).
  vm_compute in Hafter. injection Hafter as <-. discriminate Hrunning.
Qed.

(** C1, amended. For a room of the directory, [startGame] moves the
    room's status to Running if and only if the sender holds the host
    session of the room, the room was Waiting, it has at least one
    session, every session is Ready, and the store accepts the update of
    the room's status.  When it does, the room is Running with every
    session at the start line (position and rotation at the origin,
    speed and distance zero, load flag false).  When a guard fails, the
    gateway state is unchanged and an error is written to the sender
    (whose connection is open). *)
Theorem startGame_transition (g : Gateway.t) (socketId : string)
    (data : StartGameDto.t) (db : Store.t) (room : RoomData.t) :
  JsObj.get (Gateway.rooms g) (StartGameDto.roomID data) = Some room ->
  let roomID := StartGameDto.roomID data in
  let g' := fst (startGame g socketId data db) in
  let out := snd (startGame g socketId data db) in
  (transitionsToRunning g g' roomID
   <-> startGuards room socketId = true
       /\ Store.updateRoomStatus db roomID RUNNING = Resolved tt)
  /\ (transitionsToRunning g g' roomID ->
      JsObj.get (Gateway.rooms g') roomID = Some (startedRoom room)
      /\ Forall atStartLine (playersOf g' roomID))
  /\ (startGuards room socketId = false ->
      g' = g
      /\ (isOpen g socketId = true ->
          exists message details,
            In (Send socketId (error message details)) out)).
Proof.
  intros Hroom roomID g' out. subst roomID.
  assert (Hstarted : startGuards room socketId = true ->
            Store.updateRoomStatus db (StartGameDto.roomID data) RUNNING
            = Resolved tt ->
            JsObj.get (Gateway.rooms g') (StartGameDto.roomID data)
            = Some (startedRoom room)).
  { intros Hg Hdb. subst g'.
    rewrite (startGame_resolved g socketId data db room tt Hroom Hg Hdb).
    simpl fst. rewrite !get_rooms_updateRoom, String.eqb_refl.
    rewrite Hroom. reflexivity. }
  assert (Honly : transitionsToRunning g g' (StartGameDto.roomID data) ->
            startGuards room socketId = true
            /\ Store.updateRoomStatus db (StartGameDto.roomID data) RUNNING
               = Resolved tt).
  { intros (r & r' & Hr & Hr' & Hbefore & Hafter).
    destruct (startGuards room socketId) eqn:Hg.
    - split; [reflexivity|].
      destruct (Store.updateRoomStatus db (StartGameDto.roomID data) RUNNING)
        as [[]|m] eqn:Hdb; [reflexivity|].
      exfalso. subst g'.
      rewrite (startGame_rejected g socketId data db room m Hroom Hg Hdb)
        in Hr'.
      simpl fst in Hr'. unfold undoneStart in Hr'.
      rewrite !get_rooms_updateRoom, String.eqb_refl, Hroom in Hr'.
      simpl in Hr'. injection Hr' as <-. discriminate Hafter.
    - exfalso. subst g'.
      rewrite (proj1 (startGame_refused g socketId data db room Hroom Hg))
        in Hr'.
      congruence. }
  split; [|split].
  - split; [exact Honly|].
    intros [Hg Hdb]. exists room, (startedRoom room).
    split; [exact Hroom|]. split; [exact (Hstarted Hg Hdb)|].
    split; [|reflexivity].
    unfold startGuards in Hg.
    apply andb_prop in Hg as [Hg _]. apply andb_prop in Hg as [Hg _].
    apply andb_prop in Hg as [_ Hg]. apply RoomStatus_eqb_eq in Hg.
    rewrite Hg. discriminate.
  - intros Ht. destruct (Honly Ht) as [Hg Hdb].
    split; [exact (Hstarted Hg Hdb)|].
    unfold playersOf. rewrite (Hstarted Hg Hdb). simpl.
    rewrite values_map_values. apply Forall_forall.
    intros p Hin. apply in_map_iff in Hin as (p0 & <- & _).
    repeat split.
  - intros Hg.
    destruct (startGame_refused g socketId data db room Hroom Hg)
      as [Hsame [message Hout]].
    split; [exact Hsame|].
    intros Hopen. subst out. rewrite Hout.
    destruct (sendError_open g socketId message None Hopen) as [d Hd].
    rewrite Hd. exists message, d. left. reflexivity.
Qed.

(** The theorem at work: the host of the sample room starts the game
    once "j" is ready, and is refused before. *)
Lemma startGame_transition_witness :
  transitionsToRunning Sample.ready
    (fst (startGame Sample.ready "h" (StartGameDto.mk "1" 3) (Sample.store 1)))
    "1"
  /\ fst (startGame Sample.joined "h" (StartGameDto.mk "1" 3) (Sample.store 1))
     = Sample.joined.
Proof.
  split.
  - destruct (JsObj.get (Gateway.rooms Sample.ready) "1") as [room|] eqn:Hroom;
      [|discriminate Hroom].
    apply (proj2 (proj1 (startGame_transition Sample.ready "h"
                           (StartGameDto.mk "1" 3) (Sample.store 1) room
                           Hroom))).
    injection Hroom as <-. split; reflexivity.
  - destruct (JsObj.get (Gateway.rooms Sample.joined) "1") as [room|] eqn:Hroom;
      [|discriminate Hroom].
    apply (proj2 (proj2 (startGame_transition Sample.joined "h"
                           (StartGameDto.mk "1" 3) (Sample.store 1) room
                           Hroom))).
    injection Hroom as <-. reflexivity.
Defined.

(** ** The readiness a session starts with *)

(** The successful path of [createRoom]. *)
Lemma createRoom_resolved (g : Gateway.t) (socketId : string)
    (data : CreateRoomDto.t) (db : Store.t) (c : Player.columns)
    (n : positive) (u : unit) :
  let playerId := CreateRoomDto.playerId data in
  Store.findPlayerById db playerId = Resolved (Some c) ->
  found (roomOfPlayer g playerId) = None ->
  Store.insertRoom db = Resolved n ->
  Store.updatePlayerSocket db playerId socketId true = Resolved u ->
  fst (createRoom g socketId data db)
  = bindPlayer socketId playerId
      (updateRoom (roomIdOfSeq n)
         (RoomData.map_players
            (fun ps =>
               JsObj.set ps socketId
                 (hostPlayerData socketId (Player.doc playerId c))))
         (Gateway.set_rooms
            (JsObj.set (Gateway.rooms g) (roomIdOfSeq n)
               (RoomData.mk (roomIdOfSeq n) (CreateRoomDto.value data)
                  (Some (passwordOrEmpty (CreateRoomDto.password data)))
                  WAITING []))
            g)).
Proof.
  cbv zeta. intros Hplayer Hfree Hseq Hsock.
  unfold createRoom, getPlayerWithId, RoomService_createRoom. cbv zeta.
  rewrite Hplayer, Hfree, Hseq. simpl. rewrite Hsock. reflexivity.
Qed.

(** The room [createRoom] leaves in the directory. *)
Lemma createRoom_room (g : Gateway.t) (socketId : string)
    (data : CreateRoomDto.t) (db : Store.t) (c : Player.columns)
    (n : positive) (u : unit) :
  let playerId := CreateRoomDto.playerId data in
  Store.findPlayerById db playerId = Resolved (Some c) ->
  found (roomOfPlayer g playerId) = None ->
  Store.insertRoom db = Resolved n ->
  Store.updatePlayerSocket db playerId socketId true = Resolved u ->
  JsObj.get (Gateway.rooms (fst (createRoom g socketId data db)))
    (roomIdOfSeq n)
  = Some (RoomData.mk (roomIdOfSeq n) (CreateRoomDto.value data)
            (Some (passwordOrEmpty (CreateRoomDto.password data))) WAITING
            [(socketId, hostPlayerData socketId (Player.doc playerId c))]).
Proof.
  cbv zeta. intros Hplayer Hfree Hseq Hsock.
  rewrite (createRoom_resolved g socketId data db c n u Hplayer Hfree Hseq Hsock).
  simpl. rewrite get_update, String.eqb_refl, get_set, String.eqb_refl.
  simpl. unfold RoomData.map_players, RoomData.set_players. simpl.
  rewrite set_nil. reflexivity.
Qed.

(** The successful path of [joinRoom]. *)
Lemma joinRoom_resolved (g : Gateway.t) (socketId : string)
    (data : JoinRoomDto.t) (db : Store.t) (room : RoomData.t)
    (c : Player.columns) (u u' : unit) :
  let roomID := JoinRoomDto.roomID data in
  let playerId := JoinRoomDto.playerId data in
  JsObj.get (Gateway.rooms g) roomID = Some room ->
  RoomData.status room = WAITING ->
  passwordRefused (RoomData.password room) (JoinRoomDto.password data) = false ->
  Store.findPlayerById db playerId = Resolved (Some c) ->
  (JsObj.size (RoomData.players room) < MAX_PLAYERS)%nat ->
  found (roomOfPlayer g playerId) = None ->
  Store.addPlayerToRoom db roomID playerId = Resolved u ->
  Store.updatePlayerSocket db playerId socketId false = Resolved u' ->
  fst (joinRoom g socketId data db)
  = bindPlayer socketId playerId
      (updateRoom roomID
         (RoomData.map_players
            (fun ps =>
               JsObj.set ps socketId
                 (newPlayerData socketId (Player.doc playerId c))))
         g).
Proof.
  cbv zeta. intros Hroom Hwaiting Hpw Hplayer Hsize Hfree Hadd Hsock.
  unfold joinRoom, getPlayerWithId. cbv zeta.
  rewrite Hroom, Hwaiting, Hpw, Hplayer.
  replace (MAX_PLAYERS <=? JsObj.size (RoomData.players room))%nat with false
    by (symmetry; apply Nat.leb_gt; exact Hsize).
  rewrite Hfree. simpl. rewrite Hadd, Hsock. reflexivity.
Qed.

Lemma session_updateRoom_set (g : Gateway.t) (roomID socketId : string)
    (room : RoomData.t) (p : PlayerData.t) :
  JsObj.get (Gateway.rooms g) roomID = Some room ->
  session
    (updateRoom roomID
       (RoomData.map_players (fun ps => JsObj.set ps socketId p)) g)
    roomID socketId
  = Some p.
Proof.
  intros Hroom. unfold session. rewrite get_rooms_updateRoom, String.eqb_refl.
  rewrite Hroom. simpl. rewrite get_set, String.eqb_refl. reflexivity.
Qed.

(** C10. A session created by [createRoom] (the host's) starts Ready,
    one created by [joinRoom] starts Waiting; hence in the room a
    successful [createRoom] leaves behind, which holds the host's session
    only, [startGame] by the host passes the all-Ready guard and sets the
    room Running with no [playerReady] in between. *)
Theorem initial_readiness (g : Gateway.t) (socketId : string) (db : Store.t)
    (c : Player.columns) :
  (forall (data : CreateRoomDto.t) (n : positive),
      let playerId := CreateRoomDto.playerId data in
      Store.findPlayerById db playerId = Resolved (Some c) ->
      found (roomOfPlayer g playerId) = None ->
      Store.insertRoom db = Resolved n ->
      Store.updatePlayerSocket db playerId socketId true = Resolved tt ->
      let g' := fst (createRoom g socketId data db) in
      let roomID := roomIdOfSeq n in
      (exists host,
          playersOf g' roomID = [host]
          /\ session g' roomID socketId = Some host
          /\ PlayerData.isHost host = true
          /\ PlayerData.status host = Ready)
      /\ forall (map : Z) (db' : Store.t),
          Store.updateRoomStatus db' roomID RUNNING = Resolved tt ->
          transitionsToRunning g'
            (fst (startGame g' socketId (StartGameDto.mk roomID map) db'))
            roomID)
  /\ (forall (data : JoinRoomDto.t) (room : RoomData.t),
      let roomID := JoinRoomDto.roomID data in
      let playerId := JoinRoomDto.playerId data in
      JsObj.get (Gateway.rooms g) roomID = Some room ->
      RoomData.status room = WAITING ->
      passwordRefused (RoomData.password room) (JoinRoomDto.password data)
      = false ->
      Store.findPlayerById db playerId = Resolved (Some c) ->
      (JsObj.size (RoomData.players room) < MAX_PLAYERS)%nat ->
      found (roomOfPlayer g playerId) = None ->
      Store.addPlayerToRoom db roomID playerId = Resolved tt ->
      Store.updatePlayerSocket db playerId socketId false = Resolved tt ->
      exists guest,
        session (fst (joinRoom g socketId data db)) roomID socketId = Some guest
        /\ PlayerData.isHost guest = false
        /\ PlayerData.status guest = Waiting).
Proof.
  split.
  - intros data n playerId Hplayer Hfree Hseq Hsock g' roomID.
    pose proof (createRoom_room g socketId data db c n tt Hplayer Hfree Hseq
                  Hsock) as Hroom.
    fold g' roomID playerId in Hroom.
    set (host := hostPlayerData socketId (Player.doc playerId c)) in *.
    split.
    + exists host. unfold playersOf, session. rewrite Hroom. simpl.
      rewrite String.eqb_refl. repeat split.
    + intros map db' Hdb.
      assert (Hguards :
                startGuards
                  (RoomData.mk roomID (CreateRoomDto.value data)
                     (Some (passwordOrEmpty (CreateRoomDto.password data)))
                     WAITING [(socketId, host)]) socketId = true).
      { unfold startGuards, holdsHost. simpl. rewrite String.eqb_refl.
        reflexivity. }
      eexists. eexists. split; [exact Hroom|]. split.
      * rewrite (startGame_resolved g' socketId (StartGameDto.mk roomID map)
                   db' _ tt Hroom Hguards Hdb).
        simpl fst. rewrite !get_rooms_updateRoom. simpl StartGameDto.roomID.
        rewrite String.eqb_refl, Hroom. reflexivity.
      * split; [discriminate|reflexivity].
  - intros data room roomID playerId Hroom Hwaiting Hpw Hplayer Hsize Hfree
      Hadd Hsock.
    rewrite (joinRoom_resolved g socketId data db room c tt tt Hroom Hwaiting
               Hpw Hplayer Hsize Hfree Hadd Hsock).
    exists (newPlayerData socketId (Player.doc playerId c)).
    split; [|split; reflexivity].
    apply (session_updateRoom_set g roomID socketId room). exact Hroom.
Qed.

(** The theorem at work: "h" creates the sample room and could start at
    once; "j" joins it and is Waiting. *)
Lemma initial_readiness_witness :
  transitionsToRunning Sample.hosted
    (fst (startGame Sample.hosted "h" (StartGameDto.mk "1" 3) (Sample.store 1)))
    "1"
  /\ exists guest,
       session Sample.joined "1" "j" = Some guest
       /\ PlayerData.isHost guest = false
       /\ PlayerData.status guest = Waiting.
Proof.
  pose proof (initial_readiness
                (Sample.after Sample.empty
                   [(connection "h", Sample.store 1);
                    (connection "j", Sample.store 1)])
                "h" (Sample.store 1) (Sample.columns 1 [1; 2]%Z)) as [Hcreate _].
  pose proof (initial_readiness Sample.hosted "j" (Sample.store 1)
                (Sample.columns 1 [1; 2]%Z)) as [_ Hjoin].
  split.
  - exact (proj2 (Hcreate (CreateRoomDto.mk 100 (Some "pw") "H") 1%positive
                    eq_refl eq_refl eq_refl eq_refl)
             3%Z (Sample.store 1) eq_refl).
  - destruct (JsObj.get (Gateway.rooms Sample.hosted) "1") as [room|] eqn:Hroom;
      [|discriminate Hroom].
    refine (Hjoin (JoinRoomDto.mk "1" "J" (Some "pw")) room Hroom _ _ eq_refl
              _ eq_refl eq_refl eq_refl);
      injection Hroom as <-; [reflexivity|reflexivity|].
    simpl. unfold MAX_PLAYERS. lia.
Defined.

(** ** Joining with a wrong password *)

(** C6, as stated, fails: the sample room has the password "pw" and is
    Running; "k" joins with another password over an open connection and
    is told that the room is not waiting for players, not that the
    password is incorrect. *)
Lemma joinRoom_wrong_password_running_room :
  option_map RoomData.password (JsObj.get (Gateway.rooms lobbyRunning) "1")
  = Some (Some "pw")
  /\ isOpen lobbyRunning "k" = true
  /\ snd (joinRoom lobbyRunning "k" (JoinRoomDto.mk "1" "K" (Some "bad"))
            (Sample.store 1))
     = [Send "k"
          (error
             "Room is not waiting for players (already running or finished)."
             None)]
  /\ ~ In (Send "k" (error "Incorrect password." None))
          (snd (joinRoom lobbyRunning "k"
                  (JoinRoomDto.mk "1" "K" (Some "bad")) (Sample.store 1))).
Proof.
  repeat split.
  intros [H|[]]. discriminate H.
Qed.

(** C6, amended. For a room that is Waiting and has a non-empty
    password, a [joinRoom] whose password differs from the room's leaves
    the whole gateway state (that room's players and status, the rest of
    the directory) unchanged, and its only effect is the error
    "Incorrect password." written to the sender when the sender's
    connection is open. *)
Theorem joinRoom_incorrect_password (g : Gateway.t) (socketId : string)
    (data : JoinRoomDto.t) (db : Store.t) (room : RoomData.t)
    (roomPassword : string) :
  JsObj.get (Gateway.rooms g) (JoinRoomDto.roomID data) = Some room ->
  RoomData.status room = WAITING ->
  RoomData.password room = Some roomPassword ->
  roomPassword <> "" ->
  JoinRoomDto.password data <> Some roomPassword ->
  fst (joinRoom g socketId data db) = g
  /\ snd (joinRoom g socketId data db)
     = sendToClient g socketId (error "Incorrect password." None)
  /\ (isOpen g socketId = true ->
      snd (joinRoom g socketId data db)
      = [Send socketId (error "Incorrect password." None)]).
Proof.
  intros Hroom Hwaiting Hpw Hnonempty Hdiffer.
  assert (Hrefused : passwordRefused (RoomData.password room)
                       (JoinRoomDto.password data) = true).
  { rewrite Hpw. unfold passwordRefused, truthy.
    apply String.eqb_neq in Hnonempty. rewrite Hnonempty. simpl.
    destruct (JoinRoomDto.password data) as [q|]; [|reflexivity].
    destruct (String.eqb_spec roomPassword q) as [->|]; [|reflexivity].
    congruence. }
  assert (Hout : joinRoom g socketId data db
                 = (g, sendToClient g socketId
                         (error "Incorrect password." None))).
  { unfold joinRoom. cbv zeta. rewrite Hroom, Hwaiting, Hrefused. simpl.
    unfold sendError. destruct (Gateway.production g); reflexivity. }
  rewrite Hout. repeat split.
  intros Hopen. simpl. unfold sendToClient. rewrite Hopen. reflexivity.
Qed.

(** The theorem at work: "k" tries the waiting sample room with a wrong
    password. *)
Lemma joinRoom_incorrect_password_witness :
  snd (joinRoom lobbyWaiting "k" (JoinRoomDto.mk "1" "K" (Some "bad"))
         (Sample.store 1))
  = [Send "k" (error "Incorrect password." None)].
Proof.
  destruct (JsObj.get (Gateway.rooms lobbyWaiting) "1") as [room|] eqn:Hroom;
    [|discriminate Hroom].
  refine (proj2 (proj2 (joinRoom_incorrect_password lobbyWaiting "k"
            (JoinRoomDto.mk "1" "K" (Some "bad")) (Sample.store 1) room "pw"
            Hroom _ _ _ _)) eq_refl);
    injection Hroom as <-; try reflexivity; discriminate.
Defined.

(** ** Changing the car *)



Section ChangeCar.
Variables (g : Gateway.t) (socketId : string) (data : PlayerChangeCarDto.t)
          (db : Store.t) (room : RoomData.t).
Let roomID := PlayerChangeCarDto.roomID data.
Let playerID := PlayerChangeCarDto.playerID data.
Let mainCar := PlayerChangeCarDto.mainCar data.
Hypothesis Hroom : JsObj.get (Gateway.rooms g) roomID = Some room.







End ChangeCar.



(** ** A store failure while starting *)

Lemma set_status_Ready_id (p : PlayerData.t) :
  isReady p = true -> PlayerData.set_status Ready p = p.
Proof.
  destruct p as [? ? ? ? ? ? ? ? ? ? st ? ?]. unfold isReady. simpl.
  destruct st; [discriminate|reflexivity].
Qed.

Lemma map_values_id {V : Type} (f : V -> V) (o : JsObj.t V) :
  Forall (fun v => f v = v) (JsObj.values o) -> JsObj.map_values f o = o.
Proof.
  induction o as [|[k v] o IH]; simpl; intros H; [reflexivity|].
  inversion H as [|? ? Hv Ho]; subst. simpl. rewrite Hv.
  f_equal. exact (IH Ho).
Qed.

Lemma update_idem {V : Type} (f : V -> V) (o : JsObj.t V) (k : string) :
  (forall v, f (f v) = f v) ->
  JsObj.update (JsObj.update o k f) k f = JsObj.update o k f.
Proof.
  intros Hf. unfold JsObj.update. rewrite map_map. apply map_ext.
  intros [k0 v0]. simpl.
  destruct (String.eqb k0 k) eqn:E; simpl; rewrite E; [|reflexivity].
  rewrite Hf. reflexivity.
Qed.

(** The room found again after the start was undone. *)
Lemma revert_restores (room : RoomData.t) :
  RoomData.status room = WAITING ->
  forallb isReady (JsObj.values (RoomData.players room)) = true ->
  RoomData.map_players (JsObj.map_values (PlayerData.set_status Ready))
    (RoomData.set_status WAITING (RoomData.set_status RUNNING room))
  = room.
Proof.
  intros Hst Hready. destruct room as [id value password status players].
  simpl in *. subst status.
  unfold RoomData.map_players, RoomData.set_players, RoomData.set_status.
  simpl. f_equal. apply map_values_id.
  rewrite forallb_forall in Hready. apply Forall_forall.
  intros p Hp. apply set_status_Ready_id, Hready, Hp.
Qed.

(** C8, as stated, fails: when the store rejects the compensating update
    as well, the host of the sample room gets the error reply and
    nothing else is sent: no room list, no [gameStartFailed]. *)
Lemma startGame_store_down_no_notice :
  option_map (fun room => startGuards room "h")
    (JsObj.get (Gateway.rooms Sample.ready) "1") = Some true
  /\ Store.updateRoomStatus Sample.down "1" RUNNING = Rejected "down"
  /\ snd (startGame Sample.ready "h" (StartGameDto.mk "1" 3) Sample.down)
     = [Persist (Call.updateRoomStatus "1" RUNNING);
        Send "h" (error "Failed to start game." (Some "down"));
        Persist (Call.updateRoomStatus "1" WAITING)].
Proof. repeat split. Qed.

(** The in-memory change of the other handlers outlives a store
    failure. *)

Lemma kickPlayer_state_regardless (g : Gateway.t) (socketId : string)
    (data : KickPlayerDto.t) (db db' : Store.t) :
  fst (kickPlayer g socketId data db) = fst (kickPlayer g socketId data db').
Proof.
  unfold kickPlayer. cbv zeta.
  destruct (String.eqb socketId (KickPlayerDto.targetSocketID data));
    [reflexivity|].
  destruct (JsObj.get (Gateway.rooms g) (KickPlayerDto.roomID data))
    as [room|]; [|reflexivity].
  destruct (negb _); [reflexivity|].
  destruct (JsObj.get (RoomData.players room)
              (KickPlayerDto.targetSocketID data)) as [target|];
    [|reflexivity].
  destruct (Store.leaveRoom db _ _), (Store.leaveRoom db' _ _); reflexivity.
Qed.

Lemma playerChangeCar_state_regardless (g : Gateway.t) (socketId : string)
    (data : PlayerChangeCarDto.t) (db db' : Store.t) :
  fst (playerChangeCar g socketId data db)
  = fst (playerChangeCar g socketId data db').
Proof.
  unfold playerChangeCar. cbv zeta.
  destruct (JsObj.get (Gateway.rooms g) (PlayerChangeCarDto.roomID data))
    as [room|]; [|reflexivity].
  destruct (negb _); [reflexivity|].
  destruct (claimedSession g room socketId _) as [player|]; [|reflexivity].
  destruct (_ =? _)%Z; [reflexivity|].
  destruct (negb _); [reflexivity|].
  destruct (Store.updateMainCar db _ _), (Store.updateMainCar db' _ _);
    reflexivity.
Qed.

Lemma updatePlayer_idem (g : Gateway.t) (roomID socketId : string)
    (f : PlayerData.t -> PlayerData.t) :
  (forall p, f (f p) = f p) ->
  updatePlayer roomID socketId f (updatePlayer roomID socketId f g)
  = updatePlayer roomID socketId f g.
Proof.
  intros Hf. unfold updatePlayer, updateRoom, Gateway.set_rooms. simpl.
  f_equal. apply update_idem.
  intros [id value password status players].
  unfold RoomData.map_players, RoomData.set_players. simpl.
  f_equal. apply update_idem, Hf.
Qed.

Lemma playerReady_state_regardless (g : Gateway.t) (socketId : string)
    (data : PlayerReadyDto.t) (db db' : Store.t) :
  fst (playerReady g socketId data db) = fst (playerReady g socketId data db').
Proof.
  assert (Hone : forall d : Store.t,
            match JsObj.get (Gateway.rooms g) (PlayerReadyDto.roomID data) with
            | Some room =>
                RoomStatus_eqb (RoomData.status room) WAITING = true ->
                forall player,
                  claimedSession g room socketId (PlayerReadyDto.playerID data)
                  = Some player ->
                  PlayerStatus_eqb (PlayerData.status player) Ready = false ->
                  fst (playerReady g socketId data d)
                  = updatePlayer (PlayerReadyDto.roomID data) socketId
                      (PlayerData.set_status Ready) g
            | None => True
            end).
  { intros d.
    destruct (JsObj.get (Gateway.rooms g) (PlayerReadyDto.roomID data))
      as [room|] eqn:Hroom; [|exact I].
    intros Hst player Hclaim Hnot.
    unfold playerReady. cbv zeta. rewrite Hroom, Hst, Hclaim, Hnot. simpl.
    destruct (Store.updatePlayerStatus d _ _); [reflexivity|].
    destruct (session _ _ _); [|reflexivity].
    simpl. apply updatePlayer_idem. intros p. reflexivity. }
  pose proof (Hone db) as H1. pose proof (Hone db') as H2.
  destruct (JsObj.get (Gateway.rooms g) (PlayerReadyDto.roomID data))
    as [room|] eqn:Hroom.
  - destruct (RoomStatus_eqb (RoomData.status room) WAITING) eqn:Hst.
    + destruct (claimedSession g room socketId (PlayerReadyDto.playerID data))
        as [player|] eqn:Hclaim.
      * destruct (PlayerStatus_eqb (PlayerData.status player) Ready) eqn:Hnot.
        -- unfold playerReady. cbv zeta. rewrite Hroom, Hst, Hclaim, Hnot.
           reflexivity.
        -- rewrite (H1 eq_refl player eq_refl Hnot).
           rewrite (H2 eq_refl player eq_refl Hnot). reflexivity.
      * unfold playerReady. cbv zeta. rewrite Hroom, Hst, Hclaim. reflexivity.
    + unfold playerReady. cbv zeta. rewrite Hroom, Hst. reflexivity.
  - unfold playerReady. cbv zeta. rewrite Hroom. reflexivity.
Qed.

Lemma handleDisconnect_state_regardless (g : Gateway.t) (socketId : string)
    (db db' : Store.t) :
  fst (handleDisconnect g socketId db) = fst (handleDisconnect g socketId db').
Proof. reflexivity. Qed.

Lemma session_deletePlayer (g : Gateway.t) (roomID socketId : string) :
  session (deletePlayer roomID socketId g) roomID socketId = None.
Proof.
  unfold session, deletePlayer. rewrite get_rooms_updateRoom, String.eqb_refl.
  destruct (JsObj.get (Gateway.rooms g) roomID) as [room|]; simpl;
    [|reflexivity].
  rewrite get_delete, String.eqb_refl. reflexivity.
Qed.

Lemma session_deleteRoom (g : Gateway.t) (roomID socketId : string) :
  session (deleteRoom roomID g) roomID socketId = None.
Proof.
  unfold session, deleteRoom. simpl. rewrite get_delete, String.eqb_refl.
  reflexivity.
Qed.

(** Whatever the store answers, [leaveRoom] removes the sender's session
    from the room it was found in. *)
Lemma leaveRoom_session_removed (g : Gateway.t) (socketId : string)
    (db : Store.t) (roomID : string) :
  found (roomOfSocket g socketId) = Some roomID ->
  session (fst (leaveRoom g socketId db)) roomID socketId = None.
Proof.
  intros Hfound. unfold leaveRoom. rewrite Hfound.
  destruct (found (JsObj.get (Gateway.clientPlayerMap g) socketId))
    as [playerId|].
  - destruct (JsObj.get (Gateway.rooms g) roomID) as [room|] eqn:Hroom.
    + destruct (Store.leaveRoom db roomID playerId).
      * destruct (match session g roomID socketId with
                  | Some pl => PlayerData.isHost pl
                  | None => false
                  end).
        -- destruct (Store.deleteRoom db roomID); apply session_deleteRoom.
        -- apply session_deletePlayer.
      * apply session_deletePlayer.
    + unfold session. simpl. rewrite Hroom. reflexivity.
  - apply session_deletePlayer.
Qed.

(** Whatever the store answers, [updateStatusWaitingRoom] by the host
    leaves the room Waiting. *)
Lemma updateStatusWaitingRoom_status_kept (g : Gateway.t) (socketId : string)
    (data : WaitingRoomDto.t) (db : Store.t) (room : RoomData.t) :
  JsObj.get (Gateway.rooms g) (WaitingRoomDto.roomID data) = Some room ->
  holdsHost room socketId = true ->
  option_map RoomData.status
    (JsObj.get (Gateway.rooms (fst (updateStatusWaitingRoom g socketId data db)))
       (WaitingRoomDto.roomID data))
  = Some WAITING.
Proof.
  intros Hroom Hhost. unfold updateStatusWaitingRoom. cbv zeta.
  rewrite Hroom. fold (holdsHost room socketId). rewrite Hhost. simpl.
  destruct (Store.updateRoomStatus db _ _).
  - destruct (resetNonHosts db (RoomData.players room)) as [[players' calls] ok].
    destruct ok; simpl; rewrite !get_update, String.eqb_refl, Hroom;
      reflexivity.
  - simpl. rewrite get_update, String.eqb_refl, Hroom. reflexivity.
Qed.

Lemma holdsHost_keys (room : RoomData.t) (socketId : string) :
  holdsHost room socketId = true -> JsObj.keys (RoomData.players room) <> [].
Proof.
  unfold holdsHost.
  destruct (JsObj.get (RoomData.players room) socketId) as [p|] eqn:Hp;
    [|discriminate].
  intros _ Hnil. apply get_In_keys in Hp. rewrite Hnil in Hp. exact Hp.
Qed.

(** C8, amended. When the store rejects the status update of a start
    whose guards passed, [startGame] undoes the start in memory: every
    room of the directory, the started one included, is as before the
    attempt (Waiting, every session Ready), and so are the registry and
    the reverse lookup.  The failure is announced (the room list is
    broadcast again and [gameStartFailed] goes to the room) provided the
    compensating status update is accepted by the store; when that
    update is rejected too, the error reply to the sender is the only
    message.  The other handlers keep their in-memory change when the
    store fails: [kickPlayer], [playerReady], [playerChangeCar] and
    [handleDisconnect] reach the same state whatever the store answers,
    [leaveRoom] removes the sender's session and
    [updateStatusWaitingRoom] leaves the room Waiting whatever the store
    answers. *)
Theorem startGame_store_failure (g : Gateway.t) (socketId : string)
    (data : StartGameDto.t) (db : Store.t) (room : RoomData.t) (m : string) :
  let roomID := StartGameDto.roomID data in
  JsObj.get (Gateway.rooms g) roomID = Some room ->
  startGuards room socketId = true ->
  Store.updateRoomStatus db roomID RUNNING = Rejected m ->
  let g' := fst (startGame g socketId data db) in
  let out := snd (startGame g socketId data db) in
  (forall k, JsObj.get (Gateway.rooms g') k = JsObj.get (Gateway.rooms g) k)
  /\ Gateway.clients g' = Gateway.clients g
  /\ Gateway.clientPlayerMap g' = Gateway.clientPlayerMap g
  /\ (Store.updateRoomStatus db roomID WAITING = Resolved tt ->
      out
      = [Persist (Call.updateRoomStatus roomID RUNNING)]
        ++ sendError g socketId "Failed to start game." (Some m)
        ++ [Persist (Call.updateRoomStatus roomID WAITING)]
        ++ broadcastRoomList g'
        ++ [RoomCast roomID gameStartFailed
              (filter (isOpen g) (JsObj.keys (RoomData.players room)))])
  /\ (forall m',
        Store.updateRoomStatus db roomID WAITING = Rejected m' ->
        out
        = [Persist (Call.updateRoomStatus roomID RUNNING)]
          ++ sendError g socketId "Failed to start game." (Some m)
          ++ [Persist (Call.updateRoomStatus roomID WAITING)])
  /\ (forall (kick : KickPlayerDto.t) (db1 db2 : Store.t),
        fst (kickPlayer g socketId kick db1)
        = fst (kickPlayer g socketId kick db2))
  /\ (forall (ready : PlayerReadyDto.t) (db1 db2 : Store.t),
        fst (playerReady g socketId ready db1)
        = fst (playerReady g socketId ready db2))
  /\ (forall (car : PlayerChangeCarDto.t) (db1 db2 : Store.t),
        fst (playerChangeCar g socketId car db1)
        = fst (playerChangeCar g socketId car db2))
  /\ (forall db1 db2 : Store.t,
        fst (handleDisconnect g socketId db1)
        = fst (handleDisconnect g socketId db2))
  /\ (forall (db1 : Store.t) (left : string),
        found (roomOfSocket g socketId) = Some left ->
        session (fst (leaveRoom g socketId db1)) left socketId = None)
  /\ (forall (waiting : WaitingRoomDto.t) (db1 : Store.t) (room1 : RoomData.t),
        JsObj.get (Gateway.rooms g) (WaitingRoomDto.roomID waiting)
        = Some room1 ->
        holdsHost room1 socketId = true ->
        option_map RoomData.status
          (JsObj.get
             (Gateway.rooms
                (fst (updateStatusWaitingRoom g socketId waiting db1)))
             (WaitingRoomDto.roomID waiting))
        = Some WAITING).
Proof.
  intros roomID Hroom Hguards Hdb g' out. subst g' out roomID.
  rewrite (startGame_rejected g socketId data db room m Hroom Hguards Hdb).
  simpl fst. simpl snd.
  assert (Hguards' := Hguards). unfold startGuards in Hguards'.
  apply andb_prop in Hguards' as [Hguards' Hready].
  apply andb_prop in Hguards' as [Hguards' _].
  apply andb_prop in Hguards' as [Hhost Hwaiting].
  apply RoomStatus_eqb_eq in Hwaiting.
  assert (Hsame : forall k,
             JsObj.get (Gateway.rooms (undoneStart (StartGameDto.roomID data) g)) k
             = JsObj.get (Gateway.rooms g) k).
  { intros k. unfold undoneStart. rewrite !get_rooms_updateRoom.
    destruct (String.eqb_spec (StartGameDto.roomID data) k) as [<-|Hk];
      [|reflexivity].
    rewrite Hroom. simpl. rewrite (revert_restores room Hwaiting Hready).
    reflexivity. }
  split; [exact Hsame|]. split; [reflexivity|]. split; [reflexivity|].
  split; [|split].
  - intros Hcomp. rewrite Hcomp.
    assert (Hcast :
              broadcastToRoom (undoneStart (StartGameDto.roomID data) g)
                (StartGameDto.roomID data) gameStartFailed None
              = [RoomCast (StartGameDto.roomID data) gameStartFailed
                   (filter (isOpen g) (JsObj.keys (RoomData.players room)))]).
    { unfold broadcastToRoom. rewrite Hsame, Hroom.
      pose proof (holdsHost_keys room socketId Hhost) as Hkeys.
      destruct (JsObj.keys (RoomData.players room)) as [|k ks] eqn:Hk;
        [contradiction|].
      reflexivity. }
    rewrite Hcast. reflexivity.
  - intros m' Hcomp. rewrite Hcomp. reflexivity.
  - split; [intros; apply kickPlayer_state_regardless|].
    split; [intros; apply playerReady_state_regardless|].
    split; [intros; apply playerChangeCar_state_regardless|].
    split; [intros; apply handleDisconnect_state_regardless|].
    split; [intros; apply leaveRoom_session_removed; assumption|].
    intros. eapply updateStatusWaitingRoom_status_kept; eassumption.
Qed.

(** The theorem at work: the host of the sample room starts the game
    while the store rejects the first status update only. *)
Lemma startGame_store_failure_witness :
  snd (startGame Sample.ready "h" (StartGameDto.mk "1" 3) Sample.flaky)
  = [Persist (Call.updateRoomStatus "1" RUNNING)]
    ++ sendError Sample.ready "h" "Failed to start game." (Some "write failed")
    ++ [Persist (Call.updateRoomStatus "1" WAITING)]
    ++ broadcastRoomList
         (fst (startGame Sample.ready "h" (StartGameDto.mk "1" 3) Sample.flaky))
    ++ [RoomCast "1" gameStartFailed ["h"; "j"]].
Proof.
  destruct (JsObj.get (Gateway.rooms Sample.ready) "1") as [room|] eqn:Hroom;
    [|discriminate Hroom].
  pose proof (startGame_store_failure Sample.ready "h" (StartGameDto.mk "1" 3)
                Sample.flaky room "write failed" Hroom) as H.
  injection Hroom as <-.
  exact (proj1 (proj2 (proj2 (proj2 (H eq_refl eq_refl)))) eq_refl).
Defined.

(** ** One connection, two player ids *)

(** C3 at the failing input.  [createRoom] looks for a session with the
    given player id, not for a session of the sending connection: after
    the two messages the connection "s" is a key of the players map of
    room "1" (as player "A") and of room "2" (as player "B"). *)
Theorem createRoom_twice_two_rooms :
  option_map PlayerData._id (session twoRooms "1" "s") = Some "A"
  /\ option_map PlayerData._id (session twoRooms "2" "s") = Some "B"
  /\ JsObj.keys (Gateway.rooms twoRooms) = ["1"; "2"].
Proof. repeat split. Qed.

(** ** The host goes away *)

(** C4 at the failing input.  The connection "s" of [twoRooms] hosts
    rooms "1" and "2" and disconnects: [handleDisconnect] stops at the
    first room it finds, so room "2" stays in the directory with the
    session of "s" as its host, and the room list broadcast at the end
    still shows it.  Likewise, when the host "h" of the sample room
    leaves while the store rejects the membership update, [leaveRoom]
    ends in its catch block: the room stays in the directory without its
    host, "j" is not told, and no room list is broadcast. *)
Theorem host_departure_room_survives :
  option_map PlayerData.isHost (session twoRooms "2" "s") = Some true
  /\ option_map PlayerData.isHost
       (session (fst (handleDisconnect twoRooms "s" (Sample.store 3))) "2" "s")
     = Some true
  /\ snd (handleDisconnect twoRooms "s" (Sample.store 3))
     = [Persist (Call.leaveRoom "1" "A");
        Persist (Call.deleteRoom "1");
        AllCast (roomListUpdated [PublicRoom.mk "2" WAITING 100 false 1]) ["s"]]
  /\ option_map PlayerData.isHost (session Sample.joined "1" "h") = Some true
  /\ JsObj.keys
       (Gateway.rooms (fst (leaveRoom Sample.joined "h" Sample.down)))
     = ["1"]
  /\ snd (leaveRoom Sample.joined "h" Sample.down)
     = [Send "h" (leftRoom "1"); Persist (Call.leaveRoom "1" "H")].
Proof. repeat split. Qed.

(** ** The load barrier *)

Lemma Change_keepsLoaded (R R' : JsObj.t RoomData.t) (roomID : string) :
  Change R R' -> keepsLoaded (JsObj.get R roomID) (JsObj.get R' roomID).
Proof.
  intros [|r f Hf|r f|r room f Hf]; intros room' Hafter Hrunning.
  - exists room'. split; [exact Hafter|]. intros _ H. exact H.
  - rewrite get_update in Hafter.
    destruct (String.eqb_spec r roomID) as [->|Hr].
    + destruct (JsObj.get R roomID) as [room|] eqn:Hroom; [|discriminate].
      simpl in Hafter. injection Hafter as <-.
      exists room. split; [reflexivity|]. intros Hst Hl.
      exact (Hf room eq_refl Hrunning Hst Hl).
    + exists room'. split; [exact Hafter|]. intros _ H. exact H.
  - rewrite get_delete in Hafter.
    destruct (String.eqb_spec r roomID) as [->|Hr]; [discriminate|].
    rewrite get_update in Hafter.
    destruct (String.eqb_spec r roomID) as [->|_]; [contradiction|].
    exists room'. split; [exact Hafter|]. intros _ H. exact H.
  - rewrite get_update, get_set in Hafter.
    destruct (String.eqb_spec r roomID) as [->|Hr].
    + simpl in Hafter. injection Hafter as <-. contradiction.
    + exists room'. split; [exact Hafter|]. intros _ H. exact H.
Qed.

Lemma update_update {V : Type} (o : JsObj.t V) (k : string) (f f' : V -> V) :
  JsObj.update (JsObj.update o k f) k f'
  = JsObj.update o k (fun v => f' (f v)).
Proof.
  unfold JsObj.update. rewrite map_map. apply map_ext.
  intros [k0 v0]. simpl.
  destruct (String.eqb k0 k) eqn:E; simpl; rewrite E; reflexivity.
Qed.

Lemma Forall_values_delete {V : Type} (P : V -> Prop) (o : JsObj.t V)
    (k : string) :
  Forall P (JsObj.values o) -> Forall P (JsObj.values (JsObj.delete o k)).
Proof.
  induction o as [|[k0 v0] o IH]; simpl; intros H; [constructor|].
  inversion H as [|? ? Hv Ho]; subst.
  destruct (String.eqb k0 k); simpl; [exact (IH Ho)|].
  constructor; [exact Hv|exact (IH Ho)].
Qed.

Lemma Forall_values_update {V : Type} (P : V -> Prop) (o : JsObj.t V)
    (k : string) (h : V -> V) :
  (forall v, P v -> P (h v)) ->
  Forall P (JsObj.values o) -> Forall P (JsObj.values (JsObj.update o k h)).
Proof.
  intros Hh. induction o as [|[k0 v0] o IH]; simpl; intros H; [constructor|].
  inversion H as [|? ? Hv Ho]; subst.
  destruct (String.eqb k0 k); simpl; constructor; auto.
Qed.

Lemma loadedRoom_delete (room : RoomData.t) (k : string) :
  loadedRoom room ->
  loadedRoom (RoomData.map_players (fun ps => JsObj.delete ps k) room).
Proof. apply Forall_values_delete. Qed.

Lemma loadedRoom_update (room : RoomData.t) (k : string)
    (h : PlayerData.t -> PlayerData.t) :
  (forall p, PlayerData.isLoaded p = true -> PlayerData.isLoaded (h p) = true) ->
  loadedRoom room ->
  loadedRoom (RoomData.map_players (fun ps => JsObj.update ps k h) room).
Proof. intros Hh. apply Forall_values_update. exact Hh. Qed.

(** The mutations of a room that keep it fully loaded. *)
Lemma Change_deletePlayer (R : JsObj.t RoomData.t) (r k : string) :
  Change R
    (JsObj.update R r (RoomData.map_players (fun ps => JsObj.delete ps k))).
Proof.
  apply Change_update. intros room _ _ _. apply loadedRoom_delete.
Qed.

Lemma Change_updatePlayer (R : JsObj.t RoomData.t) (r k : string)
    (h : PlayerData.t -> PlayerData.t) :
  (forall p, PlayerData.isLoaded p = true -> PlayerData.isLoaded (h p) = true) ->
  Change R
    (JsObj.update R r (RoomData.map_players (fun ps => JsObj.update ps k h))).
Proof.
  intros Hh. apply Change_update. intros room _ _ _.
  apply loadedRoom_update. exact Hh.
Qed.

(** A mutation of a room that is known not to be Running. *)
Lemma Change_not_running (R : JsObj.t RoomData.t) (r : string)
    (f : RoomData.t -> RoomData.t) (room : RoomData.t) :
  JsObj.get R r = Some room ->
  RoomData.status room <> RUNNING ->
  Change R (JsObj.update R r f).
Proof.
  intros Hroom Hst. apply Change_update.
  intros room0 Hroom0 _ Hrunning. congruence.
Qed.

(** A mutation that leaves the room not Running. *)
Lemma Change_to_not_running (R : JsObj.t RoomData.t) (r : string)
    (f : RoomData.t -> RoomData.t) :
  (forall room, RoomData.status (f room) <> RUNNING) ->
  Change R (JsObj.update R r f).
Proof.
  intros Hf. apply Change_update. intros room _ Hrunning. destruct (Hf room Hrunning).
Qed.

(** A position report, by cases on its payload: the goal is left with
    the body of the handler, or with the reply of the listener. *)
Ltac on_payload data :=
  destruct data as [data|];
  cbv beta iota zeta delta
    [onMessage handleMessage syncPosition syncCarPosition].

Ltac break_matches :=
  repeat match goal with
         | |- context [match ?x with _ => _ end] => destruct x eqn:?
         end.

Lemma createRoom_Change (g : Gateway.t) (socketId : string)
    (data : CreateRoomDto.t) (db : Store.t) :
  Change (Gateway.rooms g) (Gateway.rooms (fst (createRoom g socketId data db))).
Proof.
  unfold createRoom, RoomService_createRoom. cbv zeta.
  destruct (Store.insertRoom db); simpl;
    break_matches; simpl; try apply Change_same.
  apply Change_open. simpl. discriminate.
Qed.

Lemma WAITING_not_RUNNING (room : RoomData.t) :
  negb (RoomStatus_eqb (RoomData.status room) WAITING) = false ->
  RoomData.status room <> RUNNING.
Proof.
  intros H. apply negb_false_iff, RoomStatus_eqb_eq in H. rewrite H.
  discriminate.
Qed.

Lemma joinRoom_Change (g : Gateway.t) (socketId : string)
    (data : JoinRoomDto.t) (db : Store.t) :
  Change (Gateway.rooms g) (Gateway.rooms (fst (joinRoom g socketId data db))).
Proof.
  unfold joinRoom. cbv zeta.
  break_matches; simpl; try apply Change_same.
  eapply Change_not_running; [eassumption|].
  apply WAITING_not_RUNNING. assumption.
Qed.

Lemma leaveRoom_Change (g : Gateway.t) (socketId : string) (db : Store.t) :
  Change (Gateway.rooms g) (Gateway.rooms (fst (leaveRoom g socketId db))).
Proof.
  unfold leaveRoom. cbv zeta.
  break_matches; simpl;
    first [apply Change_same | apply Change_deletePlayer | apply Change_close].
Qed.

Lemma kickPlayer_Change (g : Gateway.t) (socketId : string)
    (data : KickPlayerDto.t) (db : Store.t) :
  Change (Gateway.rooms g) (Gateway.rooms (fst (kickPlayer g socketId data db))).
Proof.
  unfold kickPlayer. cbv zeta.
  break_matches; simpl;
    first [apply Change_same | apply Change_deletePlayer].
Qed.

Lemma handleDisconnect_Change (g : Gateway.t) (socketId : string)
    (db : Store.t) :
  Change (Gateway.rooms g) (Gateway.rooms (fst (handleDisconnect g socketId db))).
Proof.
  unfold handleDisconnect. cbv zeta.
  break_matches; simpl;
    first [apply Change_same | apply Change_deletePlayer | apply Change_close].
Qed.

Lemma playerReady_Change (g : Gateway.t) (socketId : string)
    (data : PlayerReadyDto.t) (db : Store.t) :
  Change (Gateway.rooms g) (Gateway.rooms (fst (playerReady g socketId data db))).
Proof.
  unfold playerReady. cbv zeta.
  break_matches; simpl; try apply Change_same;
    rewrite ?update_update;
    (apply Change_update; intros room _ _ _ Hl;
     repeat apply loadedRoom_update; auto).
Qed.

Lemma playerChangeCar_Change (g : Gateway.t) (socketId : string)
    (data : PlayerChangeCarDto.t) (db : Store.t) :
  Change (Gateway.rooms g)
    (Gateway.rooms (fst (playerChangeCar g socketId data db))).
Proof.
  unfold playerChangeCar. cbv zeta.
  break_matches; simpl; try apply Change_same;
    (apply Change_updatePlayer; intros p Hp; exact Hp).
Qed.

Lemma updateStatusWaitingRoom_Change (g : Gateway.t) (socketId : string)
    (data : WaitingRoomDto.t) (db : Store.t) :
  Change (Gateway.rooms g)
    (Gateway.rooms (fst (updateStatusWaitingRoom g socketId data db))).
Proof.
  unfold updateStatusWaitingRoom. cbv zeta.
  break_matches; simpl; try apply Change_same;
    rewrite ?update_update;
    (apply Change_to_not_running; intros room; simpl; discriminate).
Qed.

Lemma startGame_Change (g : Gateway.t) (socketId : string)
    (data : StartGameDto.t) (db : Store.t) :
  Change (Gateway.rooms g) (Gateway.rooms (fst (startGame g socketId data db))).
Proof.
  unfold startGame. cbv zeta.
  destruct (JsObj.get (Gateway.rooms g) (StartGameDto.roomID data))
    as [room|] eqn:Hroom; [|apply Change_same].
  destruct (negb match JsObj.get (RoomData.players room) socketId with
                 | Some player => PlayerData.isHost player
                 | None => false
                 end); [apply Change_same|].
  destruct (negb (RoomStatus_eqb (RoomData.status room) WAITING)) eqn:Hst;
    [apply Change_same|].
  apply WAITING_not_RUNNING in Hst.
  break_matches; simpl; try apply Change_same;
    rewrite ?update_update;
    (eapply Change_not_running; [exact Hroom|exact Hst]).
Qed.

Lemma loadingGame_Change (g : Gateway.t) (socketId : string)
    (data : LoadingGameDto.t) :
  Change (Gateway.rooms g) (Gateway.rooms (fst (loadingGame g socketId data))).
Proof.
  unfold loadingGame. cbv zeta.
  break_matches; simpl; try apply Change_same;
    (apply Change_updatePlayer; intros p _; reflexivity).
Qed.

Lemma syncPosition_Change (g : Gateway.t) (socketId : string)
    (data : option PositionSyncDto.t) (db : Store.t) :
  Change (Gateway.rooms g)
    (Gateway.rooms (fst (onMessage g socketId (syncPosition_ data) db))).
Proof.
  on_payload data; [|apply Change_same].
  break_matches; simpl; try apply Change_same;
    (apply Change_updatePlayer; intros p Hp; exact Hp).
Qed.

Lemma syncCarPosition_state (g : Gateway.t) (socketId : string)
    (data : option PositionSyncDto.t) (db : Store.t) :
  fst (onMessage g socketId (syncCarPosition_ data) db) = g.
Proof. on_payload data; [|reflexivity]. break_matches; reflexivity. Qed.

Lemma step_Change (g : Gateway.t) (ev : Event) (db : Store.t) :
  Change (Gateway.rooms g) (Gateway.rooms (fst (step g ev db))).
Proof.
  destruct ev as [s|s m|s|s st|s]; simpl; try apply Change_same.
  - destruct m; simpl; try apply Change_same.
    + apply createRoom_Change.
    + apply joinRoom_Change.
    + apply leaveRoom_Change.
    + apply kickPlayer_Change.
    + apply startGame_Change.
    + apply loadingGame_Change.
    + apply playerReady_Change.
    + apply playerChangeCar_Change.
    + apply syncPosition_Change.
    + rewrite syncCarPosition_state. apply Change_same.
    + apply updateStatusWaitingRoom_Change.
  - apply handleDisconnect_Change.
Qed.

Section Firings.
Variable roomID : string.

Lemma firings_app (a b : list Effect) :
  firings roomID (a ++ b) = firings roomID a + firings roomID b.
Proof. unfold firings. rewrite filter_app, length_app. reflexivity. Qed.

Lemma firings_Persist (c : Call.t) (l : list Effect) :
  firings roomID (Persist c :: l) = firings roomID l.
Proof. reflexivity. Qed.

Lemma firings_sendToClient (g : Gateway.t) (s : string) (m : OutMsg) :
  firings roomID (sendToClient g s m) = 0.
Proof. unfold sendToClient. destruct (isOpen g s); reflexivity. Qed.

Lemma firings_sendError (g : Gateway.t) (s message : string)
    (details : option string) :
  firings roomID (sendError g s message details) = 0.
Proof. apply firings_sendToClient. Qed.

Lemma firings_broadcastToAll (g : Gateway.t) (m : OutMsg)
    (e : option string) :
  firings roomID (broadcastToAll g m e) = 0.
Proof. unfold broadcastToAll. destruct (Gateway.clients g); reflexivity. Qed.

Lemma firings_broadcastRoomList (g : Gateway.t) :
  firings roomID (broadcastRoomList g) = 0.
Proof. apply firings_broadcastToAll. Qed.

Lemma firings_broadcastToRoom (g : Gateway.t) (r : string) (m : OutMsg)
    (e : option string) :
  firings roomID (broadcastToRoom g r m e)
  = match JsObj.get (Gateway.rooms g) r with
    | Some room =>
        match JsObj.keys (RoomData.players room) with
        | [] => 0
        | _ => if announcesAllLoaded roomID (RoomCast r m []) then 1 else 0
        end
    | None => 0
    end.
Proof.
  unfold broadcastToRoom.
  destruct (JsObj.get (Gateway.rooms g) r) as [room|]; [|reflexivity].
  destruct (JsObj.keys (RoomData.players room)); [reflexivity|].
  unfold firings. simpl. destruct m; try reflexivity.
  destruct (String.eqb roomID0 roomID); reflexivity.
Qed.

Lemma firings_broadcastToRoom_other (g : Gateway.t) (r : string) (m : OutMsg)
    (e : option string) :
  announcesAllLoaded roomID (RoomCast r m []) = false ->
  firings roomID (broadcastToRoom g r m e) = 0.
Proof.
  intros H. rewrite firings_broadcastToRoom, H.
  destruct (JsObj.get (Gateway.rooms g) r) as [room|]; [|reflexivity].
  destruct (JsObj.keys (RoomData.players room)); reflexivity.
Qed.

End Firings.

Create Rewrite HintDb firings.
#[local] Hint Rewrite firings_app firings_Persist firings_sendToClient
  firings_sendError firings_broadcastToAll firings_broadcastRoomList : firings.
#[local] Hint Rewrite firings_broadcastToRoom_other using reflexivity : firings.

Ltac silent :=
  break_matches; cbn [fst snd]; autorewrite with firings; reflexivity.

Section Silent.
Variables (roomID : string) (g : Gateway.t) (socketId : string) (db : Store.t).

Lemma createRoom_silent (data : CreateRoomDto.t) :
  firings roomID (snd (createRoom g socketId data db)) = 0.
Proof. unfold createRoom. cbv zeta. silent. Qed.

Lemma joinRoom_silent (data : JoinRoomDto.t) :
  firings roomID (snd (joinRoom g socketId data db)) = 0.
Proof. unfold joinRoom. cbv zeta. silent. Qed.

Lemma leaveRoom_silent :
  firings roomID (snd (leaveRoom g socketId db)) = 0.
Proof. unfold leaveRoom. cbv zeta. silent. Qed.

Lemma kickPlayer_silent (data : KickPlayerDto.t) :
  firings roomID (snd (kickPlayer g socketId data db)) = 0.
Proof. unfold kickPlayer. cbv zeta. silent. Qed.

Lemma playerReady_silent (data : PlayerReadyDto.t) :
  firings roomID (snd (playerReady g socketId data db)) = 0.
Proof. unfold playerReady. cbv zeta. silent. Qed.

Lemma playerChangeCar_silent (data : PlayerChangeCarDto.t) :
  firings roomID (snd (playerChangeCar g socketId data db)) = 0.
Proof. unfold playerChangeCar. cbv zeta. silent. Qed.

Lemma updateStatusWaitingRoom_silent (data : WaitingRoomDto.t) :
  firings roomID (snd (updateStatusWaitingRoom g socketId data db)) = 0.
Proof.
  unfold updateStatusWaitingRoom. cbv zeta.
  assert (Hcalls : forall ps,
             firings roomID (snd (fst (resetNonHosts db ps))) = 0).
  { induction ps as [|[k p] ps IH]; simpl; [reflexivity|].
    destruct (PlayerData.isHost p).
    - destruct (resetNonHosts db ps) as [[ps' calls] ok]. exact IH.
    - destruct (Store.updatePlayerStatus db (PlayerData._id p) Waiting);
        [|reflexivity].
      destruct (resetNonHosts db ps) as [[ps' calls] ok]. exact IH. }
  break_matches; cbn [fst snd]; autorewrite with firings; try reflexivity.
  all: match goal with
       | H : resetNonHosts db ?ps = (_, ?calls, _) |- _ =>
           pose proof (Hcalls ps) as Hc; rewrite H in Hc; simpl in Hc;
           rewrite Hc; reflexivity
       end.
Qed.

Lemma startGame_silent (data : StartGameDto.t) :
  firings roomID (snd (startGame g socketId data db)) = 0.
Proof. unfold startGame. cbv zeta. silent. Qed.

Lemma syncPosition_silent (data : option PositionSyncDto.t) :
  firings roomID (snd (onMessage g socketId (syncPosition_ data) db)) = 0.
Proof. on_payload data; silent. Qed.

Lemma syncCarPosition_silent (data : option PositionSyncDto.t) :
  firings roomID (snd (onMessage g socketId (syncCarPosition_ data) db)) = 0.
Proof. on_payload data; silent. Qed.

Lemma handleDisconnect_silent :
  firings roomID (snd (handleDisconnect g socketId db)) = 0.
Proof. unfold handleDisconnect. cbv zeta. silent. Qed.

End Silent.

Lemma barrier_allLoaded (g : Gateway.t) (roomID : string) :
  barrier g roomID = true -> allLoaded g roomID.
Proof.
  unfold barrier, allLoaded, playersOf, loadedRoom. intros H room Hroom.
  rewrite Hroom in H. apply andb_prop in H as [_ H].
  rewrite forallb_forall in H. apply Forall_forall. exact H.
Qed.

Lemma claimedSession_In (g : Gateway.t) (room : RoomData.t)
    (socketId playerID : string) (player : PlayerData.t) :
  claimedSession g room socketId playerID = Some player ->
  In player (JsObj.values (RoomData.players room)).
Proof.
  unfold claimedSession.
  destruct (JsObj.get (RoomData.players room) socketId) as [p|] eqn:Hp;
    [|discriminate].
  destruct (_ && _); [|discriminate].
  intros H. injection H as <-. exact (get_In_values _ _ _ Hp).
Qed.

Lemma firings_nil (roomID : string) : firings roomID [] = 0.
Proof. reflexivity. Qed.

Ltac quiet :=
  cbn [fst snd]; rewrite ?firings_nil;
  split; [lia|split; [let H := fresh in intros H; inversion H
                     |intros; reflexivity]].

(** [loadingGame] announces the barrier of a room at most once, only for
    the room of the message, only when the barrier holds in the state it
    leaves behind, and never when the room was fully loaded before. *)
Lemma loadingGame_firings (roomID : string) (g : Gateway.t)
    (socketId : string) (data : LoadingGameDto.t) :
  firings roomID (snd (loadingGame g socketId data)) <= 1
  /\ (0 < firings roomID (snd (loadingGame g socketId data)) ->
      LoadingGameDto.roomID data = roomID
      /\ barrier (fst (loadingGame g socketId data)) roomID = true)
  /\ (allLoaded g roomID ->
      firings roomID (snd (loadingGame g socketId data)) = 0).
Proof.
  unfold loadingGame. cbv zeta.
  destruct (JsObj.get (Gateway.rooms g) (LoadingGameDto.roomID data))
    as [room|] eqn:Hroom; [|quiet].
  destruct (negb (RoomStatus_eqb (RoomData.status room) RUNNING)); [quiet|].
  destruct (claimedSession g room socketId (LoadingGameDto.playerID data))
    as [player|] eqn:Hclaim; [|quiet].
  destruct (PlayerData.isLoaded player) eqn:Hflag; [quiet|].
  cbn [fst snd].
  set (g1 := updatePlayer (LoadingGameDto.roomID data) socketId _ g).
  fold (barrier g1 (LoadingGameDto.roomID data)).
  rewrite firings_app, firings_broadcastToRoom_other by reflexivity.
  destruct (barrier g1 (LoadingGameDto.roomID data)) eqn:Hbarrier.
  - rewrite firings_broadcastToRoom. cbn [announcesAllLoaded].
    destruct (String.eqb_spec (LoadingGameDto.roomID data) roomID) as [Heq|Hne].
    + split; [|split].
      * break_matches; lia.
      * intros _. rewrite <- Heq. split; [reflexivity|exact Hbarrier].
      * intros Hall. exfalso. rewrite <- Heq in Hall.
        pose proof (Hall room Hroom) as Hl.
        unfold loadedRoom in Hl. rewrite Forall_forall in Hl.
        pose proof (Hl player (claimedSession_In _ _ _ _ _ Hclaim)).
        congruence.
    + split; [|split].
      * break_matches; lia.
      * intros H. exfalso. revert H. break_matches; lia.
      * intros _. break_matches; reflexivity.
  - quiet.
Qed.

(** One turn of the gateway announces the barrier of a room at most
    once, only while handling a [loadingGame] message for that room and
    only when the barrier holds afterwards; it does not announce it for
    a room that was fully loaded. *)
Lemma step_firings (roomID : string) (g : Gateway.t) (ev : Event)
    (db : Store.t) :
  firings roomID (snd (step g ev db)) <= 1
  /\ (0 < firings roomID (snd (step g ev db)) ->
      (exists socketId data,
          ev = message socketId (loadingGame_ data)
          /\ LoadingGameDto.roomID data = roomID)
      /\ barrier (fst (step g ev db)) roomID = true)
  /\ (allLoaded g roomID -> firings roomID (snd (step g ev db)) = 0).
Proof.
  assert (Hsilent : forall out,
             firings roomID out = 0 ->
             firings roomID out <= 1
             /\ (0 < firings roomID out ->
                 (exists socketId data,
                     ev = message socketId (loadingGame_ data)
                     /\ LoadingGameDto.roomID data = roomID)
                 /\ barrier (fst (step g ev db)) roomID = true)
             /\ (allLoaded g roomID -> firings roomID out = 0)).
  { intros out H. rewrite H. quiet. }
  destruct ev as [s|s m|s|s st|s]; simpl snd.
  - apply Hsilent. unfold step, onConnection. cbn [snd].
    autorewrite with firings. reflexivity.
  - destruct m; unfold step; simpl onMessage.
    + apply Hsilent, createRoom_silent.
    + apply Hsilent, joinRoom_silent.
    + apply Hsilent, leaveRoom_silent.
    + apply Hsilent, kickPlayer_silent.
    + apply Hsilent, startGame_silent.
    + destruct (loadingGame_firings roomID g s data) as (H1 & H2 & H3).
      split; [exact H1|]. split; [|exact H3].
      intros Hpos. destruct (H2 Hpos) as [Hid Hb].
      split; [|exact Hb]. exists s, data. split; [reflexivity|exact Hid].
    + apply Hsilent, playerReady_silent.
    + apply Hsilent, playerChangeCar_silent.
    + apply Hsilent, syncPosition_silent.
    + apply Hsilent, syncCarPosition_silent.
    + apply Hsilent. unfold onMessage, handleMessage. cbn [snd].
      autorewrite with firings. reflexivity.
    + apply Hsilent, updateStatusWaitingRoom_silent.
    + apply Hsilent. unfold onMessage, handleMessage. cbn [snd].
      autorewrite with firings. reflexivity.
    + apply Hsilent. unfold onMessage, handleMessage. cbn [snd].
      autorewrite with firings. reflexivity.
  - apply Hsilent. unfold step. cbn [snd]. autorewrite with firings.
    reflexivity.
  - apply Hsilent. reflexivity.
  - apply Hsilent. apply handleDisconnect_silent.
Qed.

(** A fully loaded Running room stays fully loaded as long as it stays
    Running. *)
Lemma step_allLoaded (roomID : string) (g : Gateway.t) (ev : Event)
    (db : Store.t) :
  roomRunning g roomID ->
  roomRunning (fst (step g ev db)) roomID ->
  allLoaded g roomID ->
  allLoaded (fst (step g ev db)) roomID.
Proof.
  intros (room & Hroom & Hst) (room' & Hroom' & Hst') Hall room1 Hroom1.
  assert (room1 = room') by congruence. subst room1.
  destruct (Change_keepsLoaded _ _ roomID (step_Change g ev db) room' Hroom' Hst')
    as (room0 & Hroom0 & Hkeep).
  assert (room0 = room) by congruence. subst room0.
  exact (Hkeep Hst (Hall room Hroom)).
Qed.

Lemma run_cons (g : Gateway.t) (ev : Event) (db : Store.t)
    (rest : list (Event * Store.t)) :
  snd (run g ((ev, db) :: rest))
  = snd (step g ev db) :: snd (run (fst (step g ev db)) rest).
Proof.
  simpl. destruct (step g ev db) as [g1 out]. simpl.
  destruct (run g1 rest) as [g2 outs]. reflexivity.
Qed.

Lemma episode_firings (roomID : string) (evs : list (Event * Store.t)) :
  forall g,
    episode roomID g evs ->
    totalFirings roomID (snd (run g evs)) <= 1
    /\ (allLoaded g roomID -> totalFirings roomID (snd (run g evs)) = 0).
Proof.
  induction evs as [|[ev db] rest IH]; intros g Hep.
  - simpl. split; [unfold totalFirings; simpl; lia|reflexivity].
  - destruct Hep as [Hrun Hrest].
    assert (Hrun1 : roomRunning (fst (step g ev db)) roomID)
      by (destruct rest as [|[? ?] ?]; exact (proj1 Hrest)).
    destruct (IH _ Hrest) as [IHle IHzero].
    destruct (step_firings roomID g ev db) as (Hle & Hpos & Hzero).
    rewrite run_cons. unfold totalFirings in *. simpl.
    split.
    + destruct (firings roomID (snd (step g ev db))) as [|n] eqn:Hn; [lia|].
      destruct (Hpos ltac:(lia)) as [_ Hb].
      rewrite (IHzero (barrier_allLoaded _ _ Hb)). lia.
    + intros Hall. rewrite (Hzero Hall).
      rewrite (IHzero (step_allLoaded roomID g ev db Hrun Hrun1 Hall)).
      reflexivity.
Qed.

(** The two parts of [startGame], taken one right after the other, are
    the handler. *)
Lemma startGame_split (g : Gateway.t) (socketId : string)
    (data : StartGameDto.t) (db : Store.t) :
  startGame g socketId data db
  = match startGame_until_await g socketId data with
    | (result, false) => result
    | ((g1, out1), true) =>
        let '(g2, out2) := startGame_after_await g1 socketId data db in
        (g2, out1 ++ out2)
    end.
Proof.
  unfold startGame, startGame_until_await, startGame_after_await. cbv zeta.
  destruct (JsObj.get (Gateway.rooms g) (StartGameDto.roomID data))
    as [room|] eqn:Hroom; [|reflexivity].
  destruct (negb _); [reflexivity|].
  destruct (negb _); [reflexivity|].
  destruct (_ <? _)%nat; [reflexivity|].
  destruct (negb _ && _); [reflexivity|].
  rewrite !get_rooms_updateRoom, String.eqb_refl, Hroom. simpl.
  destruct (Store.updateRoomStatus db (StartGameDto.roomID data) RUNNING);
    [reflexivity|].
  destruct (Store.updateRoomStatus db (StartGameDto.roomID data) WAITING);
    reflexivity.
Qed.

(** C2 at the failing input.  In the sample lobby the host "h" starts
    the game: the guards pass, the room is marked Running and the
    handler awaits the store.  Before the store answers, "h" and "j"
    report their loading: the load flags are the ones the sessions were
    created with, the room is Running, and the second report announces
    [allPlayersLoaded].  The store answers, [startGame] resumes and
    clears the load flags; "h" and "j" report again and the second
    report announces [allPlayersLoaded] once more, where the claim has
    at most one announcement between the transition to Running and the
    next change of status.  The room was Waiting before the first turn
    and is Running after each of the six. *)
Theorem allPlayersLoaded_twice_in_one_episode :
  let start := StartGameDto.mk "1" 3 in
  let report (s p : string) :=
    handles (message s (loadingGame_ (LoadingGameDto.mk "1" p)))
      (Sample.store 1) in
  let turns :=
    [startGame_suspends "h" start;
     report "h" "H"; report "j" "J";
     startGame_resumes "h" start (Sample.store 1);
     report "h" "H"; report "j" "J"] in
  option_map RoomData.status (JsObj.get (Gateway.rooms Sample.ready) "1")
  = Some WAITING
  /\ snd (startGame_until_await Sample.ready "h" start) = true
  /\ List.map
       (fun r => option_map RoomData.status
                   (JsObj.get (Gateway.rooms (fst r)) "1"))
       (schedule Sample.ready turns)
     = [Some RUNNING; Some RUNNING; Some RUNNING;
        Some RUNNING; Some RUNNING; Some RUNNING]
  /\ List.map (fun r => firings "1" (snd r)) (schedule Sample.ready turns)
     = [0; 0; 1; 0; 0; 1]
  /\ List.map
       (fun r => List.map PlayerData.isLoaded (playersOf (fst r) "1"))
       (schedule Sample.ready turns)
     = [[false; false]; [true; false]; [true; true];
        [false; false]; [true; false]; [true; true]].
Proof. repeat split. Qed.

(** X30. What the load barrier does ensure.  When every event is handled
    to completion before the next one is taken up, then while a room
    stays Running (a stretch of a run in which the room is in the
    directory and Running before and after each event), the effects of
    the run announce [allPlayersLoaded] for the room at most once,
    whatever the events and the answers of the store.  In any state, an
    event handled to completion announces it only if it is a
    [loadingGame] message for that room, and only when the room it
    leaves behind has at least one session and every session in it has
    its load flag set; so never for a room without sessions. *)
Theorem allPlayersLoaded_once (roomID : string) (g : Gateway.t)
    (evs : list (Event * Store.t)) :
  episode roomID g evs ->
  totalFirings roomID (snd (run g evs)) <= 1
  /\ (forall (g0 : Gateway.t) (ev : Event) (db : Store.t),
        0 < firings roomID (snd (step g0 ev db)) ->
        (exists socketId data,
            ev = message socketId (loadingGame_ data)
            /\ LoadingGameDto.roomID data = roomID)
        /\ playersOf (fst (step g0 ev db)) roomID <> []
        /\ Forall (fun p => PlayerData.isLoaded p = true)
             (playersOf (fst (step g0 ev db)) roomID)).
Proof.
  intros Hep. split.
  - exact (proj1 (episode_firings roomID evs g Hep)).
  - intros g0 ev db Hpos.
    destruct (step_firings roomID g0 ev db) as (_ & Hfire & _).
    destruct (Hfire Hpos) as [Hev Hb]. split; [exact Hev|].
    unfold barrier in Hb. apply andb_prop in Hb as [Hlen Hall].
    split.
    + intros Hnil. rewrite Hnil in Hlen. discriminate.
    + apply Forall_forall. rewrite forallb_forall in Hall. exact Hall.
Qed.

(** The theorem at work: in the running sample room "j" reports its
    loading, then "h", then "h" once more. *)
Lemma allPlayersLoaded_once_witness :
  totalFirings "1"
    (snd (run Sample.running
            [(message "j" (loadingGame_ (LoadingGameDto.mk "1" "J")),
              Sample.store 1);
             (message "h" (loadingGame_ (LoadingGameDto.mk "1" "H")),
              Sample.store 1);
             (message "h" (loadingGame_ (LoadingGameDto.mk "1" "H")),
              Sample.store 1)]))
  <= 1.
Proof.
  apply allPlayersLoaded_once.
  repeat (split; [eexists; split; reflexivity|]). exact I.
Defined.

(** ** What the membership guard does ensure

    The guard of [createRoom] and [joinRoom] is on the player id.  From
    a freshly loaded directory it keeps every player id in at most one
    session; a connection that always presents the same player id is
    then in at most one room. *)

Lemma Narrow_session (g g' : Gateway.t) :
  Narrow (Gateway.rooms g) (Gateway.rooms g') ->
  forall r s p',
    session g' r s = Some p' ->
    exists p, session g r s = Some p /\ PlayerData._id p' = PlayerData._id p.
Proof.
  unfold session. intros HN r s p'.
  destruct HN as [|r0 f Hf|r0 f].
  - intros H. exists p'. split; [exact H|reflexivity].
  - rewrite get_update.
    destruct (String.eqb_spec r0 r) as [->|Hr].
    + destruct (JsObj.get (Gateway.rooms g) r) as [room|] eqn:Hroom;
        [|discriminate].
      simpl. intros H. exact (Hf room s p' eq_refl H).
    + intros H. exists p'. split; [exact H|reflexivity].
  - rewrite get_delete.
    destruct (String.eqb_spec r0 r) as [->|Hr]; [discriminate|].
    rewrite get_update.
    destruct (String.eqb_spec r0 r) as [->|_]; [contradiction|].
    intros H. exists p'. split; [exact H|reflexivity].
Qed.

Lemma Narrow_keys (g g' : Gateway.t) :
  Narrow (Gateway.rooms g) (Gateway.rooms g') ->
  forall r room',
    JsObj.get (Gateway.rooms g') r = Some room' ->
    exists room, JsObj.get (Gateway.rooms g) r = Some room.
Proof.
  intros HN r room'. destruct HN as [|r0 f Hf|r0 f].
  - eauto.
  - rewrite get_update. destruct (String.eqb r0 r); [|eauto].
    destruct (JsObj.get (Gateway.rooms g) r); [eauto|discriminate].
  - rewrite get_delete. destruct (String.eqb r0 r); [discriminate|].
    rewrite get_update. destruct (String.eqb r0 r); [|eauto].
    destruct (JsObj.get (Gateway.rooms g) r); [eauto|discriminate].
Qed.

Lemma Narrow_invariants (conn playerId : string) (g g' : Gateway.t) :
  Narrow (Gateway.rooms g) (Gateway.rooms g') ->
  (playerOnce g -> playerOnce g')
  /\ (keysTruthy g -> keysTruthy g')
  /\ (knownAs conn playerId g -> knownAs conn playerId g').
Proof.
  intros HN. split; [|split].
  - intros Hone r1 r2 s1 s2 p1 p2 H1 H2 Hid.
    destruct (Narrow_session g g' HN _ _ _ H1) as (q1 & Hq1 & E1).
    destruct (Narrow_session g g' HN _ _ _ H2) as (q2 & Hq2 & E2).
    apply (Hone r1 r2 s1 s2 q1 q2 Hq1 Hq2). congruence.
  - intros Hk r room' Hroom'.
    destruct (Narrow_keys g g' HN _ _ Hroom') as [room Hroom].
    exact (Hk r room Hroom).
  - intros Hkn r p' Hp'.
    destruct (Narrow_session g g' HN _ _ _ Hp') as (q & Hq & E).
    rewrite E. exact (Hkn r q Hq).
Qed.

(** Room mutations that only remove sessions or rewrite fields other
    than the player id. *)
Lemma Narrow_deletePlayer (R : JsObj.t RoomData.t) (r k : string) :
  Narrow R
    (JsObj.update R r (RoomData.map_players (fun ps => JsObj.delete ps k))).
Proof.
  apply Narrow_update. intros room s p' _. simpl. rewrite get_delete.
  destruct (String.eqb k s); [discriminate|]. eauto.
Qed.

Lemma get_update_id (ps : JsObj.t PlayerData.t) (k : string)
    (h : PlayerData.t -> PlayerData.t) (s : string) (p' : PlayerData.t) :
  (forall p, PlayerData._id (h p) = PlayerData._id p) ->
  JsObj.get (JsObj.update ps k h) s = Some p' ->
  exists p, JsObj.get ps s = Some p /\ PlayerData._id p' = PlayerData._id p.
Proof.
  intros Hh. rewrite get_update.
  destruct (String.eqb k s); [|eauto].
  destruct (JsObj.get ps s) as [p|]; [|discriminate].
  simpl. intros H. injection H as <-. eauto.
Qed.

Lemma get_map_values_id (ps : JsObj.t PlayerData.t)
    (h : PlayerData.t -> PlayerData.t) (s : string) (p' : PlayerData.t) :
  (forall p, PlayerData._id (h p) = PlayerData._id p) ->
  JsObj.get (JsObj.map_values h ps) s = Some p' ->
  exists p, JsObj.get ps s = Some p /\ PlayerData._id p' = PlayerData._id p.
Proof.
  intros Hh. rewrite get_map_values.
  destruct (JsObj.get ps s) as [p|]; [|discriminate].
  simpl. intros H. injection H as <-. eauto.
Qed.

Lemma Narrow_updatePlayer (R : JsObj.t RoomData.t) (r k : string)
    (h : PlayerData.t -> PlayerData.t) :
  (forall p, PlayerData._id (h p) = PlayerData._id p) ->
  Narrow R
    (JsObj.update R r (RoomData.map_players (fun ps => JsObj.update ps k h))).
Proof.
  intros Hh. apply Narrow_update. intros room s p' _. simpl.
  apply get_update_id, Hh.
Qed.

Lemma Narrow_set_status (R : JsObj.t RoomData.t) (r : string)
    (st : RoomStatus) :
  Narrow R (JsObj.update R r (RoomData.set_status st)).
Proof. apply Narrow_update. intros room s p' _. simpl. eauto. Qed.

Lemma resetNonHosts_get (db : Store.t) (ps : JsObj.t PlayerData.t)
    (s : string) (p' : PlayerData.t) :
  JsObj.get (fst (fst (resetNonHosts db ps))) s = Some p' ->
  exists p, JsObj.get ps s = Some p /\ PlayerData._id p' = PlayerData._id p.
Proof.
  induction ps as [|[k p] ps IH]; simpl; [discriminate|].
  destruct (PlayerData.isHost p).
  - destruct (resetNonHosts db ps) as [[ps' calls] ok]. simpl in *.
    destruct (String.eqb k s); [|exact IH].
    intros H. injection H as <-. eauto.
  - destruct (Store.updatePlayerStatus db (PlayerData._id p) Waiting).
    + destruct (resetNonHosts db ps) as [[ps' calls] ok]. simpl in *.
      destruct (String.eqb k s); [|exact IH].
      intros H. injection H as <-. eauto.
    + simpl. destruct (String.eqb k s); [|eauto].
      intros H. injection H as <-. eauto.
Qed.

Ltac narrow :=
  first [ apply Narrow_same
        | apply Narrow_deletePlayer
        | apply Narrow_close
        | apply Narrow_set_status
        | apply Narrow_updatePlayer; intros p; reflexivity ].

Lemma leaveRoom_Narrow (g : Gateway.t) (socketId : string) (db : Store.t) :
  Narrow (Gateway.rooms g) (Gateway.rooms (fst (leaveRoom g socketId db))).
Proof. unfold leaveRoom. cbv zeta. break_matches; simpl; narrow. Qed.

Lemma kickPlayer_Narrow (g : Gateway.t) (socketId : string)
    (data : KickPlayerDto.t) (db : Store.t) :
  Narrow (Gateway.rooms g) (Gateway.rooms (fst (kickPlayer g socketId data db))).
Proof. unfold kickPlayer. cbv zeta. break_matches; simpl; narrow. Qed.

Lemma handleDisconnect_Narrow (g : Gateway.t) (socketId : string)
    (db : Store.t) :
  Narrow (Gateway.rooms g) (Gateway.rooms (fst (handleDisconnect g socketId db))).
Proof. unfold handleDisconnect. cbv zeta. break_matches; simpl; narrow. Qed.

Lemma playerReady_Narrow (g : Gateway.t) (socketId : string)
    (data : PlayerReadyDto.t) (db : Store.t) :
  Narrow (Gateway.rooms g) (Gateway.rooms (fst (playerReady g socketId data db))).
Proof.
  unfold playerReady. cbv zeta.
  break_matches; simpl; try apply Narrow_same;
    rewrite ?update_update;
    (apply Narrow_update; intros room s p' _; simpl;
     rewrite ?update_update; apply get_update_id; intros p; reflexivity).
Qed.

Lemma playerChangeCar_Narrow (g : Gateway.t) (socketId : string)
    (data : PlayerChangeCarDto.t) (db : Store.t) :
  Narrow (Gateway.rooms g)
    (Gateway.rooms (fst (playerChangeCar g socketId data db))).
Proof. unfold playerChangeCar. cbv zeta. break_matches; simpl; narrow. Qed.

Lemma loadingGame_Narrow (g : Gateway.t) (socketId : string)
    (data : LoadingGameDto.t) :
  Narrow (Gateway.rooms g) (Gateway.rooms (fst (loadingGame g socketId data))).
Proof. unfold loadingGame. cbv zeta. break_matches; simpl; narrow. Qed.

Lemma syncPosition_Narrow (g : Gateway.t) (socketId : string)
    (data : option PositionSyncDto.t) (db : Store.t) :
  Narrow (Gateway.rooms g)
    (Gateway.rooms (fst (onMessage g socketId (syncPosition_ data) db))).
Proof. on_payload data; break_matches; simpl; narrow. Qed.

Lemma startGame_Narrow (g : Gateway.t) (socketId : string)
    (data : StartGameDto.t) (db : Store.t) :
  Narrow (Gateway.rooms g) (Gateway.rooms (fst (startGame g socketId data db))).
Proof.
  unfold startGame. cbv zeta.
  break_matches; simpl; try apply Narrow_same;
    rewrite ?update_update;
    (apply Narrow_update; intros room0 s p' _; simpl;
     first [ apply get_map_values_id; intros p; reflexivity | eauto ]).
Qed.

Lemma updateStatusWaitingRoom_Narrow (g : Gateway.t) (socketId : string)
    (data : WaitingRoomDto.t) (db : Store.t) :
  Narrow (Gateway.rooms g)
    (Gateway.rooms (fst (updateStatusWaitingRoom g socketId data db))).
Proof.
  unfold updateStatusWaitingRoom. cbv zeta.
  destruct (JsObj.get (Gateway.rooms g) (WaitingRoomDto.roomID data))
    as [room|] eqn:Hroom; [|apply Narrow_same].
  destruct (negb _); [apply Narrow_same|].
  destruct (Store.updateRoomStatus db _ _); [|simpl; narrow].
  pose proof (resetNonHosts_get db (RoomData.players room)) as Hreset.
  destruct (resetNonHosts db (RoomData.players room)) as [[players' calls] ok].
  simpl in Hreset.
  assert (HN : Narrow (Gateway.rooms g)
                 (JsObj.update
                    (JsObj.update (Gateway.rooms g) (WaitingRoomDto.roomID data)
                       (RoomData.set_status WAITING))
                    (WaitingRoomDto.roomID data) (RoomData.set_players players'))).
  { rewrite update_update. apply Narrow_update.
    intros room0 s p' Hroom0. simpl.
    assert (room0 = room) by congruence. subst room0. apply Hreset. }
  destruct ok; exact HN.
Qed.

Lemma roomIdOfSeq_truthy (n : positive) : truthy (roomIdOfSeq n) = true.
Proof.
  unfold roomIdOfSeq.
  pose proof (Unsigned.to_uint_nonnil n) as Hn.
  destruct (Pos.to_uint n); [contradiction|reflexivity..].
Qed.

(** When the guard finds no room, no session carries the player id. *)
Lemma roomOfPlayer_free (g : Gateway.t) (playerId : string) :
  keysTruthy g ->
  found (roomOfPlayer g playerId) = None ->
  forall r s p, session g r s = Some p -> PlayerData._id p <> playerId.
Proof.
  intros Hkeys Hfound r s p Hp Hid.
  unfold session in Hp.
  destruct (JsObj.get (Gateway.rooms g) r) as [room|] eqn:Hroom;
    [|discriminate].
  assert (Hhit : (fun roomId =>
                    match JsObj.get (Gateway.rooms g) roomId with
                    | Some room0 =>
                        existsb
                          (fun pl => String.eqb (PlayerData._id pl) playerId)
                          (JsObj.values (RoomData.players room0))
                    | None => false
                    end) r = true).
  { rewrite Hroom. apply existsb_exists. exists p.
    split; [exact (get_In_values _ _ _ Hp)|]. apply String.eqb_eq, Hid. }
  unfold roomOfPlayer in Hfound.
  destruct (find _ (JsObj.keys (Gateway.rooms g))) as [k|] eqn:Hfind.
  - apply find_some in Hfind as [_ Hk].
    destruct (JsObj.get (Gateway.rooms g) k) as [room0|] eqn:Hroom0;
      [|discriminate].
    unfold found in Hfound. rewrite (Hkeys k room0 Hroom0) in Hfound.
    discriminate.
  - pose proof (find_none _ _ Hfind r (get_In_keys _ _ _ Hroom)) as Hmiss.
    simpl in Hhit, Hmiss. congruence.
Qed.

(** The outcomes of [createRoom]: nothing, or a new room holding the
    session of the sender under the given player id. *)
Lemma createRoom_shape (g : Gateway.t) (socketId : string)
    (data : CreateRoomDto.t) (db : Store.t) :
  fst (createRoom g socketId data db) = g
  \/ exists n host,
       found (roomOfPlayer g (CreateRoomDto.playerId data)) = None
       /\ PlayerData._id host = CreateRoomDto.playerId data
       /\ forall r,
            JsObj.get (Gateway.rooms (fst (createRoom g socketId data db))) r
            = if String.eqb (roomIdOfSeq n) r
              then Some (RoomData.mk (roomIdOfSeq n) (CreateRoomDto.value data)
                           (Some (passwordOrEmpty (CreateRoomDto.password data)))
                           WAITING [(socketId, host)])
              else JsObj.get (Gateway.rooms g) r.
Proof.
  unfold createRoom, getPlayerWithId, RoomService_createRoom. cbv zeta.
  destruct (Store.findPlayerById db (CreateRoomDto.playerId data))
    as [[c|]|]; try (left; reflexivity).
  destruct (found (roomOfPlayer g (CreateRoomDto.playerId data))) eqn:Hfree;
    [left; reflexivity|].
  destruct (Store.insertRoom db) as [n|]; [|left; reflexivity].
  simpl.
  destruct (Store.updatePlayerSocket db _ _ _); [|left; reflexivity].
  right. exists n.
  exists (hostPlayerData socketId (Player.doc (CreateRoomDto.playerId data) c)).
  split; [reflexivity|]. split; [reflexivity|].
  intros r. simpl. rewrite get_update, get_set.
  destruct (String.eqb (roomIdOfSeq n) r); [|reflexivity].
  simpl. unfold RoomData.map_players, RoomData.set_players. simpl.
  rewrite set_nil. reflexivity.
Qed.

(** The outcomes of [joinRoom]: nothing, or the session of the sender
    written into the room under the given player id. *)
Lemma joinRoom_shape (g : Gateway.t) (socketId : string)
    (data : JoinRoomDto.t) (db : Store.t) :
  fst (joinRoom g socketId data db) = g
  \/ exists room guest,
       JsObj.get (Gateway.rooms g) (JoinRoomDto.roomID data) = Some room
       /\ found (roomOfPlayer g (JoinRoomDto.playerId data)) = None
       /\ PlayerData._id guest = JoinRoomDto.playerId data
       /\ forall r s,
            session (fst (joinRoom g socketId data db)) r s
            = if String.eqb (JoinRoomDto.roomID data) r && String.eqb socketId s
              then Some guest
              else session g r s.
Proof.
  unfold joinRoom, getPlayerWithId. cbv zeta.
  destruct (JsObj.get (Gateway.rooms g) (JoinRoomDto.roomID data))
    as [room|] eqn:Hroom; [|left; reflexivity].
  destruct (negb _); [left; reflexivity|].
  destruct (passwordRefused _ _); [left; reflexivity|].
  destruct (Store.findPlayerById db (JoinRoomDto.playerId data))
    as [[c|]|]; try (left; reflexivity).
  destruct (MAX_PLAYERS <=? _)%nat; [left; reflexivity|].
  destruct (found (roomOfPlayer g (JoinRoomDto.playerId data))) eqn:Hfree.
  { destruct (String.eqb _ _); left; reflexivity. }
  simpl.
  destruct (Store.addPlayerToRoom db _ _); [|left; reflexivity].
  destruct (Store.updatePlayerSocket db _ _ _); [|left; reflexivity].
  right. exists room.
  exists (newPlayerData socketId (Player.doc (JoinRoomDto.playerId data) c)).
  split; [reflexivity|]. split; [reflexivity|]. split; [reflexivity|].
  intros r s. unfold session. simpl. rewrite get_update.
  destruct (String.eqb_spec (JoinRoomDto.roomID data) r) as [<-|Hr];
    [|reflexivity].
  rewrite Hroom. simpl. rewrite get_set.
  destruct (String.eqb socketId s); reflexivity.
Qed.

Section Invariants.
Variables conn playerId : string.

Lemma createRoom_invariants (g : Gateway.t) (socketId : string)
    (data : CreateRoomDto.t) (db : Store.t) :
  keysTruthy g ->
  (playerOnce g -> playerOnce (fst (createRoom g socketId data db)))
  /\ keysTruthy (fst (createRoom g socketId data db))
  /\ ((socketId = conn -> CreateRoomDto.playerId data = playerId) ->
      knownAs conn playerId g ->
      knownAs conn playerId (fst (createRoom g socketId data db))).
Proof.
  intros Hkeys.
  destruct (createRoom_shape g socketId data db)
    as [->|(n & host & Hfree & Hid & Hget)]; [tauto|].
  pose proof (roomOfPlayer_free g _ Hkeys Hfree) as Hnew.
  set (g' := fst (createRoom g socketId data db)) in *.
  assert (Hsess : forall r s p,
             session g' r s = Some p ->
             (r = roomIdOfSeq n /\ s = socketId /\ p = host)
             \/ (r <> roomIdOfSeq n /\ session g r s = Some p)).
  { intros r s p. unfold session. rewrite Hget.
    destruct (String.eqb_spec (roomIdOfSeq n) r) as [<-|Hr].
    - simpl. destruct (String.eqb_spec socketId s) as [<-|Hs];
        [|discriminate].
      intros H. injection H as <-. left. auto.
    - intros H. right. split; [congruence|exact H]. }
  split; [|split].
  - intros Hone r1 r2 s1 s2 p1 p2 H1 H2 E.
    destruct (Hsess _ _ _ H1) as [(-> & -> & ->)|[N1 O1]];
      destruct (Hsess _ _ _ H2) as [(-> & -> & ->)|[N2 O2]].
    + auto.
    + exfalso. apply (Hnew _ _ _ O2). congruence.
    + exfalso. apply (Hnew _ _ _ O1). congruence.
    + exact (Hone _ _ _ _ _ _ O1 O2 E).
  - intros r room. rewrite Hget.
    destruct (String.eqb_spec (roomIdOfSeq n) r) as [<-|Hr].
    + intros _. apply roomIdOfSeq_truthy.
    + apply Hkeys.
  - intros Hpresent Hknown r p Hp.
    destruct (Hsess _ _ _ Hp) as [(-> & Hs & ->)|[_ Hold]].
    + rewrite Hid. apply Hpresent. symmetry. exact Hs.
    + exact (Hknown _ _ Hold).
Qed.

Lemma joinRoom_invariants (g : Gateway.t) (socketId : string)
    (data : JoinRoomDto.t) (db : Store.t) :
  keysTruthy g ->
  (playerOnce g -> playerOnce (fst (joinRoom g socketId data db)))
  /\ keysTruthy (fst (joinRoom g socketId data db))
  /\ ((socketId = conn -> JoinRoomDto.playerId data = playerId) ->
      knownAs conn playerId g ->
      knownAs conn playerId (fst (joinRoom g socketId data db))).
Proof.
  intros Hkeys.
  assert (Hk : keysTruthy (fst (joinRoom g socketId data db))).
  { intros r room' Hroom'.
    assert (HN : exists room, JsObj.get (Gateway.rooms g) r = Some room).
    { revert Hroom'. unfold joinRoom. cbv zeta.
      break_matches; simpl; eauto.
      rewrite get_update. destruct (String.eqb _ r); [|eauto].
      destruct (JsObj.get (Gateway.rooms g) r); [eauto|discriminate]. }
    destruct HN as [room Hroom]. exact (Hkeys r room Hroom). }
  destruct (joinRoom_shape g socketId data db)
    as [E|(room & guest & Hroom & Hfree & Hid & Hget)].
  { rewrite E in *. tauto. }
  pose proof (roomOfPlayer_free g _ Hkeys Hfree) as Hnew.
  set (g' := fst (joinRoom g socketId data db)) in *.
  assert (Hsess : forall r s p,
             session g' r s = Some p ->
             (r = JoinRoomDto.roomID data /\ s = socketId /\ p = guest)
             \/ ((r <> JoinRoomDto.roomID data \/ s <> socketId)
                 /\ session g r s = Some p)).
  { intros r s p. rewrite Hget.
    destruct (String.eqb_spec (JoinRoomDto.roomID data) r) as [<-|Hr]; simpl.
    - destruct (String.eqb_spec socketId s) as [<-|Hs].
      + intros H. injection H as <-. left. auto.
      + intros H. right. split; [right; congruence|exact H].
    - intros H. right. split; [left; congruence|exact H]. }
  split; [|split; [exact Hk|]].
  - intros Hone r1 r2 s1 s2 p1 p2 H1 H2 E.
    destruct (Hsess _ _ _ H1) as [(-> & -> & ->)|[N1 O1]];
      destruct (Hsess _ _ _ H2) as [(-> & -> & ->)|[N2 O2]].
    + auto.
    + exfalso. apply (Hnew _ _ _ O2). congruence.
    + exfalso. apply (Hnew _ _ _ O1). congruence.
    + exact (Hone _ _ _ _ _ _ O1 O2 E).
  - intros Hpresent Hknown r p Hp.
    destruct (Hsess _ _ _ Hp) as [(-> & Hs & ->)|[_ Hold]].
    + rewrite Hid. apply Hpresent. symmetry. exact Hs.
    + exact (Hknown _ _ Hold).
Qed.

Lemma step_Narrow_or_opens (g : Gateway.t) (ev : Event) (db : Store.t) :
  keysTruthy g ->
  (playerOnce g -> playerOnce (fst (step g ev db)))
  /\ keysTruthy (fst (step g ev db))
  /\ (presentsAs conn playerId ev ->
      knownAs conn playerId g -> knownAs conn playerId (fst (step g ev db))).
Proof.
  intros Hkeys.
  assert (Hnarrow : forall g',
             Narrow (Gateway.rooms g) (Gateway.rooms g') ->
             (playerOnce g -> playerOnce g')
             /\ keysTruthy g'
             /\ (presentsAs conn playerId ev ->
                 knownAs conn playerId g -> knownAs conn playerId g')).
  { intros g' HN.
    destruct (Narrow_invariants conn playerId g g' HN) as (H1 & H2 & H3).
    split; [exact H1|]. split; [exact (H2 Hkeys)|]. intros _. exact H3. }
  destruct ev as [s|s m|s|s st|s]; simpl fst;
    try (apply Hnarrow; apply Narrow_same).
  - destruct m; simpl; try (apply Hnarrow; apply Narrow_same).
    + apply createRoom_invariants. exact Hkeys.
    + apply joinRoom_invariants. exact Hkeys.
    + apply Hnarrow, leaveRoom_Narrow.
    + apply Hnarrow, kickPlayer_Narrow.
    + apply Hnarrow, startGame_Narrow.
    + apply Hnarrow, loadingGame_Narrow.
    + apply Hnarrow, playerReady_Narrow.
    + apply Hnarrow, playerChangeCar_Narrow.
    + apply Hnarrow, syncPosition_Narrow.
    + apply Hnarrow. rewrite syncCarPosition_state. apply Narrow_same.
    + apply Hnarrow, updateStatusWaitingRoom_Narrow.
  - apply Hnarrow, handleDisconnect_Narrow.
Qed.

Lemma run_invariants (evs : list (Event * Store.t)) :
  forall g,
    keysTruthy g ->
    playerOnce g ->
    playerOnce (fst (run g evs))
    /\ (Forall (fun e => presentsAs conn playerId (fst e)) evs ->
        knownAs conn playerId g -> knownAs conn playerId (fst (run g evs))).
Proof.
  induction evs as [|[ev db] rest IH]; intros g Hkeys Hone.
  - simpl. auto.
  - destruct (step_Narrow_or_opens g ev db Hkeys) as (H1 & H2 & H3).
    destruct (IH _ H2 (H1 Hone)) as [IH1 IH2].
    assert (E : fst (run g ((ev, db) :: rest))
                = fst (run (fst (step g ev db)) rest)).
    { simpl. destruct (step g ev db) as [g1 out]. simpl.
      destruct (run g1 rest). reflexivity. }
    rewrite E. split; [exact IH1|].
    intros Hall Hknown. inversion Hall as [|? ? Hev Hrest]; subst.
    exact (IH2 Hrest (H3 Hev Hknown)).
Qed.

End Invariants.

(** The directory [loadRoomsFromDb] builds: truthy keys, no session. *)
Lemma loadRoomsFromDb_spec (snapshot : Outcome (list Room.t)) (r : string)
    (room : RoomData.t) :
  JsObj.get (loadRoomsFromDb snapshot) r = Some room ->
  truthy r = true /\ RoomData.players room = [].
Proof.
  unfold loadRoomsFromDb. destruct snapshot as [docs|]; [|discriminate].
  assert (Hfold : forall (acc : JsObj.t RoomData.t),
             (forall room0, JsObj.get acc r = Some room0 ->
                            truthy r = true /\ RoomData.players room0 = []) ->
             forall room0,
               JsObj.get
                 (fold_left
                    (fun newRoomsData doc =>
                       if truthy (Room.id doc) then
                         JsObj.set newRoomsData (Room.id doc)
                           (RoomData.mk (Room.id doc) (Room.value doc)
                              (match Room.password doc with
                               | Some p => if truthy p then Some p else None
                               | None => None
                               end)
                              (Room.status doc) [])
                       else newRoomsData)
                    docs acc) r = Some room0 ->
               truthy r = true /\ RoomData.players room0 = []).
  { induction docs as [|doc docs IH]; intros acc Hacc room0; simpl.
    - apply Hacc.
    - apply IH. intros room1.
      destruct (truthy (Room.id doc)) eqn:Hid; [|apply Hacc].
      rewrite get_set.
      destruct (String.eqb_spec (Room.id doc) r) as [<-|Hr]; [|apply Hacc].
      intros H. injection H as <-. split; [exact Hid|reflexivity]. }
  apply Hfold. intros room0 H. discriminate H.
Qed.

(** X1. From a freshly loaded directory, along any run in which every
    event is handled to completion before the next one, whatever the
    events and the answers of the store: no two sessions carry the same
    player id; and a connection whose [createRoom] and [joinRoom]
    messages all present one and the same player id holds sessions in
    at most one room, whatever the other connections present. *)
Lemma sessions_unique (production : bool) (snapshot : Outcome (list Room.t))
    (evs : list (Event * Store.t)) :
  playerOnce (fst (run (init production snapshot) evs))
  /\ forall socketId playerId : string,
       Forall (fun e => presentsAs socketId playerId (fst e)) evs ->
       forall r1 r2 p1 p2,
         session (fst (run (init production snapshot) evs)) r1 socketId
         = Some p1 ->
         session (fst (run (init production snapshot) evs)) r2 socketId
         = Some p2 ->
         r1 = r2.
Proof.
  assert (Hempty : forall r s, session (init production snapshot) r s = None).
  { intros r s. unfold session, init. simpl.
    destruct (JsObj.get (loadRoomsFromDb snapshot) r) as [room|] eqn:Hroom;
      [|reflexivity].
    destruct (loadRoomsFromDb_spec snapshot r room Hroom) as [_ ->].
    reflexivity. }
  assert (Hkeys : keysTruthy (init production snapshot)).
  { intros r room Hroom. exact (proj1 (loadRoomsFromDb_spec snapshot r room Hroom)). }
  assert (Hone : playerOnce (init production snapshot)).
  { intros r1 r2 s1 s2 p1 p2 H1. rewrite Hempty in H1. discriminate. }
  split.
  - exact (proj1 (run_invariants "" "" evs _ Hkeys Hone)).
  - intros socketId playerId Hall r1 r2 p1 p2 H1 H2.
    destruct (run_invariants socketId playerId evs _ Hkeys Hone)
      as [Hone' Hknown].
    assert (Hk : knownAs socketId playerId
                   (fst (run (init production snapshot) evs))).
    { apply Hknown; [exact Hall|]. intros r p H. rewrite Hempty in H.
      discriminate. }
    apply (Hone' r1 r2 socketId socketId p1 p2 H1 H2).
    rewrite (Hk _ _ H1), (Hk _ _ H2). reflexivity.
Qed.

(** ** The host goes away: the regular case

    When the departing connection holds the host session of one room
    and no session elsewhere, the room is closed as intended. *)

Section HostDeparture.
Variables (g : Gateway.t) (socketId roomID : string) (room : RoomData.t)
          (host : PlayerData.t).
Hypothesis Hroom : JsObj.get (Gateway.rooms g) roomID = Some room.
Hypothesis Hsession : JsObj.get (RoomData.players room) socketId = Some host.
Hypothesis Hhost : PlayerData.isHost host = true.
Hypothesis Honly :
  forall r room',
    JsObj.get (Gateway.rooms g) r = Some room' ->
    JsObj.has (RoomData.players room') socketId = true ->
    r = roomID.
Hypothesis Htruthy : truthy roomID = true.
Hypothesis Hkeyed :
  Forall (fun e => RoomData.id (snd e) = fst e) (Gateway.rooms g).

Lemma roomOfSocket_only : roomOfSocket g socketId = Some roomID.
Proof.
  unfold roomOfSocket.
  destruct (find _ (JsObj.keys (Gateway.rooms g))) as [k|] eqn:Hfind.
  - apply find_some in Hfind as [_ Hk].
    destruct (JsObj.get (Gateway.rooms g) k) as [room'|] eqn:Hroom';
      [|discriminate].
    rewrite (Honly k room' Hroom' Hk). reflexivity.
  - pose proof (find_none _ _ Hfind roomID (get_In_keys _ _ _ Hroom)) as Hmiss.
    simpl in Hmiss. rewrite Hroom in Hmiss.
    unfold JsObj.has in Hmiss. rewrite Hsession in Hmiss. discriminate.
Qed.

Lemma session_host : session g roomID socketId = Some host.
Proof. unfold session. rewrite Hroom. exact Hsession. Qed.

Lemma closed_absent :
  JsObj.get (Gateway.rooms (closed g socketId roomID)) roomID = None.
Proof.
  unfold closed, deleteRoom. simpl. rewrite get_delete, String.eqb_refl.
  reflexivity.
Qed.

Lemma In_delete_update (R : JsObj.t RoomData.t) (r : string)
    (f : RoomData.t -> RoomData.t) (e : string * RoomData.t) :
  In e (JsObj.delete (JsObj.update R r f) r) -> In e R /\ fst e <> r.
Proof.
  induction R as [|[k v] R IH]; simpl; [contradiction|].
  destruct (String.eqb_spec k r) as [->|Hk]; simpl.
  - rewrite String.eqb_refl. simpl. intros H.
    destruct (IH H) as [Hin Hne]. auto.
  - destruct (String.eqb_spec k r) as [->|_]; [contradiction|]. simpl.
    intros [<-|H].
    + auto.
    + destruct (IH H) as [Hin Hne]. auto.
Qed.

Lemma closed_unlisted :
  ~ In roomID
      (List.map PublicRoom.id (getPublicRoomList (closed g socketId roomID))).
Proof.
  unfold getPublicRoomList. rewrite map_map. simpl.
  intros Hin. apply in_map_iff in Hin as (r & Hid & Hr).
  apply filter_In in Hr as [Hr _].
  unfold JsObj.values in Hr. apply in_map_iff in Hr as (e & <- & He).
  apply In_delete_update in He as [He Hne].
  rewrite Forall_forall in Hkeyed. rewrite (Hkeyed e He) in Hid.
  contradiction.
Qed.

(** The sessions that stay are told, when their connection is open. *)
Lemma remaining_told (reason : string) (s : string) (p : PlayerData.t) :
  JsObj.get (RoomData.players room) s = Some p ->
  s <> socketId ->
  isOpen g s = true ->
  exists recipients,
    broadcastToRoom (deletePlayer roomID socketId g) roomID
      (roomClosed reason) None
    = [RoomCast roomID (roomClosed reason) recipients]
    /\ In s recipients.
Proof.
  intros Hp Hs Hopen. unfold broadcastToRoom, deletePlayer.
  rewrite get_rooms_updateRoom, String.eqb_refl, Hroom. simpl.
  assert (Hin : In s (JsObj.keys (JsObj.delete (RoomData.players room) socketId))).
  { apply (get_In_keys _ _ p). rewrite get_delete.
    destruct (String.eqb_spec socketId s); [congruence|exact Hp]. }
  exists (filter (isOpen g)
            (JsObj.keys (JsObj.delete (RoomData.players room) socketId))).
  split.
  - destruct (JsObj.keys (JsObj.delete (RoomData.players room) socketId))
      as [|k ks] eqn:Hkeys; [contradiction|reflexivity].
  - apply filter_In. split; [exact Hin|exact Hopen].
Qed.

(** [handleDisconnect] of the host. *)
Lemma handleDisconnect_host (db : Store.t) :
  JsObj.has (Gateway.clients g) socketId = true ->
  Gateway.rooms (fst (handleDisconnect g socketId db))
  = Gateway.rooms (closed g socketId roomID)
  /\ snd (handleDisconnect g socketId db)
     = (if truthy (PlayerData._id host)
        then [Persist (Call.leaveRoom roomID (PlayerData._id host))]
        else [])
       ++ broadcastToRoom (deletePlayer roomID socketId g) roomID
            (roomClosed "Host disconnected") None
       ++ [Persist (Call.deleteRoom roomID)]
       ++ broadcastRoomList (closed g socketId roomID).
Proof.
  intros Hreg.
  assert (Hg1 : JsObj.get (Gateway.rooms (deletePlayer roomID socketId g)) roomID
                = Some (RoomData.map_players
                          (fun ps => JsObj.delete ps socketId) room)).
  { unfold deletePlayer.
    rewrite get_rooms_updateRoom, String.eqb_refl, Hroom. reflexivity. }
  unfold handleDisconnect. rewrite Hreg. cbv zeta. simpl negb. cbv iota.
  rewrite roomOfSocket_only, session_host, Hhost, Htruthy, Hg1.
  split; reflexivity.
Qed.

(** [leaveRoom] of the host, when the store accepts the membership
    update. *)
Lemma leaveRoom_host (db : Store.t) (playerId : string) :
  found (JsObj.get (Gateway.clientPlayerMap g) socketId) = Some playerId ->
  Store.leaveRoom db roomID playerId = Resolved tt ->
  Gateway.rooms (fst (leaveRoom g socketId db))
  = Gateway.rooms (closed g socketId roomID)
  /\ snd (leaveRoom g socketId db)
     = sendToClient g socketId (leftRoom roomID)
       ++ [Persist (Call.leaveRoom roomID playerId)]
       ++ broadcastToRoom (deletePlayer roomID socketId g) roomID
            (roomClosed "Host left") None
       ++ [Persist (Call.deleteRoom roomID)]
       ++ match Store.deleteRoom db roomID with
          | Resolved _ =>
              broadcastRoomList (forgetPlayer socketId (closed g socketId roomID))
          | Rejected _ => []
          end.
Proof.
  intros Hbound Hleave.
  assert (Hfound : found (Some roomID) = Some roomID)
    by (unfold found; rewrite Htruthy; reflexivity).
  unfold leaveRoom. cbv zeta.
  rewrite roomOfSocket_only, Hfound, session_host, Hhost, Hbound, Hroom, Hleave.
  destruct (Store.deleteRoom db roomID); split; reflexivity.
Qed.

End HostDeparture.

Lemma no_AllCast_sendToClient (g : Gateway.t) (s : string) (m x : OutMsg)
    (rc : list string) :
  ~ In (AllCast x rc) (sendToClient g s m).
Proof.
  unfold sendToClient. destruct (isOpen g s); simpl.
  - intros [H|H]; [discriminate|contradiction].
  - intros H. exact H.
Qed.

Lemma no_AllCast_broadcastToRoom (g : Gateway.t) (r : string) (m x : OutMsg)
    (e : option string) (rc : list string) :
  ~ In (AllCast x rc) (broadcastToRoom g r m e).
Proof.
  unfold broadcastToRoom.
  destruct (JsObj.get (Gateway.rooms g) r) as [room|]; [|intros H; exact H].
  destruct (JsObj.keys (RoomData.players room)); simpl.
  - intros H. exact H.
  - intros [H|H]; [discriminate|contradiction].
Qed.

Lemma AllCast_broadcastRoomList (g : Gateway.t) (x : OutMsg)
    (rc : list string) :
  In (AllCast x rc) (broadcastRoomList g) ->
  x = roomListUpdated (getPublicRoomList g).
Proof.
  unfold broadcastRoomList, broadcastToAll.
  destruct (Gateway.clients g); simpl.
  - intros H. contradiction.
  - intros [H|H]; [|contradiction]. injection H as <- _. reflexivity.
Qed.

(** X2. In a directory whose rooms are filed under the id they record,
    when the connection that holds the host session of a room (of
    non-empty id) holds no session in another room, its disconnection
    (the connection being in the registry) and its [leaveRoom] (the
    reverse lookup binding the connection to a non-empty player id, and
    the store accepting the membership update for that id) remove the
    room from the directory, issue the deletion of the durable record,
    write [roomClosed] to every remaining session whose connection is
    open, and leave the room out of the room list: the list broadcast
    that ends the handler and any later list until a room of that id is
    created again.  A [leaveRoom] from a connection without a binding
    takes another branch of the handler, which is not covered here. *)
Lemma host_departure_closes_room (g : Gateway.t) (socketId roomID : string)
    (room : RoomData.t) (host : PlayerData.t) (db : Store.t) :
  JsObj.get (Gateway.rooms g) roomID = Some room ->
  JsObj.get (RoomData.players room) socketId = Some host ->
  PlayerData.isHost host = true ->
  (forall r room',
      JsObj.get (Gateway.rooms g) r = Some room' ->
      JsObj.has (RoomData.players room') socketId = true ->
      r = roomID) ->
  truthy roomID = true ->
  Forall (fun e => RoomData.id (snd e) = fst e) (Gateway.rooms g) ->
  (JsObj.has (Gateway.clients g) socketId = true ->
   let g' := fst (handleDisconnect g socketId db) in
   let out := snd (handleDisconnect g socketId db) in
   JsObj.get (Gateway.rooms g') roomID = None
   /\ In (Persist (Call.deleteRoom roomID)) out
   /\ (forall s p,
         JsObj.get (RoomData.players room) s = Some p ->
         s <> socketId -> isOpen g s = true ->
         exists recipients,
           In (RoomCast roomID (roomClosed "Host disconnected") recipients) out
           /\ In s recipients)
   /\ (exists rooms recipients,
         In (AllCast (roomListUpdated rooms) recipients) out
         /\ ~ In roomID (List.map PublicRoom.id rooms))
   /\ ~ In roomID (List.map PublicRoom.id (getPublicRoomList g')))
  /\ (forall playerId,
        found (JsObj.get (Gateway.clientPlayerMap g) socketId) = Some playerId ->
        Store.leaveRoom db roomID playerId = Resolved tt ->
        let g' := fst (leaveRoom g socketId db) in
        let out := snd (leaveRoom g socketId db) in
        JsObj.get (Gateway.rooms g') roomID = None
        /\ In (Persist (Call.deleteRoom roomID)) out
        /\ (forall s p,
              JsObj.get (RoomData.players room) s = Some p ->
              s <> socketId -> isOpen g s = true ->
              exists recipients,
                In (RoomCast roomID (roomClosed "Host left") recipients) out
                /\ In s recipients)
        /\ (forall rooms recipients,
              In (AllCast (roomListUpdated rooms) recipients) out ->
              ~ In roomID (List.map PublicRoom.id rooms))
        /\ ~ In roomID (List.map PublicRoom.id (getPublicRoomList g'))).
Proof.
  intros Hroom Hsession Hhost Honly Htruthy Hkeyed.
  pose proof (closed_unlisted g socketId roomID Hkeyed) as Hunlisted.
  split.
  - intros Hreg g' out. subst g' out.
    destruct (handleDisconnect_host g socketId roomID room host Hroom Hsession
                Hhost Honly Htruthy db Hreg) as [Hrooms Hout].
    rewrite Hout.
    split; [rewrite Hrooms; apply closed_absent|].
    split; [apply in_or_app; right; apply in_or_app; right; left; reflexivity|].
    split; [|split].
    + intros s p Hp Hs Hopen.
      destruct (remaining_told g socketId roomID room Hroom
                  "Host disconnected" s p Hp Hs Hopen) as (rc & Hcast & Hin).
      exists rc. split; [|exact Hin].
      apply in_or_app. right. apply in_or_app. left. rewrite Hcast.
      left. reflexivity.
    + unfold broadcastRoomList, broadcastToAll.
      change (Gateway.clients (closed g socketId roomID))
        with (Gateway.clients g).
      destruct (Gateway.clients g) as [|c cs] eqn:Hclients; [discriminate|].
      eexists. eexists. split; [|exact Hunlisted].
      apply in_or_app. right. apply in_or_app. right. right. left.
      reflexivity.
    + unfold getPublicRoomList in *. rewrite Hrooms. exact Hunlisted.
  - intros playerId Hbound Hleave g' out. subst g' out.
    destruct (leaveRoom_host g socketId roomID room host Hroom Hsession Hhost
                Honly Htruthy db playerId Hbound Hleave) as [Hrooms Hout].
    rewrite Hout.
    split; [rewrite Hrooms; apply closed_absent|].
    split.
    { apply in_or_app. right. simpl. right. apply in_or_app. right.
      simpl. left. reflexivity. }
    split; [|split].
    + intros s p Hp Hs Hopen.
      destruct (remaining_told g socketId roomID room Hroom
                  "Host left" s p Hp Hs Hopen) as (rc & Hcast & Hin).
      exists rc. split; [|exact Hin].
      apply in_or_app. right. simpl. right. apply in_or_app. left.
      rewrite Hcast. left. reflexivity.
    + intros rooms recipients Hin.
      assert (Hlist : rooms = getPublicRoomList (closed g socketId roomID)).
      { apply in_app_or in Hin as [Hin|Hin];
          [destruct (no_AllCast_sendToClient _ _ _ _ _ Hin)|].
        simpl in Hin. destruct Hin as [Hin|Hin]; [discriminate|].
        apply in_app_or in Hin as [Hin|Hin];
          [destruct (no_AllCast_broadcastToRoom _ _ _ _ _ _ Hin)|].
        simpl in Hin. destruct Hin as [Hin|Hin]; [discriminate|].
        destruct (Store.deleteRoom db roomID); [|contradiction].
        apply AllCast_broadcastRoomList in Hin. injection Hin as ->.
        reflexivity. }
      rewrite Hlist. exact Hunlisted.
    + unfold getPublicRoomList in *. rewrite Hrooms. exact Hunlisted.
Qed.

(** * Further properties of the handlers *)

(** The theorem at work: the connection "s" creates two rooms under
    two player ids, and "j", which presents the one id "J", joins the
    first: "j" is in one room, whatever "s" did. *)
Lemma sessions_unique_witness :
  let g :=
    fst (run (init false (Resolved []))
           [(connection "s", Sample.store 1);
            (connection "j", Sample.store 1);
            (message "s" (createRoom_ (CreateRoomDto.mk 100 None "A")),
             Sample.store 1);
            (message "s" (createRoom_ (CreateRoomDto.mk 100 None "B")),
             Sample.store 2);
            (message "j" (joinRoom_ (JoinRoomDto.mk "1" "J" None)),
             Sample.store 1)]) in
  playerOnce g
  /\ forall r1 r2 p1 p2,
       session g r1 "j" = Some p1 -> session g r2 "j" = Some p2 -> r1 = r2.
Proof.
  intros g.
  destruct (sessions_unique false (Resolved [])
              [(connection "s", Sample.store 1);
               (connection "j", Sample.store 1);
               (message "s" (createRoom_ (CreateRoomDto.mk 100 None "A")),
                Sample.store 1);
               (message "s" (createRoom_ (CreateRoomDto.mk 100 None "B")),
                Sample.store 2);
               (message "j" (joinRoom_ (JoinRoomDto.mk "1" "J" None)),
                Sample.store 1)]) as [Hone Hroom].
  split; [exact Hone|].
  apply (Hroom "j" "J").
  repeat constructor; simpl; intros H; discriminate H.
Defined.

(** The theorem at work: the host "h" of the sample room "1" goes
    away, by disconnection and by [leaveRoom]. *)
Lemma host_departure_closes_room_witness :
  JsObj.get
    (Gateway.rooms (fst (handleDisconnect Sample.joined "h" (Sample.store 1))))
    "1" = None
  /\ JsObj.get
       (Gateway.rooms (fst (leaveRoom Sample.joined "h" (Sample.store 1))))
       "1" = None.
Proof.
  destruct (JsObj.get (Gateway.rooms Sample.joined) "1") as [room|] eqn:Hroom;
    [|discriminate Hroom].
  destruct (JsObj.get (RoomData.players room) "h") as [host|] eqn:Hsession;
    [|injection Hroom as <-; discriminate Hsession].
  assert (Hhost : PlayerData.isHost host = true).
  { injection Hroom as <-. injection Hsession as <-. reflexivity. }
  assert (Honly : forall r room',
             JsObj.get (Gateway.rooms Sample.joined) r = Some room' ->
             JsObj.has (RoomData.players room') "h" = true -> r = "1").
  { intros r room'.
    let R := eval vm_compute in (Gateway.rooms Sample.joined) in
    change (Gateway.rooms Sample.joined) with R.
    unfold JsObj.get.
    destruct (String.eqb_spec "1" r) as [<-|_]; [intros _ _; reflexivity|].
    intros H. discriminate H. }
  assert (Hkeyed : Forall (fun e => RoomData.id (snd e) = fst e)
                     (Gateway.rooms Sample.joined)).
  { repeat constructor. }
  destruct (host_departure_closes_room Sample.joined "h" "1" room host
              (Sample.store 1) Hroom Hsession Hhost Honly eq_refl Hkeyed)
    as [Hclose Hleave].
  split.
  - exact (proj1 (Hclose eq_refl)).
  - exact (proj1 (Hleave "H" eq_refl eq_refl)).
Defined.

(** ** Kicking a player *)

(** X3. For a room id and a target id that are not names of members of
    [Object.prototype], [kickPlayer] is refused, with the gateway state
    unchanged and an error reply to the sender as its only effect,
    whenever the sender targets itself, the room is not in the
    directory, the sender does not hold the host session of that room,
    or the target holds no session in it. *)
Theorem kickPlayer_refused (g : Gateway.t) (socketId : string)
    (data : KickPlayerDto.t) (db : Store.t) :
  JsObj.inherited (KickPlayerDto.roomID data) = false ->
  JsObj.inherited (KickPlayerDto.targetSocketID data) = false ->
  kickGuards g socketId data = false ->
  fst (kickPlayer g socketId data db) = g
  /\ exists message,
       snd (kickPlayer g socketId data db) = sendError g socketId message None.
Proof.
  intros _ _.
  unfold kickGuards, kickPlayer, holdsHost, JsObj.has. cbv zeta.
  destruct (String.eqb socketId (KickPlayerDto.targetSocketID data)); simpl.
  { intros _. split; [reflexivity|eauto]. }
  destruct (JsObj.get (Gateway.rooms g) (KickPlayerDto.roomID data))
    as [room|].
  2:{ intros _. simpl. split; [reflexivity|eauto]. }
  destruct (match JsObj.get (RoomData.players room) socketId with
            | Some player => PlayerData.isHost player
            | None => false
            end); simpl.
  2:{ intros _. simpl. split; [reflexivity|eauto]. }
  destruct (JsObj.get (RoomData.players room)
              (KickPlayerDto.targetSocketID data)); [discriminate|].
  intros _. simpl. split; [reflexivity|eauto].
Qed.

(** The theorem at work: the guest "j" of the sample room tries to kick
    the host. *)
Lemma kickPlayer_refused_witness :
  fst (kickPlayer Sample.joined "j" (KickPlayerDto.mk "1" "h") (Sample.store 1))
  = Sample.joined.
Proof.
  exact (proj1 (kickPlayer_refused Sample.joined "j" (KickPlayerDto.mk "1" "h")
                  (Sample.store 1) eq_refl eq_refl eq_refl)).
Defined.

(** X4. When the guards of [kickPlayer] pass, then whatever the store
    answers: the session of the target is removed from the room and no
    other session of the directory changes; the target is dropped from
    the reverse lookup and nobody else is; the registry is untouched
    (the target stays connected); every room stays in the directory with
    its status; the removal of the durable membership is issued; and if
    the target's connection is open, the first effect is the [kicked]
    notice written to it. *)
Theorem kickPlayer_removes_target (g : Gateway.t) (socketId : string)
    (data : KickPlayerDto.t) (db : Store.t) :
  kickGuards g socketId data = true ->
  let roomID := KickPlayerDto.roomID data in
  let target := KickPlayerDto.targetSocketID data in
  let g' := fst (kickPlayer g socketId data db) in
  let out := snd (kickPlayer g socketId data db) in
  (forall r s,
      session g' r s
      = if String.eqb roomID r && String.eqb target s then None
        else session g r s)
  /\ (forall s,
        JsObj.get (Gateway.clientPlayerMap g') s
        = if String.eqb target s then None
          else JsObj.get (Gateway.clientPlayerMap g) s)
  /\ Gateway.clients g' = Gateway.clients g
  /\ (forall r,
        option_map RoomData.status (JsObj.get (Gateway.rooms g') r)
        = option_map RoomData.status (JsObj.get (Gateway.rooms g) r))
  /\ (exists targetPlayer,
        session g roomID target = Some targetPlayer
        /\ In (Persist (Call.leaveRoom roomID (PlayerData._id targetPlayer)))
             out)
  /\ (isOpen g target = true ->
      exists rest, out = Send target (kicked roomID "Kicked by host") :: rest).
Proof.
  intros Hguards roomID target g' out.
  unfold kickGuards, holdsHost, JsObj.has in Hguards.
  apply andb_prop in Hguards as [Hself Hguards].
  destruct (JsObj.get (Gateway.rooms g) (KickPlayerDto.roomID data))
    as [room|] eqn:Hroom; [|discriminate].
  apply andb_prop in Hguards as [Hhost Htarget].
  destruct (JsObj.get (RoomData.players room)
              (KickPlayerDto.targetSocketID data)) as [targetPlayer|] eqn:Ht;
    [|discriminate].
  assert (Hg' : g' = forgetPlayer target (deletePlayer roomID target g)).
  { subst g'. unfold kickPlayer. cbv zeta.
    apply negb_true_iff in Hself. rewrite Hself, Hroom, Hhost, Ht. simpl.
    destruct (Store.leaveRoom db _ _); reflexivity. }
  assert (Hout : exists tail,
             out = sendToClient g target (kicked roomID "Kicked by host")
                   ++ Persist (Call.leaveRoom roomID
                                 (PlayerData._id targetPlayer))
                      :: tail).
  { subst out. unfold kickPlayer. cbv zeta.
    apply negb_true_iff in Hself. rewrite Hself, Hroom, Hhost, Ht. simpl.
    destruct (Store.leaveRoom db _ _); simpl; eauto. }
  destruct Hout as [tail Hout].
  split; [|split; [|split; [|split; [|split]]]].
  - intros r s. rewrite Hg'. unfold session. simpl. rewrite get_update.
    destruct (String.eqb_spec roomID r) as [<-|Hr]; simpl; [|reflexivity].
    subst roomID. rewrite Hroom. simpl. rewrite get_delete.
    destruct (String.eqb target s); reflexivity.
  - intros s. rewrite Hg'. simpl. apply get_delete.
  - rewrite Hg'. reflexivity.
  - intros r. rewrite Hg'. simpl. rewrite get_update.
    destruct (String.eqb roomID r); [|reflexivity].
    destruct (JsObj.get (Gateway.rooms g) r); reflexivity.
  - exists targetPlayer. split.
    + unfold session. subst roomID. rewrite Hroom. exact Ht.
    + rewrite Hout. apply in_or_app. right. left. reflexivity.
  - intros Hopen. rewrite Hout. unfold sendToClient. rewrite Hopen. simpl.
    eauto.
Qed.

(** The theorem at work: the host "h" of the sample room kicks "j". *)
Lemma kickPlayer_removes_target_witness :
  session
    (fst (kickPlayer Sample.joined "h" (KickPlayerDto.mk "1" "j") Sample.down))
    "1" "j" = None.
Proof.
  exact (proj1 (kickPlayer_removes_target Sample.joined "h"
                  (KickPlayerDto.mk "1" "j") Sample.down eq_refl) "1" "j").
Defined.

(** ** The store calls among the effects *)

Lemma storeCalls_app (a b : list Effect) :
  storeCalls (a ++ b) = storeCalls a ++ storeCalls b.
Proof. apply flat_map_app. Qed.

Lemma storeCalls_Persist (c : Call.t) (l : list Effect) :
  storeCalls (Persist c :: l) = c :: storeCalls l.
Proof. reflexivity. Qed.

Lemma storeCalls_sendToClient (g : Gateway.t) (s : string) (m : OutMsg) :
  storeCalls (sendToClient g s m) = [].
Proof. unfold sendToClient. destruct (isOpen g s); reflexivity. Qed.

Lemma storeCalls_sendError (g : Gateway.t) (s message : string)
    (details : option string) :
  storeCalls (sendError g s message details) = [].
Proof. apply storeCalls_sendToClient. Qed.

Lemma storeCalls_broadcastToAll (g : Gateway.t) (m : OutMsg)
    (e : option string) :
  storeCalls (broadcastToAll g m e) = [].
Proof. unfold broadcastToAll. destruct (Gateway.clients g); reflexivity. Qed.

Lemma storeCalls_broadcastRoomList (g : Gateway.t) :
  storeCalls (broadcastRoomList g) = [].
Proof. apply storeCalls_broadcastToAll. Qed.

Lemma storeCalls_broadcastToRoom (g : Gateway.t) (r : string) (m : OutMsg)
    (e : option string) :
  storeCalls (broadcastToRoom g r m e) = [].
Proof.
  unfold broadcastToRoom.
  destruct (JsObj.get (Gateway.rooms g) r) as [room|]; [|reflexivity].
  destruct (JsObj.keys (RoomData.players room)); reflexivity.
Qed.

Create Rewrite HintDb storeCalls.
#[local] Hint Rewrite storeCalls_app storeCalls_Persist
  storeCalls_sendToClient storeCalls_sendError storeCalls_broadcastToAll
  storeCalls_broadcastRoomList storeCalls_broadcastToRoom
  app_nil_r : storeCalls.

(** ** Reporting readiness *)

Lemma claimedSession_get (g : Gateway.t) (room : RoomData.t)
    (socketId playerID : string) (player : PlayerData.t) :
  claimedSession g room socketId playerID = Some player ->
  JsObj.get (RoomData.players room) socketId = Some player
  /\ PlayerData._id player = playerID
  /\ JsObj.get (Gateway.clientPlayerMap g) socketId = Some playerID.
Proof.
  unfold claimedSession.
  destruct (JsObj.get (RoomData.players room) socketId) as [p|]; [|discriminate].
  destruct (String.eqb_spec (PlayerData._id p) playerID) as [Hid|]; simpl;
    [|discriminate].
  destruct (JsObj.get (Gateway.clientPlayerMap g) socketId) as [bound|];
    [|discriminate].
  destruct (String.eqb_spec bound playerID) as [->|]; [|discriminate].
  intros H. injection H as <-. auto.
Qed.

(** The claim of a session survives a rewrite of its fields other than
    the player id. *)
Lemma claimedSession_updatePlayer (g : Gateway.t) (room : RoomData.t)
    (roomID socketId playerID : string) (player : PlayerData.t)
    (f : PlayerData.t -> PlayerData.t) :
  (forall p, PlayerData._id (f p) = PlayerData._id p) ->
  claimedSession g room socketId playerID = Some player ->
  claimedSession (updatePlayer roomID socketId f g)
    (RoomData.map_players (fun ps => JsObj.update ps socketId f) room)
    socketId playerID
  = Some (f player).
Proof.
  intros Hf Hclaim.
  destruct (claimedSession_get _ _ _ _ _ Hclaim) as (Hp & Hid & Hbound).
  unfold claimedSession. simpl. rewrite get_update, String.eqb_refl, Hp. simpl.
  rewrite Hf, Hid, String.eqb_refl, Hbound, String.eqb_refl. reflexivity.
Qed.

Lemma playerReady_accepted (g : Gateway.t) (socketId : string)
    (data : PlayerReadyDto.t) (db : Store.t) (room : RoomData.t)
    (player : PlayerData.t) :
  JsObj.get (Gateway.rooms g) (PlayerReadyDto.roomID data) = Some room ->
  RoomData.status room = WAITING ->
  claimedSession g room socketId (PlayerReadyDto.playerID data) = Some player ->
  PlayerData.status player = Waiting ->
  fst (playerReady g socketId data db)
  = updatePlayer (PlayerReadyDto.roomID data) socketId
      (PlayerData.set_status Ready) g.
Proof.
  intros Hroom Hst Hclaim Hwaiting.
  unfold playerReady. cbv zeta. rewrite Hroom, Hst, Hclaim, Hwaiting. simpl.
  destruct (Store.updatePlayerStatus db _ _); [reflexivity|].
  destruct (session _ _ _); [|reflexivity].
  simpl. apply updatePlayer_idem. intros p. reflexivity.
Qed.

(** X5. In a Waiting room, a [playerReady] from the connection that
    holds the claimed session, still Waiting, sets that session to Ready
    and changes no other session, whatever the store answers: the catch
    block that follows a rejected status update writes Ready again, so
    the session is never put back to Waiting.  The status update is the
    one store call issued, and on rejection the sender (over an open
    connection) is told "Failed to set ready status.". *)
Theorem playerReady_marks_ready (g : Gateway.t) (socketId : string)
    (data : PlayerReadyDto.t) (db : Store.t) (room : RoomData.t)
    (player : PlayerData.t) :
  JsObj.get (Gateway.rooms g) (PlayerReadyDto.roomID data) = Some room ->
  RoomData.status room = WAITING ->
  claimedSession g room socketId (PlayerReadyDto.playerID data) = Some player ->
  PlayerData.status player = Waiting ->
  let roomID := PlayerReadyDto.roomID data in
  let g' := fst (playerReady g socketId data db) in
  let out := snd (playerReady g socketId data db) in
  (forall r s,
      session g' r s
      = if String.eqb roomID r && String.eqb socketId s
        then Some (PlayerData.set_status Ready player)
        else session g r s)
  /\ storeCalls out = [Call.updatePlayerStatus (PlayerData._id player) Ready]
  /\ (forall m,
        Store.updatePlayerStatus db (PlayerData._id player) Ready = Rejected m ->
        isOpen g socketId = true ->
        exists details,
          In (Send socketId (error "Failed to set ready status." details)) out).
Proof.
  intros Hroom Hst Hclaim Hwaiting roomID g' out.
  destruct (claimedSession_get _ _ _ _ _ Hclaim) as (Hp & Hid & Hbound).
  split; [|split].
  - intros r s. subst g' roomID.
    rewrite (playerReady_accepted g socketId data db room player
               Hroom Hst Hclaim Hwaiting).
    unfold session, updatePlayer. rewrite get_rooms_updateRoom.
    destruct (String.eqb_spec (PlayerReadyDto.roomID data) r) as [<-|Hr];
      simpl; [|reflexivity].
    rewrite Hroom. simpl. rewrite get_update.
    destruct (String.eqb socketId s) eqn:Hs; [|reflexivity].
    apply String.eqb_eq in Hs. subst s. rewrite Hp. reflexivity.
  - subst out. unfold playerReady. cbv zeta.
    rewrite Hroom, Hst, Hclaim, Hwaiting. simpl.
    destruct (Store.updatePlayerStatus db _ _); [|destruct (session _ _ _)];
      simpl; autorewrite with storeCalls; reflexivity.
  - intros m Hrej Hopen. subst out. unfold playerReady. cbv zeta.
    rewrite Hroom, Hst, Hclaim, Hwaiting, Hrej. simpl.
    destruct (sendError_open
                (updatePlayer (PlayerReadyDto.roomID data) socketId
                   (PlayerData.set_status Ready) g)
                socketId "Failed to set ready status." (Some m) Hopen)
      as [d Hd].
    exists d. destruct (session _ _ _); simpl; right; rewrite Hd; simpl;
      left; reflexivity.
Qed.

(** The theorem at work: "j" reports ready in the sample room while the
    store is down. *)
Lemma playerReady_marks_ready_witness :
  option_map PlayerData.status
    (session
       (fst (playerReady Sample.joined "j" (PlayerReadyDto.mk "1" "J")
               Sample.down))
       "1" "j")
  = Some Ready.
Proof.
  destruct (JsObj.get (Gateway.rooms Sample.joined) "1") as [room|] eqn:Hroom;
    [|discriminate Hroom].
  destruct (claimedSession Sample.joined room "j" "J") as [player|] eqn:Hclaim;
    [|injection Hroom as <-; discriminate Hclaim].
  rewrite (proj1 (playerReady_marks_ready Sample.joined "j"
                    (PlayerReadyDto.mk "1" "J") Sample.down room player Hroom
                    ltac:(injection Hroom as <-; reflexivity) Hclaim
                    ltac:(injection Hroom as <-; injection Hclaim as <-;
                          reflexivity))
             "1" "j").
  reflexivity.
Defined.

(** X6. Reporting readiness is idempotent: after a [playerReady] whose
    guards passed, the same message from the same connection changes
    nothing and produces no effect (no store call, no broadcast),
    whatever the store answered the first time and would answer now. *)
Theorem playerReady_twice (g : Gateway.t) (socketId : string)
    (data : PlayerReadyDto.t) (db db' : Store.t) (room : RoomData.t)
    (player : PlayerData.t) :
  JsObj.get (Gateway.rooms g) (PlayerReadyDto.roomID data) = Some room ->
  RoomData.status room = WAITING ->
  claimedSession g room socketId (PlayerReadyDto.playerID data) = Some player ->
  playerReady (fst (playerReady g socketId data db)) socketId data db'
  = (fst (playerReady g socketId data db), []).
Proof.
  intros Hroom Hst Hclaim.
  destruct (PlayerData.status player) eqn:Hstatus.
  - rewrite (playerReady_accepted g socketId data db room player
               Hroom Hst Hclaim Hstatus).
    unfold playerReady at 1. cbv zeta. unfold updatePlayer at 1.
    rewrite get_rooms_updateRoom, String.eqb_refl, Hroom. simpl.
    rewrite Hst. simpl.
    rewrite (claimedSession_updatePlayer g room _ socketId _ player
               (PlayerData.set_status Ready) (fun p => eq_refl) Hclaim).
    reflexivity.
  - assert (E : playerReady g socketId data db = (g, [])).
    { unfold playerReady. cbv zeta. rewrite Hroom, Hst, Hclaim, Hstatus.
      reflexivity. }
    rewrite E. simpl.
    unfold playerReady. cbv zeta. rewrite Hroom, Hst, Hclaim, Hstatus.
    reflexivity.
Qed.

(** The theorem at work: "j" reports ready twice in the sample room. *)
Lemma playerReady_twice_witness :
  playerReady Sample.ready "j" (PlayerReadyDto.mk "1" "J") Sample.down
  = (Sample.ready, []).
Proof.
  destruct (JsObj.get (Gateway.rooms Sample.joined) "1") as [room|] eqn:Hroom;
    [|discriminate Hroom].
  destruct (claimedSession Sample.joined room "j" "J") as [player|] eqn:Hclaim;
    [|injection Hroom as <-; discriminate Hclaim].
  exact (playerReady_twice Sample.joined "j" (PlayerReadyDto.mk "1" "J")
           (Sample.store 1) Sample.down room player Hroom
           ltac:(injection Hroom as <-; reflexivity) Hclaim).
Defined.

(** ** Loading reports *)

(** X7. In a Running room, a [loadingGame] from the connection that
    holds the claimed session, not yet loaded, sets the load flag of that
    session (and its status to Ready) and changes no other session; the
    report is not persisted (no store call); and reporting again is
    idempotent: the same message from the same connection then changes
    nothing and produces no effect. *)
Theorem loadingGame_marks_loaded (g : Gateway.t) (socketId : string)
    (data : LoadingGameDto.t) (room : RoomData.t) (player : PlayerData.t) :
  JsObj.get (Gateway.rooms g) (LoadingGameDto.roomID data) = Some room ->
  RoomData.status room = RUNNING ->
  claimedSession g room socketId (LoadingGameDto.playerID data) = Some player ->
  PlayerData.isLoaded player = false ->
  let roomID := LoadingGameDto.roomID data in
  let g' := fst (loadingGame g socketId data) in
  (forall r s,
      session g' r s
      = if String.eqb roomID r && String.eqb socketId s
        then Some (loaded player)
        else session g r s)
  /\ storeCalls (snd (loadingGame g socketId data)) = []
  /\ loadingGame g' socketId data = (g', []).
Proof.
  intros Hroom Hst Hclaim Hflag roomID g'.
  destruct (claimedSession_get _ _ _ _ _ Hclaim) as (Hp & Hid & Hbound).
  assert (Hg' : g' = updatePlayer roomID socketId loaded g).
  { subst g'. unfold loadingGame. cbv zeta.
    rewrite Hroom, Hst, Hclaim, Hflag. reflexivity. }
  split; [|split].
  - intros r s. rewrite Hg'. subst roomID.
    unfold session, updatePlayer. rewrite get_rooms_updateRoom.
    destruct (String.eqb_spec (LoadingGameDto.roomID data) r) as [<-|Hr];
      simpl; [|reflexivity].
    rewrite Hroom. simpl. rewrite get_update.
    destruct (String.eqb socketId s) eqn:Hs; [|reflexivity].
    apply String.eqb_eq in Hs. subst s. rewrite Hp. reflexivity.
  - unfold loadingGame. cbv zeta. rewrite Hroom, Hst, Hclaim, Hflag. simpl.
    destruct (_ && _); autorewrite with storeCalls; reflexivity.
  - rewrite Hg'. subst roomID. unfold loadingGame. cbv zeta.
    unfold updatePlayer at 1.
    rewrite get_rooms_updateRoom, String.eqb_refl, Hroom. simpl.
    rewrite Hst. simpl.
    rewrite (claimedSession_updatePlayer g room _ socketId _ player loaded
               (fun p => eq_refl) Hclaim).
    reflexivity.
Qed.

(** The theorem at work: "j" reports its loading in the running sample
    room. *)
Lemma loadingGame_marks_loaded_witness :
  loadingGame
    (fst (loadingGame Sample.running "j" (LoadingGameDto.mk "1" "J")))
    "j" (LoadingGameDto.mk "1" "J")
  = (fst (loadingGame Sample.running "j" (LoadingGameDto.mk "1" "J")), []).
Proof.
  destruct (JsObj.get (Gateway.rooms Sample.running) "1") as [room|] eqn:Hroom;
    [|discriminate Hroom].
  destruct (claimedSession Sample.running room "j" "J") as [player|] eqn:Hclaim;
    [|injection Hroom as <-; discriminate Hclaim].
  exact (proj2 (proj2 (loadingGame_marks_loaded Sample.running "j"
                         (LoadingGameDto.mk "1" "J") room player Hroom
                         ltac:(injection Hroom as <-; reflexivity) Hclaim
                         ltac:(injection Hroom as <-; injection Hclaim as <-;
                               reflexivity)))).
Defined.

(** ** Position reports *)

Lemma Forall_roomCastOnly_broadcastToRoom (g : Gateway.t) (r : string)
    (m : OutMsg) (e : option string) :
  Forall (roomCastOnly r) (broadcastToRoom g r m e).
Proof.
  unfold broadcastToRoom.
  destruct (JsObj.get (Gateway.rooms g) r) as [room|]; [|constructor].
  destruct (JsObj.keys (RoomData.players room)); repeat constructor.
Qed.

(** X8. The reports that arrive at a high rate or late.  [loadingGame],
    and [syncPosition] and [syncCarPosition] on a message that carries a
    payload object, never reply to the sender and never call the store,
    in any state: each of their effects is a write to the sessions of
    the room the message names.  In particular such a report that fails
    a guard is dropped without an error.  A [syncPosition] or
    [syncCarPosition] message without a payload is the exception: the
    handler throws at its first statement, and the listener answers the
    sender with the error 'Invalid message format', the state being left
    as it was. *)
Theorem reports_answered_only_without_payload (g : Gateway.t)
    (socketId : string) (db : Store.t) :
  (forall data,
      Forall (roomCastOnly (LoadingGameDto.roomID data))
        (snd (onMessage g socketId (loadingGame_ data) db)))
  /\ (forall data,
        Forall (roomCastOnly (PositionSyncDto.roomID data))
          (snd (onMessage g socketId (syncPosition_ (Some data)) db)))
  /\ (forall data,
        Forall (roomCastOnly (PositionSyncDto.roomID data))
          (snd (onMessage g socketId (syncCarPosition_ (Some data)) db)))
  /\ onMessage g socketId (syncPosition_ None) db
     = (g, sendError g socketId "Invalid message format" None)
  /\ onMessage g socketId (syncCarPosition_ None) db
     = (g, sendError g socketId "Invalid message format" None).
Proof.
  split; [|split; [|split; [|split]]]; try reflexivity; intros data;
    cbv beta iota zeta delta
      [onMessage handleMessage loadingGame syncPosition syncCarPosition].
  - break_matches; simpl; try constructor;
      repeat (apply Forall_app; split);
      try apply Forall_roomCastOnly_broadcastToRoom; constructor.
  - break_matches; simpl; try constructor;
      apply Forall_roomCastOnly_broadcastToRoom.
  - break_matches; simpl; try constructor;
      apply Forall_roomCastOnly_broadcastToRoom.
Qed.

(** X9. [syncPosition] on a message that carries a payload object.  With
    a failing guard (no room id, room not in the directory or not
    Running, sender without a session in it) it does nothing at all.
    When the guards pass it writes the received position, rotation and
    speed into the sender's session of that room, and the received
    distance when there is one (the stored distance is kept otherwise);
    no other session, no room status, neither the registry nor the
    reverse lookup changes; and its one effect is the relay of the
    stored transform to the open connections of the other sessions of
    the room.  Without a payload the handler throws before any of its
    guards. *)
Theorem syncPosition_frame (g : Gateway.t) (socketId : string)
    (data : PositionSyncDto.t) :
  (syncCarGuards g socketId data = false ->
   syncPosition g socketId (Some data) = Normal (g, []))
  /\ (syncCarGuards g socketId data = true ->
      let roomID := PositionSyncDto.roomID data in
      exists g' out,
        syncPosition g socketId (Some data) = Normal (g', out)
        /\ (forall r s,
              session g' r s
              = if String.eqb roomID r && String.eqb socketId s
                then option_map (moved data) (session g r s)
                else session g r s)
        /\ (forall r,
              option_map RoomData.status (JsObj.get (Gateway.rooms g') r)
              = option_map RoomData.status (JsObj.get (Gateway.rooms g) r))
        /\ Gateway.clients g' = Gateway.clients g
        /\ Gateway.clientPlayerMap g' = Gateway.clientPlayerMap g
        /\ exists room player,
             JsObj.get (Gateway.rooms g) roomID = Some room
             /\ JsObj.get (RoomData.players room) socketId = Some player
             /\ out
                = [RoomCast roomID
                     (playerPositionUpdate socketId
                        (PositionSyncDto.position data)
                        (PositionSyncDto.rotation data)
                        (PositionSyncDto.speed data)
                        (PlayerData.distance (moved data player)))
                     (filter
                        (fun k => negb (String.eqb k socketId) && isOpen g k)
                        (JsObj.keys (RoomData.players room)))])
  /\ syncPosition g socketId None = Throw.
Proof.
  split; [|split; [|reflexivity]].
  - intros Hg. unfold syncCarGuards in Hg. unfold syncPosition. cbv zeta.
    destruct (truthy (PositionSyncDto.roomID data)); [|reflexivity].
    destruct (JsObj.get (Gateway.rooms g) (PositionSyncDto.roomID data))
      as [room|]; [|reflexivity].
    simpl in *.
    destruct (RoomStatus_eqb (RoomData.status room) RUNNING); [|reflexivity].
    unfold JsObj.has in Hg. simpl in *.
    destruct (JsObj.get (RoomData.players room) socketId);
      [discriminate|reflexivity].
  - intros Hg roomID. unfold syncCarGuards in Hg.
    destruct (truthy (PositionSyncDto.roomID data)) eqn:Hid; [|discriminate].
    destruct (JsObj.get (Gateway.rooms g) (PositionSyncDto.roomID data))
      as [room|] eqn:Hroom; [|discriminate].
    simpl in Hg. apply andb_prop in Hg as [Hst Hhas].
    apply has_get in Hhas. destruct Hhas as [player Hp].
    assert (E : syncPosition g socketId (Some data)
                = Normal
                    (updatePlayer roomID socketId (moved data) g,
                     broadcastToRoom
                       (updatePlayer roomID socketId (moved data) g)
                       roomID
                       (playerPositionUpdate socketId
                          (PositionSyncDto.position data)
                          (PositionSyncDto.rotation data)
                          (PositionSyncDto.speed data)
                          (PlayerData.distance (moved data player)))
                       (Some socketId))).
    { unfold syncPosition. cbv zeta. rewrite Hid, Hroom, Hst, Hp. reflexivity. }
    eexists. eexists. split; [exact E|]. subst roomID.
    split; [|split; [|split; [|split]]]; try reflexivity.
    + intros r s. unfold session, updatePlayer. rewrite get_rooms_updateRoom.
      destruct (String.eqb_spec (PositionSyncDto.roomID data) r) as [<-|Hr];
        simpl; [|reflexivity].
      rewrite Hroom. simpl. rewrite get_update.
      destruct (String.eqb socketId s); reflexivity.
    + intros r. unfold updatePlayer. rewrite get_rooms_updateRoom.
      destruct (String.eqb (PositionSyncDto.roomID data) r); [|reflexivity].
      destruct (JsObj.get (Gateway.rooms g) r); reflexivity.
    + exists room, player. split; [exact Hroom|]. split; [exact Hp|].
      unfold broadcastToRoom, updatePlayer.
      rewrite get_rooms_updateRoom, String.eqb_refl, Hroom. simpl.
      rewrite keys_update.
      pose proof (get_In_keys _ _ _ Hp) as Hin.
      destruct (JsObj.keys (RoomData.players room)) eqn:Hk; [contradiction|].
      reflexivity.
Qed.

(** The theorem at work: "j" reports a position in the running sample
    room, without a distance; before the start the report is dropped. *)
Lemma syncPosition_frame_witness :
  (exists g' out,
      syncPosition Sample.running "j"
        (Some (PositionSyncDto.mk "1" (Vec3.mk 1 2 3) (Vec3.mk 4 5 6) 7 None))
      = Normal (g', out)
      /\ option_map PlayerData.position (session g' "1" "j")
         = Some (Vec3.mk 1 2 3))
  /\ syncPosition Sample.ready "j"
       (Some (PositionSyncDto.mk "1" (Vec3.mk 1 2 3) (Vec3.mk 4 5 6) 7 None))
     = Normal (Sample.ready, []).
Proof.
  split.
  - destruct (proj1 (proj2 (syncPosition_frame Sample.running "j"
                              (PositionSyncDto.mk "1" (Vec3.mk 1 2 3)
                                 (Vec3.mk 4 5 6) 7 None))) eq_refl)
      as (g' & out & E & Hsession & _).
    exists g', out. split; [exact E|].
    rewrite (Hsession "1" "j"). reflexivity.
  - exact (proj1 (syncPosition_frame Sample.ready "j"
                    (PositionSyncDto.mk "1" (Vec3.mk 1 2 3) (Vec3.mk 4 5 6) 7
                       None)) eq_refl).
Defined.

(** ** Back to the waiting room *)

Lemma resetNonHosts_resolved (db : Store.t) (ps : JsObj.t PlayerData.t) :
  (forall p,
      In p (JsObj.values ps) ->
      PlayerData.isHost p = false ->
      Store.updatePlayerStatus db (PlayerData._id p) Waiting = Resolved tt) ->
  resetNonHosts db ps
  = (JsObj.map_values backToLobby ps, List.map Persist (lobbyCalls ps), true).
Proof.
  unfold lobbyCalls, backToLobby.
  induction ps as [|[k p] ps IH]; intros Hdb; [reflexivity|].
  simpl. destruct (PlayerData.isHost p) eqn:Hhost; simpl.
  - rewrite IH; [reflexivity|].
    intros q Hq. apply Hdb. right. exact Hq.
  - rewrite (Hdb p (or_introl eq_refl) Hhost).
    rewrite IH; [reflexivity|].
    intros q Hq. apply Hdb. right. exact Hq.
Qed.

Lemma resetNonHosts_calls (db : Store.t) (ps : JsObj.t PlayerData.t) :
  forallb isPersist (snd (fst (resetNonHosts db ps))) = true.
Proof.
  induction ps as [|[k p] ps IH]; [reflexivity|].
  simpl. destruct (PlayerData.isHost p).
  - destruct (resetNonHosts db ps) as [[ps' cs] ok]. exact IH.
  - destruct (Store.updatePlayerStatus db (PlayerData._id p) Waiting).
    + destruct (resetNonHosts db ps) as [[ps' cs] ok]. exact IH.
    + reflexivity.
Qed.

Lemma resetNonHosts_rejected (db : Store.t) (ps : JsObj.t PlayerData.t)
    (p : PlayerData.t) (m : string) :
  In p (JsObj.values ps) ->
  PlayerData.isHost p = false ->
  Store.updatePlayerStatus db (PlayerData._id p) Waiting = Rejected m ->
  snd (resetNonHosts db ps) = false.
Proof.
  intros Hin Hhost Hrej.
  induction ps as [|[k q] ps IH]; [contradiction|].
  simpl. destruct (PlayerData.isHost q) eqn:Hq.
  - destruct Hin as [E|Hin]; [simpl in E; congruence|].
    specialize (IH Hin).
    destruct (resetNonHosts db ps) as [[ps' cs] ok]. exact IH.
  - destruct (Store.updatePlayerStatus db (PlayerData._id q) Waiting) eqn:Hst;
      [|reflexivity].
    destruct Hin as [E|Hin]; [simpl in E; congruence|].
    specialize (IH Hin).
    destruct (resetNonHosts db ps) as [[ps' cs] ok]. exact IH.
Qed.

Lemma storeCalls_map_Persist (cs : list Call.t) : storeCalls (List.map Persist cs) = cs.
Proof.
  induction cs as [|c cs IH]; [reflexivity|]. simpl. rewrite IH. reflexivity.
Qed.

(** X10. [updateStatusWaitingRoom] is reserved to the host: from a
    connection that does not hold the host session of the room, or for
    a room that is not in the directory and whose id is not the name of
    a member of [Object.prototype], the gateway state is unchanged and
    the one effect is the error reply.  From the host, when the store
    accepts the updates, the room is put back to Waiting whatever its
    status was, the host's session is left as it is and every other
    session is set to Waiting, all other fields (the load flag and the
    transform among them) and all other rooms being kept; the store is
    sent the status update of the room, then one status update per
    session that is not the host's, in the order of the sessions. *)
Theorem updateStatusWaitingRoom_resets (g : Gateway.t) (socketId : string)
    (data : WaitingRoomDto.t) (db : Store.t) :
  let roomID := WaitingRoomDto.roomID data in
  let g' := fst (updateStatusWaitingRoom g socketId data db) in
  let out := snd (updateStatusWaitingRoom g socketId data db) in
  (match JsObj.get (Gateway.rooms g) roomID with
   | Some room => holdsHost room socketId = false
   | None => JsObj.inherited roomID = false
   end ->
   g' = g /\ exists message, out = sendError g socketId message None)
  /\ (forall room,
        JsObj.get (Gateway.rooms g) roomID = Some room ->
        holdsHost room socketId = true ->
        acceptsLobby db roomID room ->
        (forall r,
            JsObj.get (Gateway.rooms g') r
            = if String.eqb roomID r
              then Some (RoomData.mk (RoomData.id room) (RoomData.value room)
                           (RoomData.password room) WAITING
                           (JsObj.map_values backToLobby (RoomData.players room)))
              else JsObj.get (Gateway.rooms g) r)
        /\ storeCalls out
           = Call.updateRoomStatus roomID WAITING
             :: lobbyCalls (RoomData.players room)).
Proof.
  intros roomID g' out. subst roomID g' out.
  unfold updateStatusWaitingRoom. cbv zeta. split.
  - destruct (JsObj.get (Gateway.rooms g) (WaitingRoomDto.roomID data))
      as [room|]; simpl.
    + unfold holdsHost. intros ->. simpl. split; [reflexivity|eauto].
    + intros _. split; [reflexivity|eauto].
  - intros room Hroom Hhost [Hstatus Hplayers]. rewrite Hroom.
    fold (holdsHost room socketId). rewrite Hhost, Hstatus. simpl.
    rewrite (resetNonHosts_resolved db _ Hplayers). simpl. split.
    + intros r. rewrite !get_update.
      destruct (String.eqb_spec (WaitingRoomDto.roomID data) r) as [<-|Hr];
        [|reflexivity].
      rewrite Hroom. reflexivity.
    + autorewrite with storeCalls. rewrite storeCalls_map_Persist. reflexivity.
Qed.

(** The theorem at work: in the running sample room the host returns to
    the waiting room; the same request from "j" is refused. *)
Lemma updateStatusWaitingRoom_resets_witness :
  option_map RoomData.status
    (JsObj.get
       (Gateway.rooms
          (fst (updateStatusWaitingRoom Sample.running "h"
                  (WaitingRoomDto.mk "1") (Sample.store 1))))
       "1")
  = Some WAITING
  /\ fst (updateStatusWaitingRoom Sample.running "j" (WaitingRoomDto.mk "1")
            (Sample.store 1))
     = Sample.running.
Proof.
  split.
  - destruct (JsObj.get (Gateway.rooms Sample.running) "1") as [room|] eqn:Hroom;
      [|discriminate Hroom].
    rewrite (proj1 (proj2 (updateStatusWaitingRoom_resets Sample.running "h"
                             (WaitingRoomDto.mk "1") (Sample.store 1))
                      room Hroom
                      ltac:(injection Hroom as <-; reflexivity)
                      ltac:(split; reflexivity)) "1").
    reflexivity.
  - exact (proj1 (proj1 (updateStatusWaitingRoom_resets Sample.running "j"
                           (WaitingRoomDto.mk "1") (Sample.store 1))
                    eq_refl)).
Defined.

(** X11. A store failure during [updateStatusWaitingRoom] is silent:
    when the store rejects the status update of the room or that of a
    session, the handler stops where it is and writes to no connection
    (no error reply to the host, no [updateWaitingRoom], no roster, no
    room list), while the room is already Waiting in memory. *)
Theorem updateStatusWaitingRoom_failure_silent (g : Gateway.t)
    (socketId : string) (data : WaitingRoomDto.t) (db : Store.t)
    (room : RoomData.t) :
  let roomID := WaitingRoomDto.roomID data in
  JsObj.get (Gateway.rooms g) roomID = Some room ->
  holdsHost room socketId = true ->
  (exists m, Store.updateRoomStatus db roomID WAITING = Rejected m)
  \/ (exists p m,
        In p (JsObj.values (RoomData.players room))
        /\ PlayerData.isHost p = false
        /\ Store.updatePlayerStatus db (PlayerData._id p) Waiting = Rejected m) ->
  forallb isPersist (snd (updateStatusWaitingRoom g socketId data db)) = true
  /\ option_map RoomData.status
       (JsObj.get
          (Gateway.rooms (fst (updateStatusWaitingRoom g socketId data db)))
          roomID)
     = Some WAITING.
Proof.
  intros roomID Hroom Hhost Hfail. subst roomID. split.
  - unfold updateStatusWaitingRoom. cbv zeta. rewrite Hroom.
    fold (holdsHost room socketId). rewrite Hhost. simpl.
    destruct (Store.updateRoomStatus db _ _) eqn:Hstatus; [|reflexivity].
    destruct Hfail as [[m Hm]|(p & m & Hin & Hp & Hrej)]; [discriminate|].
    pose proof (resetNonHosts_rejected db _ p m Hin Hp Hrej) as Hloop.
    pose proof (resetNonHosts_calls db (RoomData.players room)) as Hcalls.
    destruct (resetNonHosts db (RoomData.players room)) as [[ps' cs] ok].
    simpl in Hloop, Hcalls. subst ok. simpl. exact Hcalls.
  - exact (updateStatusWaitingRoom_status_kept g socketId data db room
             Hroom Hhost).
Qed.

(** The theorem at work: the host of the running sample room returns to
    the waiting room while the store is down. *)
Lemma updateStatusWaitingRoom_failure_silent_witness :
  forallb isPersist
    (snd (updateStatusWaitingRoom Sample.running "h" (WaitingRoomDto.mk "1")
            Sample.down))
  = true
  /\ option_map RoomData.status
       (JsObj.get
          (Gateway.rooms
             (fst (updateStatusWaitingRoom Sample.running "h"
                     (WaitingRoomDto.mk "1") Sample.down)))
          "1")
     = Some WAITING.
Proof.
  destruct (JsObj.get (Gateway.rooms Sample.running) "1") as [room|] eqn:Hroom;
    [|discriminate Hroom].
  exact (updateStatusWaitingRoom_failure_silent Sample.running "h"
           (WaitingRoomDto.mk "1") Sample.down room Hroom
           ltac:(injection Hroom as <-; reflexivity)
           (or_introl (ex_intro _ "down" eq_refl))).
Defined.

(** ** Who is written to *)

Lemma get_In {V : Type} (o : JsObj.t V) (k : string) (v : V) :
  JsObj.get o k = Some v -> In (k, v) o.
Proof.
  induction o as [|[k0 v0] o IH]; simpl; [discriminate|].
  destruct (String.eqb_spec k0 k) as [->|_].
  - intros H. injection H as ->. left. reflexivity.
  - intros H. right. exact (IH H).
Qed.

Lemma isOpen_openIn (g : Gateway.t) (s : string) :
  isOpen g s = true -> openIn (Gateway.clients g) s.
Proof.
  unfold isOpen, openIn.
  destruct (JsObj.get (Gateway.clients g) s) as [ws|] eqn:Hws; [|discriminate].
  intros Hopen. exists ws. split; [exact (get_In _ _ _ Hws)|exact Hopen].
Qed.

Section Deliverable.
Variables (g g' : Gateway.t).
Hypothesis Hclients : Gateway.clients g' = Gateway.clients g.

Lemma deliverable_sendToClient (s : string) (m : OutMsg) :
  Forall (deliverable (Gateway.clients g)) (sendToClient g' s m).
Proof.
  unfold sendToClient. destruct (isOpen g' s) eqn:Hopen; constructor;
    [|constructor].
  simpl. rewrite <- Hclients. apply isOpen_openIn, Hopen.
Qed.

Lemma deliverable_sendError (s message : string) (details : option string) :
  Forall (deliverable (Gateway.clients g)) (sendError g' s message details).
Proof. apply deliverable_sendToClient. Qed.

Lemma deliverable_broadcastToAll (m : OutMsg) (e : option string) :
  Forall (deliverable (Gateway.clients g)) (broadcastToAll g' m e).
Proof.
  unfold broadcastToAll. rewrite Hclients.
  destruct (Gateway.clients g) as [|c cs] eqn:Hcs; constructor; [|constructor].
  unfold deliverable. rewrite <- Hcs. apply Forall_forall. intros s Hs.
  apply in_map_iff in Hs as ([s0 ws] & <- & Hin).
  apply filter_In in Hin as [Hin Hok].
  apply andb_prop in Hok as [_ Hopen].
  exists ws. split; [exact Hin|exact Hopen].
Qed.

Lemma deliverable_broadcastRoomList :
  Forall (deliverable (Gateway.clients g)) (broadcastRoomList g').
Proof. apply deliverable_broadcastToAll. Qed.

Lemma deliverable_broadcastToRoom (r : string) (m : OutMsg)
    (e : option string) :
  Forall (deliverable (Gateway.clients g)) (broadcastToRoom g' r m e).
Proof.
  unfold broadcastToRoom.
  destruct (JsObj.get (Gateway.rooms g') r) as [room|]; [|constructor].
  destruct (JsObj.keys (RoomData.players room)) as [|k ks]; constructor;
    [|constructor].
  unfold deliverable. apply Forall_forall. intros s Hs.
  apply filter_In in Hs as [_ Hok].
  apply andb_prop in Hok as [_ Hopen].
  rewrite <- Hclients. apply isOpen_openIn, Hopen.
Qed.

End Deliverable.

Ltac deliver :=
  repeat first
    [ apply Forall_nil
    | apply Forall_app; split
    | apply Forall_cons; [exact I|]
    | apply deliverable_sendToClient; reflexivity
    | apply deliverable_sendError; reflexivity
    | apply deliverable_broadcastToRoom; reflexivity
    | apply deliverable_broadcastRoomList; reflexivity ].

Lemma onMessage_deliverable (g : Gateway.t) (socketId : string)
    (m : Message) (db : Store.t) :
  Forall (deliverable (Gateway.clients g))
    (snd (onMessage g socketId m db)).
Proof.
  destruct m; unfold onMessage, handleMessage; cbv beta iota.
  - unfold createRoom. cbv zeta. break_matches; simpl; deliver.
  - unfold joinRoom. cbv zeta. break_matches; simpl; deliver.
  - unfold leaveRoom. cbv zeta. break_matches; simpl; deliver.
  - unfold kickPlayer. cbv zeta. break_matches; simpl; deliver.
  - unfold startGame. cbv zeta. break_matches; simpl; deliver.
  - unfold loadingGame. cbv zeta. break_matches; simpl; deliver.
  - unfold playerReady. cbv zeta. break_matches; simpl; deliver.
  - unfold playerChangeCar. cbv zeta. break_matches; simpl; deliver.
  - on_payload data; [break_matches|]; simpl; deliver.
  - on_payload data; [break_matches|]; simpl; deliver.
  - simpl. deliver.
  - unfold updateStatusWaitingRoom. cbv zeta.
    destruct (JsObj.get (Gateway.rooms g) (WaitingRoomDto.roomID data))
      as [room|]; [|simpl; deliver].
    destruct (negb _); [simpl; deliver|].
    destruct (Store.updateRoomStatus db _ _); [|simpl; deliver].
    pose proof (resetNonHosts_calls db (RoomData.players room)) as Hcalls.
    destruct (resetNonHosts db (RoomData.players room)) as [[ps' cs] ok].
    simpl in Hcalls.
    assert (Hcs : Forall (deliverable (Gateway.clients g)) cs).
    { apply Forall_forall. intros e He.
      rewrite forallb_forall in Hcalls. specialize (Hcalls e He).
      destruct e; try discriminate. exact I. }
    destruct ok; simpl; constructor; try exact I;
      [apply Forall_app; split; [exact Hcs|deliver]|exact Hcs].
  - simpl. deliver.
  - simpl. deliver.
Qed.

(** X12. The gateway writes only to connections that are in the
    registry with a socket that is OPEN: whatever the event (a new
    connection, a message of any kind, an unparseable text, a change of
    the socket state, a close) and whatever the store answers, every
    recipient of every message of the turn ([sendToClient],
    [broadcastToRoom], [broadcastToAll]) is registered and OPEN. *)
Theorem writes_reach_open_connections (g : Gateway.t) (ev : Event)
    (db : Store.t) :
  Forall (deliverable (registryOf g ev)) (snd (step g ev db)).
Proof.
  destruct ev as [s|s m|s|s st|s]; simpl registryOf; simpl step.
  - change (Forall (deliverable (Gateway.clients (fst (onConnection g s))))
              (sendToClient (fst (onConnection g s)) s
                 (roomListUpdated (getPublicRoomList (fst (onConnection g s))))
               ++ sendToClient (fst (onConnection g s)) s (yourSocketId s))).
    deliver.
  - apply onMessage_deliverable.
  - simpl. deliver.
  - constructor.
  - unfold handleDisconnect. cbv zeta. break_matches; simpl; deliver.
Qed.

(** ** Error details stay inside in production *)

Lemma detailFree_sendToClient (g : Gateway.t) (s : string) (m : OutMsg) :
  plain m = true ->
  Forall (fun e => detailFree e = true) (sendToClient g s m).
Proof.
  intros Hm. unfold sendToClient. destruct (isOpen g s); repeat constructor.
  exact Hm.
Qed.

Lemma detailFree_sendError (g : Gateway.t) (s message : string)
    (details : option string) :
  Gateway.production g = true ->
  Forall (fun e => detailFree e = true) (sendError g s message details).
Proof.
  intros Hprod. unfold sendError. rewrite Hprod.
  apply detailFree_sendToClient. reflexivity.
Qed.

Lemma detailFree_broadcastToAll (g : Gateway.t) (m : OutMsg)
    (e : option string) :
  plain m = true ->
  Forall (fun e => detailFree e = true) (broadcastToAll g m e).
Proof.
  intros Hm. unfold broadcastToAll.
  destruct (Gateway.clients g); repeat constructor. exact Hm.
Qed.

Lemma detailFree_broadcastRoomList (g : Gateway.t) :
  Forall (fun e => detailFree e = true) (broadcastRoomList g).
Proof. apply detailFree_broadcastToAll. reflexivity. Qed.

Lemma detailFree_broadcastToRoom (g : Gateway.t) (r : string) (m : OutMsg)
    (e : option string) :
  plain m = true ->
  Forall (fun e => detailFree e = true) (broadcastToRoom g r m e).
Proof.
  intros Hm. unfold broadcastToRoom.
  destruct (JsObj.get (Gateway.rooms g) r) as [room|]; [|constructor].
  destruct (JsObj.keys (RoomData.players room)); repeat constructor. exact Hm.
Qed.

Ltac discreet Hprod :=
  repeat first
    [ apply Forall_nil
    | apply Forall_app; split
    | apply Forall_cons; [reflexivity|]
    | apply detailFree_sendError; exact Hprod
    | apply detailFree_sendToClient; reflexivity
    | apply detailFree_broadcastToRoom; reflexivity
    | apply detailFree_broadcastRoomList ].

Lemma step_detailFree (g : Gateway.t) (ev : Event) (db : Store.t) :
  Gateway.production g = true ->
  Forall (fun e => detailFree e = true) (snd (step g ev db)).
Proof.
  intros Hprod. destruct ev as [s|s m|s|s st|s]; simpl step.
  - unfold onConnection. cbv zeta. simpl snd. discreet Hprod.
  - destruct m; unfold onMessage, handleMessage; cbv beta iota;
      try (simpl; discreet Hprod; fail).
    + unfold createRoom. cbv zeta. break_matches; simpl; discreet Hprod.
    + unfold joinRoom. cbv zeta. break_matches; simpl; discreet Hprod.
    + unfold leaveRoom. cbv zeta. break_matches; simpl; discreet Hprod.
    + unfold kickPlayer. cbv zeta. break_matches; simpl; discreet Hprod.
    + unfold startGame. cbv zeta. break_matches; simpl; discreet Hprod.
    + unfold loadingGame. cbv zeta. break_matches; simpl; discreet Hprod.
    + unfold playerReady. cbv zeta. break_matches; simpl; discreet Hprod.
    + unfold playerChangeCar. cbv zeta. break_matches; simpl; discreet Hprod.
    + on_payload data; [break_matches|]; simpl; discreet Hprod.
    + on_payload data; [break_matches|]; simpl; discreet Hprod.
    + unfold updateStatusWaitingRoom. cbv zeta.
      destruct (JsObj.get (Gateway.rooms g) (WaitingRoomDto.roomID data))
        as [room|]; [|simpl; discreet Hprod].
      destruct (negb _); [simpl; discreet Hprod|].
      destruct (Store.updateRoomStatus db _ _); [|simpl; discreet Hprod].
      pose proof (resetNonHosts_calls db (RoomData.players room)) as Hcalls.
      destruct (resetNonHosts db (RoomData.players room)) as [[ps' cs] ok].
      simpl in Hcalls.
      assert (Hcs : Forall (fun e => detailFree e = true) cs).
      { apply Forall_forall. intros e He.
        rewrite forallb_forall in Hcalls. specialize (Hcalls e He).
        destruct e; try discriminate. reflexivity. }
      destruct ok; simpl; constructor; try reflexivity;
        [apply Forall_app; split; [exact Hcs|discreet Hprod]|exact Hcs].
  - simpl. discreet Hprod.
  - constructor.
  - unfold handleDisconnect. cbv zeta. break_matches; simpl; discreet Hprod.
Qed.

Lemma step_production (g : Gateway.t) (ev : Event) (db : Store.t) :
  Gateway.production (fst (step g ev db)) = Gateway.production g.
Proof.
  destruct ev as [s|s m|s|s st|s]; simpl step; try reflexivity.
  - destruct m; unfold onMessage, handleMessage; cbv beta iota; try reflexivity.
    + unfold createRoom. cbv zeta. break_matches; reflexivity.
    + unfold joinRoom. cbv zeta. break_matches; reflexivity.
    + unfold leaveRoom. cbv zeta. break_matches; reflexivity.
    + unfold kickPlayer. cbv zeta. break_matches; reflexivity.
    + unfold startGame. cbv zeta. break_matches; reflexivity.
    + unfold loadingGame. cbv zeta. break_matches; reflexivity.
    + unfold playerReady. cbv zeta. break_matches; reflexivity.
    + unfold playerChangeCar. cbv zeta. break_matches; reflexivity.
    + on_payload data; [break_matches|]; reflexivity.
    + on_payload data; [break_matches|]; reflexivity.
    + unfold updateStatusWaitingRoom. cbv zeta. break_matches; reflexivity.
  - unfold handleDisconnect. cbv zeta. break_matches; reflexivity.
Qed.

(** X13. In production no message carries error details: along any
    run of the gateway, whatever the events and the answers of the
    store, every [error] written to a connection has its [details]
    field absent.  (Every error goes through [sendError], and no handler
    changes the environment flag.) *)
Theorem production_hides_details (evs : list (Event * Store.t)) :
  forall g,
    Gateway.production g = true ->
    Forall (Forall (fun e => detailFree e = true)) (snd (run g evs)).
Proof.
  induction evs as [|[ev db] rest IH]; intros g Hprod; [constructor|].
  pose proof (step_detailFree g ev db Hprod) as Hstep.
  pose proof (step_production g ev db) as Hflag.
  simpl. destruct (step g ev db) as [g1 out] eqn:Hs. simpl in Hstep, Hflag.
  specialize (IH g1 ltac:(congruence)).
  destruct (run g1 rest) as [g2 outs]. simpl in *.
  constructor; assumption.
Qed.

(** The theorem at work: in production the store fails while "h"
    creates a room; the reply carries the message only. *)
Lemma production_hides_details_witness :
  snd (run (init true (Resolved []))
         [(connection "h", Sample.down);
          (message "h" (createRoom_ (CreateRoomDto.mk 100 None "H")),
           Sample.down)])
  = [[Send "h" (roomListUpdated []); Send "h" (yourSocketId "h")];
     [Persist (Call.getPlayerWithId "H");
      Persist (Call.createRoom 100 "" ["H"]);
      Send "h" (error "Failed to create room." None)]]
  /\ Forall (Forall (fun e => detailFree e = true))
       (snd (run (init true (Resolved []))
               [(connection "h", Sample.down);
                (message "h" (createRoom_ (CreateRoomDto.mk 100 None "H")),
                 Sample.down)])).
Proof.
  split; [reflexivity|].
  apply production_hides_details. reflexivity.
Defined.

(** ** The registry *)

Lemma handleDisconnect_clients (g : Gateway.t) (socketId : string)
    (db : Store.t) :
  Gateway.clients (fst (handleDisconnect g socketId db))
  = JsObj.delete (Gateway.clients g) socketId.
Proof.
  unfold handleDisconnect. cbv zeta.
  destruct (JsObj.has (Gateway.clients g) socketId) eqn:Hreg; simpl.
  - break_matches; reflexivity.
  - unfold JsObj.has in Hreg. unfold JsObj.delete.
    induction (Gateway.clients g) as [|[k ws] cs IH]; [reflexivity|].
    simpl in *. destruct (String.eqb k socketId); [discriminate|].
    simpl. f_equal. exact (IH Hreg).
Qed.

(** X14. Only the acceptance of a connection adds to the registry, and
    no message handler touches it: a connection registered after a turn
    was registered before it or is the one the turn accepted, and a turn
    that handles a message (of any kind, unparseable ones included)
    leaves the registry exactly as it was. *)
Theorem registry_frame (g : Gateway.t) (ev : Event) (db : Store.t) :
  (forall s,
      JsObj.has (Gateway.clients (fst (step g ev db))) s = true ->
      JsObj.has (Gateway.clients g) s = true \/ ev = connection s)
  /\ (forall s m,
        ev = message s m \/ ev = unparseable s ->
        Gateway.clients (fst (step g ev db)) = Gateway.clients g).
Proof.
  assert (Hmsg : forall s m,
             Gateway.clients (fst (onMessage g s m db)) = Gateway.clients g).
  { intros s m. destruct m; unfold onMessage, handleMessage;
      cbv beta iota; try reflexivity.
    - unfold createRoom. cbv zeta. break_matches; reflexivity.
    - unfold joinRoom. cbv zeta. break_matches; reflexivity.
    - unfold leaveRoom. cbv zeta. break_matches; reflexivity.
    - unfold kickPlayer. cbv zeta. break_matches; reflexivity.
    - unfold startGame. cbv zeta. break_matches; reflexivity.
    - unfold loadingGame. cbv zeta. break_matches; reflexivity.
    - unfold playerReady. cbv zeta. break_matches; reflexivity.
    - unfold playerChangeCar. cbv zeta. break_matches; reflexivity.
    - on_payload data; [break_matches|]; reflexivity.
    - on_payload data; [break_matches|]; reflexivity.
    - unfold updateStatusWaitingRoom. cbv zeta. break_matches; reflexivity. }
  split.
  - intros s. destruct ev as [s0|s0 m|s0|s0 st|s0]; simpl step.
    + simpl. unfold JsObj.has. rewrite get_map_set.
      destruct (String.eqb_spec s0 s) as [->|_]; [right; reflexivity|].
      intros H. left. exact H.
    + rewrite Hmsg. auto.
    + auto.
    + simpl. unfold JsObj.has. rewrite get_update.
      destruct (String.eqb s0 s); [|auto].
      destruct (JsObj.get (Gateway.clients g) s); [auto|discriminate].
    + rewrite handleDisconnect_clients. unfold JsObj.has.
      rewrite get_delete. destruct (String.eqb s0 s); [discriminate|auto].
  - intros s m [->| ->]; [apply Hmsg|reflexivity].
Qed.

(** The theorem at work: "j" sends a message to the sample lobby. *)
Lemma registry_frame_witness :
  Gateway.clients
    (fst (step Sample.joined
            (message "j" (playerReady_ (PlayerReadyDto.mk "1" "J")))
            Sample.down))
  = Gateway.clients Sample.joined.
Proof.
  exact (proj2 (registry_frame Sample.joined
                  (message "j" (playerReady_ (PlayerReadyDto.mk "1" "J")))
                  Sample.down)
           "j" (playerReady_ (PlayerReadyDto.mk "1" "J"))
           (or_introl eq_refl)).
Defined.

(** X15. A connection that is accepted is always greeted: whatever the
    state, the new socket is registered as OPEN, it is written the
    current room list and then its own id, in that order, and the
    directory and the reverse lookup are left as they were. *)
Theorem onConnection_greets (g : Gateway.t) (socketId : string) :
  snd (onConnection g socketId)
  = [Send socketId (roomListUpdated (getPublicRoomList g));
     Send socketId (yourSocketId socketId)]
  /\ isOpen (fst (onConnection g socketId)) socketId = true
  /\ Gateway.rooms (fst (onConnection g socketId)) = Gateway.rooms g
  /\ Gateway.clientPlayerMap (fst (onConnection g socketId))
     = Gateway.clientPlayerMap g.
Proof.
  assert (Hopen : isOpen (fst (onConnection g socketId)) socketId = true).
  { unfold isOpen. simpl. rewrite get_map_set, String.eqb_refl. reflexivity. }
  split; [|split; [exact Hopen|split; reflexivity]].
  unfold onConnection. cbv zeta. simpl snd. unfold sendToClient.
  simpl fst in Hopen. rewrite Hopen. reflexivity.
Qed.

(** ** The shape of the directory *)

Section DictShape.
Context {V : Type}.
Implicit Types (o : JsObj.t V) (k : string) (v : V).

Lemma keys_replace o k v : JsObj.keys (JsObj.replace o k v) = JsObj.keys o.
Proof.
  induction o as [|[k0 v0] o IH]; simpl; [reflexivity|].
  destruct (String.eqb k0 k); simpl; [reflexivity|]. rewrite IH. reflexivity.
Qed.

Lemma size_replace o k v : JsObj.size (JsObj.replace o k v) = JsObj.size o.
Proof.
  unfold JsObj.size. rewrite <- (length_map fst (JsObj.replace o k v)).
  change (map fst (JsObj.replace o k v)) with (JsObj.keys (JsObj.replace o k v)).
  rewrite keys_replace. apply length_map.
Qed.

Lemma Forall_replace (P : string * V -> Prop) o k v :
  Forall P o -> P (k, v) -> Forall P (JsObj.replace o k v).
Proof.
  intros Ho Hv. induction Ho as [|[k0 v0] o H0 Ho IH]; simpl; [constructor|].
  destruct (String.eqb_spec k0 k) as [->|_]; constructor; assumption.
Qed.

Lemma In_keys_insert_index n k v o k' :
  In k' (JsObj.keys (JsObj.insert_index n k v o)) <->
  k' = k \/ In k' (JsObj.keys o).
Proof.
  induction o as [|[k0 v0] o IH]; simpl.
  - intuition.
  - destruct (JsObj.array_index k0) as [m|]; [destruct (m <? n)%N|]; simpl;
      rewrite ?IH; intuition.
Qed.

Lemma NoDup_keys_insert_index n k v o :
  ~ In k (JsObj.keys o) ->
  NoDup (JsObj.keys o) -> NoDup (JsObj.keys (JsObj.insert_index n k v o)).
Proof.
  induction o as [|[k0 v0] o IH]; simpl; intros Hk Ho.
  - constructor; [intros H; exact H|constructor].
  - assert (Hcons : NoDup (k :: k0 :: JsObj.keys o)).
    { constructor; [exact Hk|exact Ho]. }
    destruct (JsObj.array_index k0) as [m|]; [destruct (m <? n)%N|]; simpl;
      try exact Hcons.
    inversion Ho as [|? ? Hk0 Ho']; subst.
    constructor.
    + rewrite In_keys_insert_index. intros [->|H]; [|contradiction].
      apply Hk. left. reflexivity.
    + apply IH; [|exact Ho']. intros H. apply Hk. right. exact H.
Qed.

Lemma Forall_insert_index (P : string * V -> Prop) n k v o :
  Forall P o -> P (k, v) -> Forall P (JsObj.insert_index n k v o).
Proof.
  intros Ho Hv. induction Ho as [|[k0 v0] o H0 Ho IH]; simpl.
  - constructor; [exact Hv|constructor].
  - destruct (JsObj.array_index k0) as [m|]; [destruct (m <? n)%N|];
      repeat constructor; assumption.
Qed.

Lemma size_insert_index n k v o :
  JsObj.size (JsObj.insert_index n k v o) = S (JsObj.size o).
Proof.
  unfold JsObj.size. induction o as [|[k0 v0] o IH]; simpl; [reflexivity|].
  destruct (JsObj.array_index k0) as [m|]; [destruct (m <? n)%N|]; simpl;
    rewrite ?IH; reflexivity.
Qed.

Lemma has_false_keys o k : JsObj.has o k = false -> ~ In k (JsObj.keys o).
Proof.
  intros Hhas Hin. apply In_keys_get in Hin as [v Hv].
  unfold JsObj.has in Hhas. rewrite Hv in Hhas. discriminate.
Qed.

Lemma NoDup_keys_set o k v :
  NoDup (JsObj.keys o) -> NoDup (JsObj.keys (JsObj.set o k v)).
Proof.
  intros Ho. unfold JsObj.set.
  destruct (JsObj.has o k) eqn:Hhas; [rewrite keys_replace; exact Ho|].
  apply has_false_keys in Hhas.
  destruct (JsObj.array_index k) as [n|].
  - apply NoDup_keys_insert_index; assumption.
  - unfold JsObj.keys. rewrite map_app. simpl.
    apply NoDup_app; [exact Ho|repeat constructor; intros H; exact H|].
    intros x Hx [<-|H]; [exact (Hhas Hx)|exact H].
Qed.

Lemma Forall_set (P : string * V -> Prop) o k v :
  Forall P o -> P (k, v) -> Forall P (JsObj.set o k v).
Proof.
  intros Ho Hv. unfold JsObj.set.
  destruct (JsObj.has o k); [apply Forall_replace; assumption|].
  destruct (JsObj.array_index k) as [n|].
  - apply Forall_insert_index; assumption.
  - apply Forall_app. split; [exact Ho|repeat constructor; exact Hv].
Qed.

Lemma size_set o k v : JsObj.size (JsObj.set o k v) <= S (JsObj.size o).
Proof.
  unfold JsObj.set. destruct (JsObj.has o k); [rewrite size_replace; lia|].
  destruct (JsObj.array_index k) as [n|].
  - rewrite size_insert_index. lia.
  - unfold JsObj.size. rewrite length_app. simpl. lia.
Qed.

Lemma NoDup_keys_delete o k :
  NoDup (JsObj.keys o) -> NoDup (JsObj.keys (JsObj.delete o k)).
Proof. intros Ho. rewrite keys_delete. apply NoDup_filter, Ho. Qed.

Lemma Forall_delete (P : string * V -> Prop) o k :
  Forall P o -> Forall P (JsObj.delete o k).
Proof.
  intros Ho. apply Forall_forall. intros e He.
  apply filter_In in He as [He _]. rewrite Forall_forall in Ho. exact (Ho e He).
Qed.

Lemma size_delete o k : JsObj.size (JsObj.delete o k) <= JsObj.size o.
Proof. apply filter_length_le. Qed.

Lemma size_update o k f : JsObj.size (JsObj.update o k f) = JsObj.size o.
Proof. apply length_map. Qed.

Lemma size_map_values f o : JsObj.size (JsObj.map_values f o) = JsObj.size o.
Proof. apply length_map. Qed.

Lemma In_get o k v : NoDup (JsObj.keys o) -> In (k, v) o -> JsObj.get o k = Some v.
Proof.
  induction o as [|[k0 v0] o IH]; simpl; intros Ho Hin; [contradiction|].
  inversion Ho as [|? ? Hk0 Ho']; subst.
  destruct Hin as [E|Hin].
  - injection E as -> ->. rewrite String.eqb_refl. reflexivity.
  - destruct (String.eqb_spec k0 k) as [->|_]; [|exact (IH Ho' Hin)].
    exfalso. apply Hk0. change k with (fst (k, v)). apply in_map, Hin.
Qed.

Lemma Forall_update (P : string * V -> Prop) o k f :
  Forall P o ->
  (forall v, In (k, v) o -> P (k, v) -> P (k, f v)) ->
  Forall P (JsObj.update o k f).
Proof.
  intros Ho Hf. apply Forall_forall. intros e He.
  apply in_map_iff in He as ([k0 v0] & <- & Hin).
  rewrite Forall_forall in Ho. specialize (Ho _ Hin). simpl.
  destruct (String.eqb_spec k0 k) as [->|_]; [|exact Ho].
  exact (Hf v0 Hin Ho).
Qed.

Lemma Forall_map_values (P : string * V -> Prop) f o :
  Forall P o ->
  (forall k v, P (k, v) -> P (k, f v)) ->
  Forall P (JsObj.map_values f o).
Proof.
  intros Ho Hf. apply Forall_forall. intros e He.
  apply in_map_iff in He as ([k0 v0] & <- & Hin).
  rewrite Forall_forall in Ho. exact (Hf _ _ (Ho _ Hin)).
Qed.

End DictShape.

Lemma hosts_delete (ps : JsObj.t PlayerData.t) (k : string) :
  length (hosts (JsObj.delete ps k)) <= length (hosts ps).
Proof.
  unfold hosts, JsObj.values, JsObj.delete.
  induction ps as [|[k0 p] ps IH]; simpl; [lia|].
  destruct (String.eqb k0 k); simpl; destruct (PlayerData.isHost p); simpl; lia.
Qed.

Lemma hosts_update (ps : JsObj.t PlayerData.t) (k : string)
    (h : PlayerData.t -> PlayerData.t) :
  (forall p, PlayerData.isHost (h p) = PlayerData.isHost p) ->
  length (hosts (JsObj.update ps k h)) = length (hosts ps).
Proof.
  intros Hh. unfold hosts, JsObj.values, JsObj.update.
  induction ps as [|[k0 p] ps IH]; simpl; [reflexivity|].
  destruct (String.eqb k0 k); simpl; rewrite ?Hh;
    destruct (PlayerData.isHost p); simpl; rewrite IH; reflexivity.
Qed.

Lemma hosts_map_values (ps : JsObj.t PlayerData.t)
    (h : PlayerData.t -> PlayerData.t) :
  (forall p, PlayerData.isHost (h p) = PlayerData.isHost p) ->
  length (hosts (JsObj.map_values h ps)) = length (hosts ps).
Proof.
  intros Hh. unfold hosts, JsObj.values, JsObj.map_values.
  induction ps as [|[k0 p] ps IH]; simpl; [reflexivity|].
  rewrite Hh. destruct (PlayerData.isHost p); simpl; rewrite IH; reflexivity.
Qed.

Lemma hosts_set_guest (ps : JsObj.t PlayerData.t) (k : string)
    (p : PlayerData.t) :
  PlayerData.isHost p = false ->
  length (hosts (JsObj.set ps k p)) <= length (hosts ps).
Proof.
  intros Hp. unfold hosts, JsObj.values, JsObj.set.
  destruct (JsObj.has ps k).
  - induction ps as [|[k0 q] ps IH]; simpl; [lia|].
    destruct (String.eqb k0 k); simpl.
    + rewrite Hp. destruct (PlayerData.isHost q); simpl; lia.
    + destruct (PlayerData.isHost q); simpl; lia.
  - destruct (JsObj.array_index k) as [n|].
    + induction ps as [|[k0 q] ps IH]; simpl; [rewrite Hp; simpl; lia|].
      destruct (JsObj.array_index k0) as [m|]; [destruct (m <? n)%N|]; simpl;
        rewrite ?Hp; destruct (PlayerData.isHost q); simpl; lia.
    + rewrite map_app, filter_app, length_app. simpl. rewrite Hp. simpl. lia.
Qed.

Lemma hosts_resetNonHosts (db : Store.t) (ps : JsObj.t PlayerData.t) :
  length (hosts (fst (fst (resetNonHosts db ps)))) = length (hosts ps).
Proof.
  unfold hosts, JsObj.values.
  induction ps as [|[k p] ps IH]; [reflexivity|].
  simpl. destruct (PlayerData.isHost p) eqn:Hp.
  - destruct (resetNonHosts db ps) as [[ps' cs] ok]. simpl in *.
    rewrite Hp. simpl. rewrite IH. reflexivity.
  - destruct (Store.updatePlayerStatus db (PlayerData._id p) Waiting).
    + destruct (resetNonHosts db ps) as [[ps' cs] ok]. simpl in *.
      rewrite Hp. exact IH.
    + simpl. rewrite Hp. reflexivity.
Qed.

Lemma tidyPlayers_nil : tidyPlayers [].
Proof.
  split; [unfold JsObj.size, MAX_PLAYERS; simpl; lia|].
  split; [constructor|]. split; [constructor|].
  split; [simpl; lia|constructor].
Qed.

Lemma tidyPlayers_delete (ps : JsObj.t PlayerData.t) (k : string) :
  tidyPlayers ps -> tidyPlayers (JsObj.delete ps k).
Proof.
  intros (Hsize & Hkeys & Hfiled & Hhosts & Hready).
  split; [|split; [|split; [|split]]].
  - pose proof (size_delete ps k). lia.
  - apply NoDup_keys_delete, Hkeys.
  - apply Forall_delete, Hfiled.
  - pose proof (hosts_delete ps k). lia.
  - apply Forall_delete, Hready.
Qed.

Lemma tidyPlayers_update (ps : JsObj.t PlayerData.t) (k : string)
    (h : PlayerData.t -> PlayerData.t) :
  (forall p, PlayerData.socketId (h p) = PlayerData.socketId p) ->
  (forall p, PlayerData.isHost (h p) = PlayerData.isHost p) ->
  (forall p, hostReady p -> hostReady (h p)) ->
  tidyPlayers ps -> tidyPlayers (JsObj.update ps k h).
Proof.
  intros Hh Hhost Hr (Hsize & Hkeys & Hfiled & Hhosts & Hready).
  split; [|split; [|split; [|split]]].
  - rewrite size_update. exact Hsize.
  - rewrite keys_update. exact Hkeys.
  - apply Forall_update; [exact Hfiled|].
    intros p _ Hp. simpl in *. rewrite Hh. exact Hp.
  - rewrite hosts_update; assumption.
  - apply Forall_update; [exact Hready|].
    intros p _ Hp. simpl in *. apply Hr, Hp.
Qed.

Lemma tidyPlayers_map_values (ps : JsObj.t PlayerData.t)
    (h : PlayerData.t -> PlayerData.t) :
  (forall p, PlayerData.socketId (h p) = PlayerData.socketId p) ->
  (forall p, PlayerData.isHost (h p) = PlayerData.isHost p) ->
  (forall p, hostReady p -> hostReady (h p)) ->
  tidyPlayers ps -> tidyPlayers (JsObj.map_values h ps).
Proof.
  intros Hh Hhost Hr (Hsize & Hkeys & Hfiled & Hhosts & Hready).
  split; [|split; [|split; [|split]]].
  - rewrite size_map_values. exact Hsize.
  - rewrite keys_map_values. exact Hkeys.
  - apply Forall_map_values; [exact Hfiled|].
    intros k p Hp. simpl in *. rewrite Hh. exact Hp.
  - rewrite hosts_map_values; assumption.
  - apply Forall_map_values; [exact Hready|].
    intros k p Hp. simpl in *. apply Hr, Hp.
Qed.

Lemma tidyPlayers_set (ps : JsObj.t PlayerData.t) (k : string)
    (p : PlayerData.t) :
  PlayerData.socketId p = k ->
  PlayerData.isHost p = false ->
  JsObj.size ps < MAX_PLAYERS ->
  tidyPlayers ps -> tidyPlayers (JsObj.set ps k p).
Proof.
  intros Hp Hguest Hroom (Hsize & Hkeys & Hfiled & Hhosts & Hready).
  split; [|split; [|split; [|split]]].
  - pose proof (size_set ps k p). lia.
  - apply NoDup_keys_set, Hkeys.
  - apply Forall_set; [exact Hfiled|exact Hp].
  - pose proof (hosts_set_guest ps k p Hguest). lia.
  - apply Forall_set; [exact Hready|].
    unfold hostReady. simpl. rewrite Hguest. discriminate.
Qed.

Lemma tidyPlayers_resetNonHosts (db : Store.t) (ps : JsObj.t PlayerData.t) :
  tidyPlayers ps -> tidyPlayers (fst (fst (resetNonHosts db ps))).
Proof.
  assert (Hshape : JsObj.keys (fst (fst (resetNonHosts db ps))) = JsObj.keys ps
                   /\ (Forall (fun e => PlayerData.socketId (snd e) = fst e) ps ->
                       Forall (fun e => PlayerData.socketId (snd e) = fst e)
                         (fst (fst (resetNonHosts db ps))))
                   /\ (Forall (fun e => hostReady (snd e)) ps ->
                       Forall (fun e => hostReady (snd e))
                         (fst (fst (resetNonHosts db ps))))).
  { assert (Hguest : forall p,
               PlayerData.isHost p = false ->
               hostReady (PlayerData.set_status Waiting p)).
    { intros p Hp. unfold hostReady. simpl. rewrite Hp. discriminate. }
    induction ps as [|[k p] ps (IHk & IHf & IHr)];
      [split; [reflexivity|split; auto]|].
    simpl. destruct (PlayerData.isHost p) eqn:Hp.
    - destruct (resetNonHosts db ps) as [[ps' cs] ok]. simpl in *.
      split; [rewrite IHk; reflexivity|].
      split; intros H; inversion H; subst; constructor; simpl; auto.
    - destruct (Store.updatePlayerStatus db (PlayerData._id p) Waiting).
      + destruct (resetNonHosts db ps) as [[ps' cs] ok]. simpl in *.
        split; [rewrite IHk; reflexivity|].
        split; intros H; inversion H; subst; constructor; simpl; auto.
      + simpl. split; [reflexivity|].
        split; intros H; inversion H; subst; constructor; simpl; auto. }
  destruct Hshape as (Hk & Hf & Hr).
  intros (Hsize & Hkeys & Hfiled & Hhosts & Hready).
  split; [|split; [|split; [|split]]];
    [| | |rewrite hosts_resetNonHosts; exact Hhosts|exact (Hr Hready)].
  - unfold JsObj.size in *.
    rewrite <- (length_map fst (fst (fst (resetNonHosts db ps)))).
    change (map fst (fst (fst (resetNonHosts db ps))))
      with (JsObj.keys (fst (fst (resetNonHosts db ps)))).
    rewrite Hk. unfold JsObj.keys. rewrite length_map. exact Hsize.
  - rewrite Hk. exact Hkeys.
  - exact (Hf Hfiled).
Qed.

Lemma tidy_get (R : JsObj.t RoomData.t) (r : string) (room : RoomData.t) :
  tidy R -> JsObj.get R r = Some room -> tidyEntry (r, room).
Proof.
  intros [_ Hall] Hroom. rewrite Forall_forall in Hall.
  exact (Hall _ (get_In _ _ _ Hroom)).
Qed.

Lemma tidy_update (R : JsObj.t RoomData.t) (r : string)
    (f : RoomData.t -> RoomData.t) :
  (forall room, RoomData.id (f room) = RoomData.id room) ->
  (forall room,
      JsObj.get R r = Some room ->
      tidyPlayers (RoomData.players room) ->
      tidyPlayers (RoomData.players (f room))) ->
  tidy R -> tidy (JsObj.update R r f).
Proof.
  intros Hid Hf [Hkeys Hall]. split; [rewrite keys_update; exact Hkeys|].
  apply Forall_update; [exact Hall|].
  unfold tidyEntry. intros room Hin (Hfiled & Htruthy & Hps). simpl in *.
  split; [rewrite Hid; exact Hfiled|]. split; [exact Htruthy|].
  apply Hf; [exact (In_get _ _ _ Hkeys Hin)|exact Hps].
Qed.

Lemma tidy_delete (R : JsObj.t RoomData.t) (r : string) :
  tidy R -> tidy (JsObj.delete R r).
Proof.
  intros [Hkeys Hall].
  split; [apply NoDup_keys_delete, Hkeys|apply Forall_delete, Hall].
Qed.

Lemma tidy_set (R : JsObj.t RoomData.t) (r : string) (room : RoomData.t) :
  tidyEntry (r, room) -> tidy R -> tidy (JsObj.set R r room).
Proof.
  intros Hroom [Hkeys Hall].
  split; [apply NoDup_keys_set, Hkeys|apply Forall_set; assumption].
Qed.

(** The room mutations that keep the sessions tidy. *)
Ltac tidy_room :=
  repeat first
    [ assumption
    | apply tidyPlayers_delete
    | apply tidyPlayers_map_values;
      [ intros ?; reflexivity
      | intros ?; reflexivity
      | unfold hostReady; intros ? ? ?; simpl in *; auto
      | ]
    | apply tidyPlayers_update;
      [ intros ?; reflexivity
      | intros ?; reflexivity
      | unfold hostReady; intros ? ? ?; simpl in *; auto
      | ] ].

Ltac tidy_dir H :=
  repeat first
    [ exact H
    | apply tidy_delete
    | apply tidy_update;
      [ intros ?; reflexivity
      | let room := fresh "room" in
        let Hroom := fresh "Hroom" in
        let Hps := fresh "Hps" in
        intros room Hroom Hps; simpl; tidy_room
      | ] ].

Lemma loadRoomsFromDb_tidy (snapshot : Outcome (list Room.t)) :
  tidy (loadRoomsFromDb snapshot).
Proof.
  assert (Hnil : tidy []) by (split; constructor).
  unfold loadRoomsFromDb. destruct snapshot as [docs|]; [|exact Hnil].
  revert Hnil. generalize (@nil (string * RoomData.t)).
  induction docs as [|doc docs IH]; intros acc Hacc; simpl; [exact Hacc|].
  apply IH. destruct (truthy (Room.id doc)) eqn:Hid; [|exact Hacc].
  apply tidy_set; [|exact Hacc].
  split; [reflexivity|]. split; [exact Hid|apply tidyPlayers_nil].
Qed.

Lemma createRoom_tidy (g : Gateway.t) (socketId : string)
    (data : CreateRoomDto.t) (db : Store.t) :
  tidy (Gateway.rooms g) ->
  tidy (Gateway.rooms (fst (createRoom g socketId data db))).
Proof.
  intros H. unfold createRoom, getPlayerWithId, RoomService_createRoom.
  cbv zeta.
  destruct (Store.findPlayerById db (CreateRoomDto.playerId data))
    as [[c|]|]; try exact H.
  destruct (found (roomOfPlayer g (CreateRoomDto.playerId data)));
    [exact H|].
  destruct (Store.insertRoom db) as [n|]; [|exact H].
  simpl.
  destruct (Store.updatePlayerSocket db _ _ _); [|exact H].
  simpl. apply tidy_update.
  - intros room. reflexivity.
  - intros room Hroom _. rewrite get_set, String.eqb_refl in Hroom.
    injection Hroom as <-. simpl. rewrite set_nil.
    split; [unfold JsObj.size, MAX_PLAYERS; simpl; lia|].
    split; [repeat constructor; intros F; exact F|].
    split; [repeat constructor|].
    split; [simpl; lia|]. repeat constructor.
  - apply tidy_set; [|exact H].
    split; [reflexivity|].
    split; [apply roomIdOfSeq_truthy|apply tidyPlayers_nil].
Qed.

Lemma joinRoom_tidy (g : Gateway.t) (socketId : string)
    (data : JoinRoomDto.t) (db : Store.t) :
  tidy (Gateway.rooms g) ->
  tidy (Gateway.rooms (fst (joinRoom g socketId data db))).
Proof.
  intros H. unfold joinRoom, getPlayerWithId. cbv zeta.
  destruct (JsObj.get (Gateway.rooms g) (JoinRoomDto.roomID data))
    as [room|] eqn:Hroom; [|exact H].
  destruct (negb _); [exact H|].
  destruct (passwordRefused _ _); [exact H|].
  destruct (Store.findPlayerById db (JoinRoomDto.playerId data))
    as [[c|]|]; try exact H.
  destruct (MAX_PLAYERS <=? JsObj.size (RoomData.players room))%nat eqn:Hfull;
    [exact H|].
  destruct (found (roomOfPlayer g (JoinRoomDto.playerId data))).
  { destruct (String.eqb _ _); exact H. }
  simpl.
  destruct (Store.addPlayerToRoom db _ _); [|exact H].
  destruct (Store.updatePlayerSocket db _ _ _); [|exact H].
  simpl. apply tidy_update; [intros ?; reflexivity| |exact H].
  intros room0 Hroom0 Hps. assert (room0 = room) by congruence. subst room0.
  simpl. apply tidyPlayers_set; [reflexivity|reflexivity| |exact Hps].
  apply Nat.leb_gt in Hfull. exact Hfull.
Qed.

Lemma step_tidy (g : Gateway.t) (ev : Event) (db : Store.t) :
  tidy (Gateway.rooms g) -> tidy (Gateway.rooms (fst (step g ev db))).
Proof.
  intros H. destruct ev as [s|s m|s|s st|s]; simpl step; try exact H.
  - destruct m; unfold onMessage, handleMessage; cbv beta iota; try exact H.
    + apply createRoom_tidy, H.
    + apply joinRoom_tidy, H.
    + unfold leaveRoom. cbv zeta. break_matches; simpl; tidy_dir H.
    + unfold kickPlayer. cbv zeta. break_matches; simpl; tidy_dir H.
    + unfold startGame. cbv zeta. break_matches; simpl; tidy_dir H.
    + unfold loadingGame. cbv zeta. break_matches; simpl; tidy_dir H.
    + unfold playerReady. cbv zeta. break_matches; simpl; tidy_dir H.
    + unfold playerChangeCar. cbv zeta. break_matches; simpl; tidy_dir H.
    + on_payload data; [break_matches|]; simpl; tidy_dir H.
    + on_payload data; [break_matches|]; exact H.
    + unfold updateStatusWaitingRoom. cbv zeta.
      destruct (JsObj.get (Gateway.rooms g) (WaitingRoomDto.roomID data))
        as [room|] eqn:Hroom; [|exact H].
      destruct (negb _); [exact H|].
      destruct (Store.updateRoomStatus db _ _); [|simpl; tidy_dir H].
      pose proof (tidyPlayers_resetNonHosts db (RoomData.players room)
                    (proj2 (proj2 (tidy_get _ _ _ H Hroom)))) as Hreset.
      destruct (resetNonHosts db (RoomData.players room)) as [[ps' cs] ok].
      simpl in Hreset.
      assert (Hdir : tidy
                       (JsObj.update
                          (JsObj.update (Gateway.rooms g)
                             (WaitingRoomDto.roomID data)
                             (RoomData.set_status WAITING))
                          (WaitingRoomDto.roomID data)
                          (RoomData.set_players ps'))).
      { apply tidy_update; [intros ?; reflexivity| |tidy_dir H].
        intros room0 _ _. exact Hreset. }
      destruct ok; exact Hdir.
  - unfold handleDisconnect. cbv zeta. break_matches; simpl; tidy_dir H.
Qed.

Lemma run_tidy (evs : list (Event * Store.t)) :
  forall g, tidy (Gateway.rooms g) -> tidy (Gateway.rooms (fst (run g evs))).
Proof.
  induction evs as [|[ev db] rest IH]; intros g H; [exact H|].
  pose proof (step_tidy g ev db H) as Hstep.
  simpl. destruct (step g ev db) as [g1 out]. simpl in Hstep.
  specialize (IH g1 Hstep). destruct (run g1 rest) as [g2 outs]. exact IH.
Qed.

(** X16. A room never holds more than five sessions.  From a freshly
    loaded directory, along any run in which every event is handled to
    completion before the next one, whatever the events and the answers
    of the store, every room of the directory has at most
    [MAX_PLAYERS] sessions: [createRoom] opens a room with one session,
    [joinRoom] refuses a sixth one, and no other handler adds a
    session. *)
Theorem room_capacity (production : bool) (snapshot : Outcome (list Room.t))
    (evs : list (Event * Store.t)) (r : string) (room : RoomData.t) :
  JsObj.get (Gateway.rooms (fst (run (init production snapshot) evs))) r
  = Some room ->
  JsObj.size (RoomData.players room) <= MAX_PLAYERS.
Proof.
  intros Hroom.
  pose proof (run_tidy evs (init production snapshot)
                (loadRoomsFromDb_tidy snapshot)) as Htidy.
  exact (proj1 (proj2 (proj2 (tidy_get _ _ _ Htidy Hroom)))).
Qed.

(** The theorem at work: the sample room after "j" joined. *)
Lemma room_capacity_witness :
  option_map (fun room => (JsObj.size (RoomData.players room) <=? MAX_PLAYERS)%nat)
    (JsObj.get
       (Gateway.rooms
          (fst (run (init false (Resolved []))
                  [(connection "h", Sample.store 1);
                   (connection "j", Sample.store 1);
                   (message "h"
                      (createRoom_ (CreateRoomDto.mk 100 (Some "pw") "H")),
                    Sample.store 1);
                   (message "j" (joinRoom_ (JoinRoomDto.mk "1" "J" (Some "pw"))),
                    Sample.store 1)])))
       "1")
  = Some true.
Proof.
  destruct (JsObj.get _ "1") as [room|] eqn:Hroom; [|discriminate Hroom].
  simpl. f_equal. apply Nat.leb_le.
  exact (room_capacity false (Resolved []) _ "1" room Hroom).
Defined.

(** X17. The directory stays well filed.  From a freshly loaded
    directory, along any run in which every event is handled to
    completion before the next one, whatever the events and the answers
    of the store: the directory has one entry per room id; every room is
    filed under the id it records, and that id is not empty; within a
    room there is one session per connection, and every session is filed
    under the connection id it records. *)
Theorem directory_filed (production : bool) (snapshot : Outcome (list Room.t))
    (evs : list (Event * Store.t)) :
  let g := fst (run (init production snapshot) evs) in
  NoDup (JsObj.keys (Gateway.rooms g))
  /\ forall r room,
       JsObj.get (Gateway.rooms g) r = Some room ->
       RoomData.id room = r
       /\ truthy r = true
       /\ NoDup (JsObj.keys (RoomData.players room))
       /\ forall s p,
            JsObj.get (RoomData.players room) s = Some p ->
            PlayerData.socketId p = s.
Proof.
  intros g.
  pose proof (run_tidy evs (init production snapshot)
                (loadRoomsFromDb_tidy snapshot)) as Htidy.
  fold g in Htidy. split; [exact (proj1 Htidy)|].
  intros r room Hroom.
  destruct (tidy_get _ _ _ Htidy Hroom)
    as (Hid & Htruthy & _ & Hkeys & Hfiled & _ & _).
  split; [exact Hid|]. split; [exact Htruthy|]. split; [exact Hkeys|].
  intros s p Hp. rewrite Forall_forall in Hfiled.
  exact (Hfiled _ (get_In _ _ _ Hp)).
Qed.

(** ** The public room list *)

Lemma getPublicRoomList_tidy (g : Gateway.t) :
  tidy (Gateway.rooms g) ->
  getPublicRoomList g = List.map (fun e => publicRoom (snd e)) (Gateway.rooms g)
  /\ List.map PublicRoom.id (getPublicRoomList g) = JsObj.keys (Gateway.rooms g).
Proof.
  intros [_ Hall]. unfold getPublicRoomList, JsObj.values, JsObj.keys.
  induction Hall as [|[k room] R (Hid & Htruthy & _) Hall [IH1 IH2]];
    [split; reflexivity|].
  simpl in *. rewrite Hid, Htruthy. simpl. rewrite IH1. split; [reflexivity|].
  rewrite Hid. f_equal. rewrite <- IH1. exact IH2.
Qed.

(** X18. The public room list shows the directory as it is.  In every
    state reached from a freshly loaded directory (every event handled
    to completion before the next one), the list has exactly one entry
    per room of the directory, in the order of the directory, no id
    twice; each entry gives the id, status and stake of its room, the
    number of its sessions (at most five) and whether it has a non-empty
    password, never the password itself. *)
Theorem room_list_complete (production : bool)
    (snapshot : Outcome (list Room.t)) (evs : list (Event * Store.t)) :
  let g := fst (run (init production snapshot) evs) in
  List.map PublicRoom.id (getPublicRoomList g) = JsObj.keys (Gateway.rooms g)
  /\ NoDup (List.map PublicRoom.id (getPublicRoomList g))
  /\ forall entry,
       In entry (getPublicRoomList g) ->
       exists room,
         JsObj.get (Gateway.rooms g) (PublicRoom.id entry) = Some room
         /\ PublicRoom.status entry = RoomData.status room
         /\ PublicRoom.value entry = RoomData.value room
         /\ PublicRoom.playerCount entry = JsObj.size (RoomData.players room)
         /\ PublicRoom.playerCount entry <= MAX_PLAYERS
         /\ (PublicRoom.isPassword entry = true <->
             exists p, RoomData.password room = Some p /\ p <> "").
Proof.
  intros g.
  pose proof (run_tidy evs (init production snapshot)
                (loadRoomsFromDb_tidy snapshot)) as Htidy.
  fold g in Htidy.
  destruct (getPublicRoomList_tidy g Htidy) as [Hlist Hids].
  split; [exact Hids|]. split; [rewrite Hids; exact (proj1 Htidy)|].
  intros entry Hentry. rewrite Hlist in Hentry.
  apply in_map_iff in Hentry as ([k room] & <- & Hin). simpl.
  destruct Htidy as [Hkeys Hall].
  rewrite Forall_forall in Hall.
  destruct (Hall _ Hin) as (Hid & _ & Hsize & _). simpl in Hid, Hsize.
  exists room. rewrite Hid.
  split; [exact (In_get _ _ _ Hkeys Hin)|].
  split; [reflexivity|]. split; [reflexivity|]. split; [reflexivity|].
  split; [exact Hsize|].
  destruct (RoomData.password room) as [p|]; simpl.
  - unfold truthy. split.
    + intros Hp. exists p. split; [reflexivity|].
      intros ->. discriminate Hp.
    + intros (q & Hq & Hne). injection Hq as <-.
      destruct (String.eqb_spec p ""); [contradiction|reflexivity].
  - split; [discriminate|]. intros (q & Hq & _). discriminate Hq.
Qed.

(** ** Loading the directory *)

Lemma find_app {A : Type} (f : A -> bool) (l1 l2 : list A) :
  find f (l1 ++ l2)
  = match find f l1 with
    | Some x => Some x
    | None => find f l2
    end.
Proof.
  induction l1 as [|a l1 IH]; simpl; [reflexivity|].
  destruct (f a); [reflexivity|exact IH].
Qed.

(** X19. [loadRoomsFromDb] files each stored room under its id,
    skipping the documents whose id is empty; when several documents
    carry the same id, the last one read is the one kept; every loaded
    room starts without sessions (the stored membership is not read) and
    with an empty stored password read as no password; and when the
    query fails the directory starts empty. *)
Theorem loadRoomsFromDb_last_wins (docs : list Room.t) (r : string) :
  JsObj.get (loadRoomsFromDb (Resolved docs)) r
  = (if truthy r
     then option_map roomOfDoc
            (find (fun doc => String.eqb (Room.id doc) r) (rev docs))
     else None)
  /\ forall m, loadRoomsFromDb (Rejected m) = [].
Proof.
  split; [|reflexivity].
  unfold loadRoomsFromDb.
  change (fun (newRoomsData : JsObj.t RoomData.t) (room : Room.t) =>
            if truthy (Room.id room)
            then JsObj.set newRoomsData (Room.id room)
                   (RoomData.mk (Room.id room) (Room.value room)
                      (match Room.password room with
                       | Some p => if truthy p then Some p else None
                       | None => None
                       end)
                      (Room.status room) [])
            else newRoomsData)
    with (fun (newRoomsData : JsObj.t RoomData.t) (room : Room.t) =>
            if truthy (Room.id room)
            then JsObj.set newRoomsData (Room.id room) (roomOfDoc room)
            else newRoomsData).
  assert (Hfold : forall acc : JsObj.t RoomData.t,
             JsObj.get
               (fold_left
                  (fun (newRoomsData : JsObj.t RoomData.t) (room : Room.t) =>
                     if truthy (Room.id room)
                     then JsObj.set newRoomsData (Room.id room) (roomOfDoc room)
                     else newRoomsData)
                  docs acc) r
             = if truthy r
               then match find (fun doc => String.eqb (Room.id doc) r)
                            (rev docs) with
                    | Some doc => Some (roomOfDoc doc)
                    | None => JsObj.get acc r
                    end
               else JsObj.get acc r).
  { induction docs as [|doc docs IH]; intros acc; simpl.
    - destruct (truthy r); reflexivity.
    - rewrite IH, find_app. simpl.
      destruct (truthy r) eqn:Hr.
      + destruct (find _ (rev docs)); [reflexivity|].
        destruct (String.eqb_spec (Room.id doc) r) as [E|N].
        * rewrite E, Hr, get_set, String.eqb_refl. reflexivity.
        * destruct (truthy (Room.id doc)); [|reflexivity].
          rewrite get_set.
          destruct (String.eqb_spec (Room.id doc) r); [contradiction|].
          reflexivity.
      + destruct (truthy (Room.id doc)) eqn:Hd; [|reflexivity].
        rewrite get_set.
        destruct (String.eqb_spec (Room.id doc) r) as [E|N]; [|reflexivity].
        congruence. }
  rewrite Hfold.
  destruct (truthy r); [|reflexivity].
  destruct (find _ (rev docs)); reflexivity.
Qed.

(** ** Failures while creating or joining a room *)

(** X20. [createRoom] has no compensation: when the store has created
    the room document and then rejects the update of the host's player
    record, the handler leaves the gateway state as it was (no room in
    the directory, no binding of the connection) and answers "Failed to
    create room."; the store calls of the turn are the player lookup,
    the creation and the rejected update, so the room document that was
    just stored is never deleted. *)
Theorem createRoom_no_compensation (g : Gateway.t) (socketId : string)
    (data : CreateRoomDto.t) (db : Store.t) (c : Player.columns)
    (n : positive) (m : string) :
  let playerId := CreateRoomDto.playerId data in
  Store.findPlayerById db playerId = Resolved (Some c) ->
  found (roomOfPlayer g playerId) = None ->
  Store.insertRoom db = Resolved n ->
  Store.updatePlayerSocket db playerId socketId true = Rejected m ->
  fst (createRoom g socketId data db) = g
  /\ storeCalls (snd (createRoom g socketId data db))
     = [Call.getPlayerWithId playerId;
        Call.createRoom (CreateRoomDto.value data)
          (passwordOrEmpty (CreateRoomDto.password data)) [playerId];
        Call.updatePlayerSocket playerId socketId true]
  /\ (isOpen g socketId = true ->
      exists details,
        In (Send socketId (error "Failed to create room." details))
          (snd (createRoom g socketId data db))).
Proof.
  intros playerId Hplayer Hfree Hinsert Hsocket. subst playerId.
  unfold createRoom, getPlayerWithId, RoomService_createRoom. cbv zeta.
  rewrite Hplayer, Hfree, Hinsert. simpl. rewrite Hsocket. simpl.
  split; [reflexivity|]. split.
  - autorewrite with storeCalls. reflexivity.
  - intros Hopen.
    destruct (sendError_open g socketId "Failed to create room." (Some m) Hopen)
      as [d Hd].
    exists d. rewrite Hd. right. right. right. left. reflexivity.
Qed.

(** The theorem at work: "h" creates a room while the store creates
    the document and rejects the update of the player record. *)
Lemma createRoom_no_compensation_witness :
  let db :=
    Store.mk (fun _ => Resolved (Some (Sample.columns 1 [1; 2]%Z)))
      (Resolved 1%positive)
      (fun _ _ _ => Rejected "write failed") (fun _ _ => Resolved tt)
      (fun _ _ => Resolved tt) (fun _ _ => Resolved tt)
      (fun _ _ => Resolved tt) (fun _ => Resolved true)
      (fun _ _ => Resolved tt) (fun _ => Resolved None) in
  let g := Sample.after Sample.empty [(connection "h", Sample.store 1)] in
  fst (createRoom g "h" (CreateRoomDto.mk 100 None "H") db) = g
  /\ storeCalls (snd (createRoom g "h" (CreateRoomDto.mk 100 None "H") db))
     = [Call.getPlayerWithId "H"; Call.createRoom 100 "" ["H"];
        Call.updatePlayerSocket "H" "h" true].
Proof.
  intros db g.
  destruct (createRoom_no_compensation g "h" (CreateRoomDto.mk 100 None "H") db
              (Sample.columns 1 [1; 2]%Z) 1%positive "write failed"
              eq_refl eq_refl eq_refl eq_refl) as (Hstate & Hcalls & _).
  split; [exact Hstate|exact Hcalls].
Defined.

(** X21. [joinRoom] undoes a half-done join in the store only: when
    every check passed, the store has added the player to the room
    document and then rejects the update of the player record, the
    gateway state is left as it was (the room has no new session) and
    the sender is answered "Failed to join room."; the handler then
    reads the room document again and issues the removal of the durable
    membership exactly when that document lists the player. *)
Theorem joinRoom_compensation (g : Gateway.t) (socketId : string)
    (data : JoinRoomDto.t) (db : Store.t) (room : RoomData.t)
    (c : Player.columns) (m : string) :
  let roomID := JoinRoomDto.roomID data in
  let playerId := JoinRoomDto.playerId data in
  JsObj.get (Gateway.rooms g) roomID = Some room ->
  RoomData.status room = WAITING ->
  passwordRefused (RoomData.password room) (JoinRoomDto.password data) = false ->
  Store.findPlayerById db playerId = Resolved (Some c) ->
  JsObj.size (RoomData.players room) < MAX_PLAYERS ->
  found (roomOfPlayer g playerId) = None ->
  Store.addPlayerToRoom db roomID playerId = Resolved tt ->
  Store.updatePlayerSocket db playerId socketId false = Rejected m ->
  fst (joinRoom g socketId data db) = g
  /\ storeCalls (snd (joinRoom g socketId data db))
     = [Call.getPlayerWithId playerId;
        Call.addPlayerToRoom roomID playerId;
        Call.updatePlayerSocket playerId socketId false;
        Call.getRoomWithId roomID]
       ++ (match Store.getRoomWithId db roomID with
           | Resolved (Some roomInDb) =>
               if existsb (String.eqb playerId) (Room.players roomInDb)
               then [Call.leaveRoom roomID playerId]
               else []
           | _ => []
           end)
  /\ (isOpen g socketId = true ->
      exists details,
        In (Send socketId (error "Failed to join room." details))
          (snd (joinRoom g socketId data db))).
Proof.
  intros roomID playerId Hroom Hst Hpw Hplayer Hsize Hfree Hadd Hsocket.
  subst roomID playerId.
  apply Nat.leb_gt in Hsize.
  unfold joinRoom, getPlayerWithId. cbv zeta.
  rewrite Hroom, Hst. change (negb (RoomStatus_eqb WAITING WAITING)) with false.
  cbv iota. rewrite Hpw, Hplayer. cbv iota. rewrite Hsize, Hfree.
  change (Player._id (Player.doc (JoinRoomDto.playerId data) c))
    with (JoinRoomDto.playerId data).
  rewrite Hadd, Hsocket. simpl fst. simpl snd.
  split; [reflexivity|]. split.
  - autorewrite with storeCalls. simpl.
    destruct (Store.getRoomWithId db (JoinRoomDto.roomID data))
      as [[roomInDb|]|]; try reflexivity.
    destruct (existsb _ _); reflexivity.
  - intros Hopen.
    destruct (sendError_open g socketId "Failed to join room." (Some m) Hopen)
      as [d Hd].
    exists d. rewrite Hd. right. right. right. left. reflexivity.
Qed.

(** The theorem at work: "j" joins the sample room while the store adds
    the membership, rejects the update of the player record and then
    shows "J" among the members. *)
Lemma joinRoom_compensation_witness :
  let db :=
    Store.mk (fun _ => Resolved (Some (Sample.columns 1 [1; 2]%Z)))
      (Resolved 1%positive)
      (fun _ _ _ => Rejected "write failed") (fun _ _ => Resolved tt)
      (fun _ _ => Resolved tt) (fun _ _ => Resolved tt)
      (fun _ _ => Resolved tt) (fun _ => Resolved true)
      (fun _ _ => Resolved tt)
      (fun _ => Resolved (Some (Room.mk "1" 100 (Some "pw") WAITING ["H"; "J"])))
  in
  fst (joinRoom Sample.hosted "j" (JoinRoomDto.mk "1" "J" (Some "pw")) db)
  = Sample.hosted
  /\ storeCalls (snd (joinRoom Sample.hosted "j"
                   (JoinRoomDto.mk "1" "J" (Some "pw")) db))
     = [Call.getPlayerWithId "J"; Call.addPlayerToRoom "1" "J";
        Call.updatePlayerSocket "J" "j" false; Call.getRoomWithId "1";
        Call.leaveRoom "1" "J"].
Proof.
  intros db.
  destruct (JsObj.get (Gateway.rooms Sample.hosted) "1") as [room|] eqn:Hroom;
    [|discriminate Hroom].
  destruct (joinRoom_compensation Sample.hosted "j"
              (JoinRoomDto.mk "1" "J" (Some "pw")) db room
              (Sample.columns 1 [1; 2]%Z) "write failed" Hroom
              ltac:(injection Hroom as <-; reflexivity)
              ltac:(injection Hroom as <-; reflexivity)
              eq_refl
              ltac:(injection Hroom as <-; unfold MAX_PLAYERS; simpl; lia)
              eq_refl eq_refl eq_refl) as (Hstate & Hcalls & _).
  split; [exact Hstate|exact Hcalls].
Defined.

(** ** A guest goes away *)

(** X22. When a connection that holds a session which is not the host's
    in a room of non-empty id (and no session in another room) goes
    away, the room stays: its disconnection (the connection being in
    the registry and its session having a non-empty player id, whatever
    the store answers) and its [leaveRoom] (the reverse lookup binding
    the connection to a non-empty player id, and the store accepting
    the membership update for that id) remove that one session and keep
    the room in the directory with its status and its other sessions;
    the one store call is the removal of the durable membership (the
    room document is not deleted); the remaining sessions are sent the
    new roster and the departure, and the room list is broadcast.  A
    [leaveRoom] from a connection without a binding takes another
    branch of the handler, which is not covered here. *)
Theorem guest_departure_keeps_room (g : Gateway.t) (socketId roomID : string)
    (room : RoomData.t) (guest : PlayerData.t) (db : Store.t) :
  JsObj.get (Gateway.rooms g) roomID = Some room ->
  JsObj.get (RoomData.players room) socketId = Some guest ->
  PlayerData.isHost guest = false ->
  (forall r room',
      JsObj.get (Gateway.rooms g) r = Some room' ->
      JsObj.has (RoomData.players room') socketId = true ->
      r = roomID) ->
  truthy roomID = true ->
  let g1 := deletePlayer roomID socketId g in
  JsObj.get (Gateway.rooms g1) roomID = Some (without socketId room)
  /\ (JsObj.has (Gateway.clients g) socketId = true ->
      truthy (PlayerData._id guest) = true ->
      Gateway.rooms (fst (handleDisconnect g socketId db)) = Gateway.rooms g1
      /\ snd (handleDisconnect g socketId db)
         = [Persist (Call.leaveRoom roomID (PlayerData._id guest))]
           ++ broadcastToRoom g1 roomID
                (updatePlayers (JsObj.values (RoomData.players
                                                (without socketId room))))
                None
           ++ broadcastToRoom g1 roomID
                (playerLeft socketId (PlayerData._id guest)) None
           ++ broadcastRoomList g1)
  /\ (forall playerId,
        found (JsObj.get (Gateway.clientPlayerMap g) socketId) = Some playerId ->
        Store.leaveRoom db roomID playerId = Resolved tt ->
        Gateway.rooms (fst (leaveRoom g socketId db)) = Gateway.rooms g1
        /\ JsObj.get (Gateway.clientPlayerMap (fst (leaveRoom g socketId db)))
             socketId = None
        /\ snd (leaveRoom g socketId db)
           = sendToClient g socketId (leftRoom roomID)
             ++ [Persist (Call.leaveRoom roomID playerId)]
             ++ broadcastToRoom g1 roomID
                  (updatePlayers (JsObj.values (RoomData.players
                                                  (without socketId room))))
                  None
             ++ broadcastToRoom g1 roomID (playerLeft_ socketId playerId) None
             ++ broadcastRoomList g1).
Proof.
  intros Hroom Hsession Hguest Honly Htruthy g1.
  assert (Hg1 : JsObj.get (Gateway.rooms g1) roomID
                = Some (without socketId room)).
  { subst g1. unfold deletePlayer.
    rewrite get_rooms_updateRoom, String.eqb_refl, Hroom. reflexivity. }
  pose proof (roomOfSocket_only g socketId roomID room guest Hroom Hsession
                Honly) as Hfind.
  pose proof (session_host g socketId roomID room guest Hroom Hsession)
    as Hsess.
  split; [exact Hg1|]. split.
  - intros Hreg Hid.
    unfold handleDisconnect. rewrite Hreg. cbv zeta. simpl negb. cbv iota.
    rewrite Hfind, Hsess, Hguest, Htruthy, Hid. fold g1. rewrite Hg1.
    split; reflexivity.
  - intros playerId Hbound Hleave.
    assert (Hfound : found (Some roomID) = Some roomID)
      by (unfold found; rewrite Htruthy; reflexivity).
    unfold leaveRoom. cbv zeta.
    rewrite Hfind, Hfound, Hsess, Hguest, Hbound, Hroom, Hleave.
    subst g1.
    change (Gateway.rooms
              (forgetPlayer socketId (deletePlayer roomID socketId g)))
      with (Gateway.rooms (deletePlayer roomID socketId g)).
    rewrite Hg1.
    split; [reflexivity|]. split.
    + simpl. rewrite get_delete, String.eqb_refl. reflexivity.
    + simpl snd. unfold playersOf.
      change (Gateway.rooms
                (forgetPlayer socketId (deletePlayer roomID socketId g)))
        with (Gateway.rooms (deletePlayer roomID socketId g)).
      rewrite Hg1, <- app_assoc. reflexivity.
Qed.

(** The theorem at work: the guest "j" of the sample room leaves. *)
Lemma guest_departure_keeps_room_witness :
  option_map (fun room => JsObj.keys (RoomData.players room))
    (JsObj.get
       (Gateway.rooms (fst (leaveRoom Sample.joined "j" (Sample.store 1))))
       "1")
  = Some ["h"].
Proof.
  destruct (JsObj.get (Gateway.rooms Sample.joined) "1") as [room|] eqn:Hroom;
    [|discriminate Hroom].
  destruct (JsObj.get (RoomData.players room) "j") as [guest|] eqn:Hsession;
    [|injection Hroom as <-; discriminate Hsession].
  assert (Honly : forall r room',
             JsObj.get (Gateway.rooms Sample.joined) r = Some room' ->
             JsObj.has (RoomData.players room') "j" = true -> r = "1").
  { intros r room'.
    let R := eval vm_compute in (Gateway.rooms Sample.joined) in
    change (Gateway.rooms Sample.joined) with R.
    unfold JsObj.get.
    destruct (String.eqb_spec "1" r) as [<-|_]; [intros _ _; reflexivity|].
    intros H. discriminate H. }
  destruct (guest_departure_keeps_room Sample.joined "j" "1" room guest
              (Sample.store 1) Hroom Hsession
              ltac:(injection Hroom as <-; injection Hsession as <-;
                    reflexivity)
              Honly eq_refl) as (Hstays & _ & Hleave).
  rewrite (proj1 (Hleave "J" eq_refl eq_refl)), Hstays.
  injection Hroom as <-. reflexivity.
Defined.

(** X23. A room has at most one host.  From a freshly loaded directory,
    along any run in which every event is handled to completion before
    the next one, whatever the events and the answers of the store, no
    room of the directory holds two sessions flagged as host:
    [createRoom] opens a room with the host's session alone, [joinRoom]
    adds sessions that are not hosts, and no handler rewrites the
    flag. *)
Theorem one_host_at_most (production : bool)
    (snapshot : Outcome (list Room.t)) (evs : list (Event * Store.t))
    (r : string) (room : RoomData.t) :
  JsObj.get (Gateway.rooms (fst (run (init production snapshot) evs))) r
  = Some room ->
  length (hosts (RoomData.players room)) <= 1.
Proof.
  intros Hroom.
  pose proof (run_tidy evs (init production snapshot)
                (loadRoomsFromDb_tidy snapshot)) as Htidy.
  destruct (tidy_get _ _ _ Htidy Hroom) as (_ & _ & _ & _ & _ & Hhosts & _).
  exact Hhosts.
Qed.

(** The theorem at work: the sample room after "j" joined. *)
Lemma one_host_at_most_witness :
  option_map (fun room => (length (hosts (RoomData.players room)) <=? 1)%nat)
    (JsObj.get
       (Gateway.rooms
          (fst (run (init false (Resolved []))
                  [(connection "h", Sample.store 1);
                   (connection "j", Sample.store 1);
                   (message "h"
                      (createRoom_ (CreateRoomDto.mk 100 (Some "pw") "H")),
                    Sample.store 1);
                   (message "j" (joinRoom_ (JoinRoomDto.mk "1" "J" (Some "pw"))),
                    Sample.store 1)])))
       "1")
  = Some true.
Proof.
  destruct (JsObj.get _ "1") as [room|] eqn:Hroom; [|discriminate Hroom].
  simpl. f_equal. apply Nat.leb_le.
  exact (one_host_at_most false (Resolved []) _ "1" room Hroom).
Defined.

(** ** What no handler does to a room *)

Lemma sameStructure_refl (R : JsObj.t RoomData.t) : sameStructure R R.
Proof. intros r room' H. exists room'. auto 6. Qed.

Lemma sameStructure_update (R0 R : JsObj.t RoomData.t) (r : string)
    (f : RoomData.t -> RoomData.t) :
  (forall room,
      RoomData.id (f room) = RoomData.id room
      /\ RoomData.value (f room) = RoomData.value room
      /\ RoomData.password (f room) = RoomData.password room
      /\ (RoomData.status (f room) = FINISHED ->
          RoomData.status room = FINISHED)) ->
  sameStructure R0 R -> sameStructure R0 (JsObj.update R r f).
Proof.
  intros Hf HR k room'. rewrite get_update.
  destruct (String.eqb r k); [|apply HR].
  destruct (JsObj.get R k) as [room1|] eqn:Hroom1; [|discriminate].
  simpl. intros E. injection E as <-.
  destruct (HR k room1 Hroom1) as (room & Hroom & Hid & Hv & Hp & Hs).
  destruct (Hf room1) as (Fid & Fv & Fp & Fs).
  exists room. split; [exact Hroom|].
  split; [congruence|]. split; [congruence|]. split; [congruence|].
  intros H. exact (Hs (Fs H)).
Qed.

Lemma sameStructure_delete (R0 R : JsObj.t RoomData.t) (r : string) :
  sameStructure R0 R -> sameStructure R0 (JsObj.delete R r).
Proof.
  intros HR k room'. rewrite get_delete.
  destruct (String.eqb r k); [discriminate|apply HR].
Qed.

Ltac structure :=
  repeat first
    [ apply sameStructure_refl
    | apply sameStructure_delete
    | apply sameStructure_update;
      [ intros ?; repeat split; simpl; intros; discriminate | ]
    | apply sameStructure_update; [ intros ?; repeat split; auto | ] ].

Lemma handleDisconnect_sameStructure (g : Gateway.t) (socketId : string)
    (db : Store.t) :
  sameStructure (Gateway.rooms g)
    (Gateway.rooms (fst (handleDisconnect g socketId db))).
Proof. unfold handleDisconnect. cbv zeta. break_matches; simpl; structure. Qed.

(** X24. Apart from [createRoom], no handler opens a room or touches
    the structure of one, and none ever finishes a game.  After any
    turn of the gateway other than a [createRoom] message, whatever the
    store answers, every room of the directory was already there under
    the same id, with the same recorded id, stake and password, and it
    is Finished only if it was before: the handlers set a room to
    Waiting or Running, never to Finished. *)
Theorem room_structure_fixed (g : Gateway.t) (ev : Event) (db : Store.t) :
  (forall s data, ev <> message s (createRoom_ data)) ->
  sameStructure (Gateway.rooms g) (Gateway.rooms (fst (step g ev db))).
Proof.
  intros Hev. destruct ev as [s|s m|s|s st|s]; simpl step;
    try apply sameStructure_refl.
  - destruct m; unfold onMessage, handleMessage;
      cbv beta iota; try apply sameStructure_refl.
    + destruct (Hev s data eq_refl).
    + unfold joinRoom. cbv zeta. break_matches; simpl; structure.
    + unfold leaveRoom. cbv zeta. break_matches; simpl; structure.
    + unfold kickPlayer. cbv zeta. break_matches; simpl; structure.
    + unfold startGame. cbv zeta. break_matches; simpl; structure.
    + unfold loadingGame. cbv zeta. break_matches; simpl; structure.
    + unfold playerReady. cbv zeta. break_matches; simpl; structure.
    + unfold playerChangeCar. cbv zeta. break_matches; simpl; structure.
    + on_payload data; [break_matches|]; simpl; structure.
    + on_payload data; [break_matches|]; apply sameStructure_refl.
    + unfold updateStatusWaitingRoom. cbv zeta. break_matches; simpl; structure.
  - apply handleDisconnect_sameStructure.
Qed.

(** The theorem at work: the host of the sample room starts the game. *)
Lemma room_structure_fixed_witness :
  sameStructure (Gateway.rooms Sample.ready)
    (Gateway.rooms
       (fst (step Sample.ready
               (message "h" (startGame_ (StartGameDto.mk "1" 3)))
               (Sample.store 1)))).
Proof.
  apply room_structure_fixed. intros s data H. discriminate H.
Defined.

(** ** A connection without a session goes away *)

Lemma roomOfSocket_sessionless (g : Gateway.t) (socketId : string) :
  sessionless g socketId -> roomOfSocket g socketId = None.
Proof.
  intros Hnone. unfold roomOfSocket.
  destruct (find _ (JsObj.keys (Gateway.rooms g))) as [r|] eqn:Hfind;
    [|reflexivity].
  apply find_some in Hfind as [_ Hr].
  destruct (JsObj.get (Gateway.rooms g) r) as [room|] eqn:Hroom;
    [|discriminate].
  rewrite (Hnone r room Hroom) in Hr. discriminate.
Qed.

(** X25. A connection that holds no session goes away silently: its
    [leaveRoom] changes nothing and has no effect (no reply, no store
    call), and its disconnection only drops it from the registry and the
    reverse lookup, with no store call and no message to anybody, the
    room list included. *)
Theorem sessionless_departure_silent (g : Gateway.t) (socketId : string)
    (db : Store.t) :
  sessionless g socketId ->
  leaveRoom g socketId db = (g, [])
  /\ snd (handleDisconnect g socketId db) = []
  /\ Gateway.rooms (fst (handleDisconnect g socketId db)) = Gateway.rooms g
  /\ JsObj.has (Gateway.clients (fst (handleDisconnect g socketId db))) socketId
     = false.
Proof.
  intros Hnone. pose proof (roomOfSocket_sessionless g socketId Hnone) as Hfind.
  split; [|split; [|split]].
  - unfold leaveRoom. cbv zeta. rewrite Hfind. reflexivity.
  - unfold handleDisconnect. cbv zeta. rewrite Hfind.
    destruct (negb _); reflexivity.
  - unfold handleDisconnect. cbv zeta. rewrite Hfind.
    destruct (negb _); reflexivity.
  - apply handleDisconnect_unregisters.
Qed.

(** The theorem at work: a third connection "k" of the sample lobby,
    which is in no room, leaves and disconnects. *)
Lemma sessionless_departure_silent_witness :
  leaveRoom lobbyWaiting "k" Sample.down = (lobbyWaiting, [])
  /\ snd (handleDisconnect lobbyWaiting "k" Sample.down) = [].
Proof.
  assert (Hnone : sessionless lobbyWaiting "k").
  { intros r room.
    let R := eval vm_compute in (Gateway.rooms lobbyWaiting) in
    change (Gateway.rooms lobbyWaiting) with R.
    unfold JsObj.get.
    destruct (String.eqb "1" r); [|intros H; discriminate H].
    intros H. injection H as <-. reflexivity. }
  destruct (sessionless_departure_silent lobbyWaiting "k" Sample.down Hnone)
    as (Hleave & Hout & _).
  split; [exact Hleave|exact Hout].
Defined.

(** ** Admission to a room *)

Lemma size_set_new {V : Type} (o : JsObj.t V) (k : string) (v : V) :
  JsObj.has o k = false -> JsObj.size (JsObj.set o k v) = S (JsObj.size o).
Proof.
  intros Hnew. unfold JsObj.set. rewrite Hnew.
  destruct (JsObj.array_index k) as [n|].
  - apply size_insert_index.
  - unfold JsObj.size. rewrite length_app. simpl. lia.
Qed.

(** X26. A [joinRoom] that passes every check (room in the directory
    and Waiting, password accepted, player found, room not full, player
    in no room, both store updates accepted) from a connection that
    holds no session in the room adds exactly one session to it, the
    sender's, under the presented player id and not as host; the room
    keeps its status, stake and password and the connection is bound to
    the player.  The sender is written the room details with the whole
    roster, counted; the other sessions of the room, and not the
    sender, are written the roster and the new session; the room list is
    broadcast. *)
Theorem joinRoom_admits (g : Gateway.t) (socketId : string)
    (data : JoinRoomDto.t) (db : Store.t) (room : RoomData.t)
    (c : Player.columns) :
  let roomID := JoinRoomDto.roomID data in
  let playerId := JoinRoomDto.playerId data in
  JsObj.get (Gateway.rooms g) roomID = Some room ->
  RoomData.status room = WAITING ->
  passwordRefused (RoomData.password room) (JoinRoomDto.password data) = false ->
  Store.findPlayerById db playerId = Resolved (Some c) ->
  JsObj.size (RoomData.players room) < MAX_PLAYERS ->
  found (roomOfPlayer g playerId) = None ->
  Store.addPlayerToRoom db roomID playerId = Resolved tt ->
  Store.updatePlayerSocket db playerId socketId false = Resolved tt ->
  JsObj.has (RoomData.players room) socketId = false ->
  let guest := newPlayerData socketId (Player.doc playerId c) in
  let room' :=
    RoomData.map_players (fun ps => JsObj.set ps socketId guest) room in
  let roster := JsObj.values (RoomData.players room') in
  let g' := fst (joinRoom g socketId data db) in
  JsObj.get (Gateway.rooms g') roomID = Some room'
  /\ JsObj.get (RoomData.players room') socketId = Some guest
  /\ (forall s, s <> socketId ->
        JsObj.get (RoomData.players room') s
        = JsObj.get (RoomData.players room) s)
  /\ length roster = S (JsObj.size (RoomData.players room))
  /\ JsObj.get (Gateway.clientPlayerMap g') socketId = Some playerId
  /\ snd (joinRoom g socketId data db)
     = [Persist (Call.getPlayerWithId playerId);
        Persist (Call.addPlayerToRoom roomID playerId);
        Persist (Call.updatePlayerSocket playerId socketId false)]
       ++ sendToClient g' socketId
            (roomDetails roomID WAITING (RoomData.value room) (length roster)
               roster)
       ++ broadcastToRoom g' roomID (updatePlayers roster) (Some socketId)
       ++ broadcastToRoom g' roomID (playerJoined guest) (Some socketId)
       ++ broadcastRoomList g'.
Proof.
  intros roomID playerId Hroom Hst Hpw Hplayer Hsize Hfree Hadd Hsocket Hnew
    guest room' roster g'.
  assert (Hg' : g' = bindPlayer socketId playerId
                       (updateRoom roomID
                          (RoomData.map_players
                             (fun ps => JsObj.set ps socketId guest)) g)).
  { exact (joinRoom_resolved g socketId data db room c tt tt Hroom Hst Hpw
             Hplayer Hsize Hfree Hadd Hsocket). }
  assert (Hget : JsObj.get (Gateway.rooms g') roomID = Some room').
  { rewrite Hg'. simpl. rewrite get_update, String.eqb_refl, Hroom.
    reflexivity. }
  split; [exact Hget|]. split; [|split; [|split; [|split]]].
  - subst room'. simpl. rewrite get_set, String.eqb_refl. reflexivity.
  - intros s Hs. subst room'. simpl. rewrite get_set.
    destruct (String.eqb_spec socketId s); [congruence|reflexivity].
  - subst roster room'. unfold JsObj.values. rewrite length_map. simpl.
    apply size_set_new, Hnew.
  - rewrite Hg'. simpl. rewrite get_map_set, String.eqb_refl. reflexivity.
  - assert (Hroster : playersOf g' roomID = roster).
    { unfold playersOf. rewrite Hget. reflexivity. }
    rewrite <- Hroster. subst g'.
    apply Nat.leb_gt in Hsize.
    unfold joinRoom, getPlayerWithId. cbv zeta.
    subst roomID playerId.
    rewrite Hroom, Hst.
    change (negb (RoomStatus_eqb WAITING WAITING)) with false.
    cbv iota. rewrite Hpw, Hplayer. cbv iota. rewrite Hsize, Hfree.
    change (Player._id (Player.doc (JoinRoomDto.playerId data) c))
      with (JoinRoomDto.playerId data).
    rewrite Hadd, Hsocket. reflexivity.
Qed.

(** The theorem at work: "j" joins the sample room. *)
Lemma joinRoom_admits_witness :
  option_map (fun room => JsObj.keys (RoomData.players room))
    (JsObj.get
       (Gateway.rooms
          (fst (joinRoom Sample.hosted "j" (JoinRoomDto.mk "1" "J" (Some "pw"))
                  (Sample.store 1))))
       "1")
  = Some ["h"; "j"].
Proof.
  destruct (JsObj.get (Gateway.rooms Sample.hosted) "1") as [room|] eqn:Hroom;
    [|discriminate Hroom].
  pose proof (proj1 (joinRoom_admits Sample.hosted "j"
                       (JoinRoomDto.mk "1" "J" (Some "pw")) (Sample.store 1)
                       room (Sample.columns 1 [1; 2]%Z) Hroom
                       ltac:(injection Hroom as <-; reflexivity)
                       ltac:(injection Hroom as <-; reflexivity)
                       eq_refl
                       ltac:(injection Hroom as <-; unfold MAX_PLAYERS; simpl;
                             lia)
                       eq_refl eq_refl eq_refl
                       ltac:(injection Hroom as <-; reflexivity))) as Hadmit.
  change (JoinRoomDto.roomID (JoinRoomDto.mk "1" "J" (Some "pw"))) with "1"
    in Hadmit.
  rewrite Hadmit. injection Hroom as <-. reflexivity.
Defined.

(** X27. A room that [createRoom] opens is announced at once: when the
    player is found and in no room and the store accepts the creation
    and the update of the player record, the store calls of the turn are
    the lookup, the creation (with the host as only member and the empty
    string for a missing password) and the update; the sender (over an
    open connection) is written the details of the room, with one
    player; and the room list that is broadcast to every open connection
    holds the entry of the new room, with one player and the password
    flag set exactly when a non-empty password was given. *)
Theorem createRoom_announces (g : Gateway.t) (socketId : string)
    (data : CreateRoomDto.t) (db : Store.t) (c : Player.columns)
    (n : positive) :
  let playerId := CreateRoomDto.playerId data in
  Store.findPlayerById db playerId = Resolved (Some c) ->
  found (roomOfPlayer g playerId) = None ->
  Store.insertRoom db = Resolved n ->
  Store.updatePlayerSocket db playerId socketId true = Resolved tt ->
  let id := roomIdOfSeq n in
  let host := hostPlayerData socketId (Player.doc playerId c) in
  let g' := fst (createRoom g socketId data db) in
  let out := snd (createRoom g socketId data db) in
  storeCalls out
  = [Call.getPlayerWithId playerId;
     Call.createRoom (CreateRoomDto.value data)
       (passwordOrEmpty (CreateRoomDto.password data)) [playerId];
     Call.updatePlayerSocket playerId socketId true]
  /\ (isOpen g socketId = true ->
      In (Send socketId
            (roomDetails id WAITING (CreateRoomDto.value data) 1 [host]))
        out)
  /\ (isOpen g socketId = true ->
      exists recipients,
        In (AllCast (roomListUpdated (getPublicRoomList g')) recipients) out
        /\ forall s, isOpen g s = true -> In s recipients)
  /\ In (PublicRoom.mk id WAITING (CreateRoomDto.value data)
           (truthy (passwordOrEmpty (CreateRoomDto.password data))) 1)
       (getPublicRoomList g').
Proof.
  intros playerId Hplayer Hfree Hinsert Hsocket id host g' out.
  pose proof (createRoom_room g socketId data db c n tt Hplayer Hfree Hinsert
                Hsocket) as Hroom.
  fold g' id host in Hroom.
  assert (Hout : out
                 = [Persist (Call.getPlayerWithId playerId);
                    Persist (Call.createRoom (CreateRoomDto.value data)
                               (passwordOrEmpty (CreateRoomDto.password data))
                               [playerId]);
                    Persist (Call.updatePlayerSocket playerId socketId true)]
                   ++ sendToClient g' socketId
                        (roomDetails id WAITING (CreateRoomDto.value data) 1
                           [host])
                   ++ broadcastRoomList g').
  { subst out g' id host playerId.
    unfold createRoom, getPlayerWithId, RoomService_createRoom. cbv zeta.
    rewrite Hplayer, Hfree, Hinsert. simpl. rewrite Hsocket. reflexivity. }
  assert (Hclients : Gateway.clients g' = Gateway.clients g).
  { subst g'. rewrite (createRoom_resolved g socketId data db c n tt Hplayer
                         Hfree Hinsert Hsocket). reflexivity. }
  assert (Hopen' : isOpen g socketId = true -> isOpen g' socketId = true).
  { unfold isOpen. rewrite Hclients. auto. }
  split; [|split; [|split]].
  - rewrite Hout. autorewrite with storeCalls. reflexivity.
  - intros Hopen. rewrite Hout. apply in_or_app. right. apply in_or_app. left.
    unfold sendToClient. rewrite (Hopen' Hopen). left. reflexivity.
  - intros Hopen. rewrite Hout.
    unfold broadcastRoomList, broadcastToAll.
    destruct (Gateway.clients g') as [|e es] eqn:Hcs.
    { specialize (Hopen' Hopen). unfold isOpen in Hopen'. rewrite Hcs in Hopen'.
      discriminate. }
    eexists. split.
    + apply in_or_app. right. apply in_or_app. right. left. reflexivity.
    + rewrite Hclients. intros s Hs. unfold isOpen in Hs.
      destruct (JsObj.get (Gateway.clients g) s) as [ws|] eqn:Hws;
        [|discriminate].
      apply in_map_iff. exists (s, ws). split; [reflexivity|].
      apply filter_In. split; [exact (get_In _ _ _ Hws)|].
      simpl. exact Hs.
  - unfold getPublicRoomList. apply in_map_iff.
    eexists. split; [|apply filter_In; split;
                       [exact (get_In_values _ _ _ Hroom)|]].
    + reflexivity.
    + simpl. apply roomIdOfSeq_truthy.
Qed.

(** The theorem at work: "h" creates the sample room. *)
Lemma createRoom_announces_witness :
  In (PublicRoom.mk "1" WAITING 100 true 1) (getPublicRoomList Sample.hosted).
Proof.
  exact (proj2 (proj2 (proj2
           (createRoom_announces
              (Sample.after Sample.empty
                 [(connection "h", Sample.store 1);
                  (connection "j", Sample.store 1)])
              "h" (CreateRoomDto.mk 100 (Some "pw") "H") (Sample.store 1)
              (Sample.columns 1 [1; 2]%Z) 1%positive
              eq_refl eq_refl eq_refl eq_refl)))).
Defined.

(** ** The host is always ready *)

(** X28. The host of a room is always Ready.  From a freshly loaded
    directory, along any run in which every event is handled to
    completion before the next one, whatever the events and the answers
    of the store, every session flagged as host has the status Ready:
    the host's session is created Ready and the one handler that sets
    sessions back to Waiting, [updateStatusWaitingRoom], skips the
    host.  A start is therefore never held back by the host's own
    readiness. *)
Theorem host_always_ready (production : bool)
    (snapshot : Outcome (list Room.t)) (evs : list (Event * Store.t))
    (r s : string) (p : PlayerData.t) :
  session (fst (run (init production snapshot) evs)) r s = Some p ->
  PlayerData.isHost p = true ->
  PlayerData.status p = Ready.
Proof.
  unfold session. intros Hp Hhost.
  destruct (JsObj.get (Gateway.rooms (fst (run (init production snapshot) evs)))
              r) as [room|] eqn:Hroom; [|discriminate].
  pose proof (run_tidy evs (init production snapshot)
                (loadRoomsFromDb_tidy snapshot)) as Htidy.
  destruct (tidy_get _ _ _ Htidy Hroom) as (_ & _ & _ & _ & _ & _ & Hready).
  rewrite Forall_forall in Hready.
  exact (Hready _ (get_In _ _ _ Hp) Hhost).
Qed.

(** The theorem at work: the host of the sample room, back in the
    waiting room after a game. *)
Lemma host_always_ready_witness :
  option_map PlayerData.status
    (session
       (fst (run (init false (Resolved []))
               [(connection "h", Sample.store 1);
                (connection "j", Sample.store 1);
                (message "h"
                   (createRoom_ (CreateRoomDto.mk 100 (Some "pw") "H")),
                 Sample.store 1);
                (message "j" (joinRoom_ (JoinRoomDto.mk "1" "J" (Some "pw"))),
                 Sample.store 1);
                (message "j" (playerReady_ (PlayerReadyDto.mk "1" "J")),
                 Sample.store 1);
                (message "h" (startGame_ (StartGameDto.mk "1" 3)),
                 Sample.store 1);
                (message "h" (waitingRoom_ (WaitingRoomDto.mk "1")),
                 Sample.store 1)]))
       "1" "h")
  = Some Ready.
Proof.
  destruct (session _ "1" "h") as [p|] eqn:Hp; [|discriminate Hp].
  simpl. f_equal.
  apply (host_always_ready false (Resolved []) _ "1" "h" p Hp).
  injection Hp as <-. reflexivity.
Defined.

(** ** Members only *)

Lemma claimedSession_none (g : Gateway.t) (room : RoomData.t)
    (socketId playerID : string) :
  JsObj.get (RoomData.players room) socketId = None ->
  claimedSession g room socketId playerID = None.
Proof. intros H. unfold claimedSession. rewrite H. reflexivity. Qed.

(** X29. Only the members of a room can act on it.  A message that
    names a room ([kickPlayer], [startGame], [loadingGame],
    [playerReady], [playerChangeCar], [syncPosition], [syncCarPosition],
    [waitingRoom]) and comes from a connection that holds no session in
    that room leaves the whole gateway state unchanged and reaches the
    store with no call, whatever the payload says about players or
    targets. *)
Theorem members_only (g : Gateway.t) (socketId : string) (m : Message)
    (db : Store.t) (roomID : string) :
  roomOf m = Some roomID ->
  session g roomID socketId = None ->
  fst (onMessage g socketId m db) = g
  /\ storeCalls (snd (onMessage g socketId m db)) = [].
Proof.
  unfold session. intros Hm Hnone.
  destruct m as [data|data| |data|data|data|data|data|[data|]|[data|]| |data
                |event| ];
    simpl in Hm; try discriminate; injection Hm as <-;
    unfold onMessage, handleMessage; cbv beta iota.
  - unfold kickPlayer. cbv zeta.
    destruct (String.eqb _ _);
      [simpl; autorewrite with storeCalls; auto|].
    destruct (JsObj.get (Gateway.rooms g) (KickPlayerDto.roomID data))
      as [room|]; [|simpl; autorewrite with storeCalls; auto].
    rewrite Hnone. simpl. autorewrite with storeCalls. auto.
  - unfold startGame. cbv zeta.
    destruct (JsObj.get (Gateway.rooms g) (StartGameDto.roomID data))
      as [room|]; [|simpl; autorewrite with storeCalls; auto].
    rewrite Hnone. simpl. autorewrite with storeCalls. auto.
  - unfold loadingGame. cbv zeta.
    destruct (JsObj.get (Gateway.rooms g) (LoadingGameDto.roomID data))
      as [room|]; [|auto].
    destruct (negb _); [auto|].
    rewrite (claimedSession_none _ _ _ _ Hnone). auto.
  - unfold playerReady. cbv zeta.
    destruct (JsObj.get (Gateway.rooms g) (PlayerReadyDto.roomID data))
      as [room|]; [|auto].
    destruct (negb _); [simpl; autorewrite with storeCalls; auto|].
    rewrite (claimedSession_none _ _ _ _ Hnone). simpl.
    autorewrite with storeCalls. auto.
  - unfold playerChangeCar. cbv zeta.
    destruct (JsObj.get (Gateway.rooms g) (PlayerChangeCarDto.roomID data))
      as [room|]; [|auto].
    destruct (negb _); [simpl; autorewrite with storeCalls; auto|].
    rewrite (claimedSession_none _ _ _ _ Hnone). simpl.
    autorewrite with storeCalls. auto.
  - unfold syncPosition. cbv beta iota zeta.
    destruct (negb (truthy _)); [auto|].
    destruct (JsObj.get (Gateway.rooms g) (PositionSyncDto.roomID data))
      as [room|]; [|auto].
    destruct (negb _); [auto|]. rewrite Hnone. auto.
  - unfold syncCarPosition. cbv beta iota zeta.
    destruct (negb (truthy _)); [auto|].
    destruct (JsObj.get (Gateway.rooms g) (PositionSyncDto.roomID data))
      as [room|]; [|auto].
    destruct (negb _); [auto|]. rewrite Hnone. auto.
  - unfold updateStatusWaitingRoom. cbv zeta.
    destruct (JsObj.get (Gateway.rooms g) (WaitingRoomDto.roomID data))
      as [room|]; [|simpl; autorewrite with storeCalls; auto].
    rewrite Hnone. simpl. autorewrite with storeCalls. auto.
Qed.

(** The theorem at work: a third connection "k" of the sample lobby,
    which is in no room, tries to start the game of room "1". *)
Lemma members_only_witness :
  fst (onMessage lobbyWaiting "k" (startGame_ (StartGameDto.mk "1" 3))
         Sample.down)
  = lobbyWaiting.
Proof.
  exact (proj1 (members_only lobbyWaiting "k"
                  (startGame_ (StartGameDto.mk "1" 3)) Sample.down "1"
                  eq_refl eq_refl)).
Defined.

